(** * tempo.py: session-cookie acquisition and worklog submission

    A shallow embedding of [src/Tools/tempo.py].  Python values are a small
    dynamically typed universe, exceptions are values of type [exn] with the
    class hierarchy the [except] clauses test against, and the effectful
    methods of [CookieService] run in a state-and-exception monad that records
    every call made on the collaborators (browser, credential file, HTTP
    client, logger, clock). *)

From Stdlib Require Import String Ascii List ZArith QArith Bool Lia DecimalString.
Import ListNotations.
Local Open Scope string_scope.
Local Open Scope list_scope.
Local Open Scope Z_scope.

Set Warnings "-register-all".

(* ================================================================== *)
(** ** Python values *)

(** A Python [float], as far as the module observes one (truth value and
    equality): a finite double is the rational it denotes. *)
Inductive pyfloat : Type :=
| FNan
| FInf (negative : bool)
| FFinite (q : Q).

(** The objects that flow through the module: what [json.load] can return,
    the raw cookie dicts of the browser, and [CookieSet] instances.  A
    [str] is held as the UTF-8 encoding of its text, so that two of them are
    equal as Python strings exactly when they are equal here. *)
Inductive pyval : Type :=
| PNone
| PBool (b : bool)
| PInt (z : Z)
| PFloat (f : pyfloat)
| PStr (s : string)
| PList (l : list pyval)
| PDict (d : list (string * pyval))
| PCookieSet (name value : pyval).

(** A document as the [json] library writes and reads it.  An object lists
    each key once, as the dict that [json.load] builds does. *)
Inductive json : Type :=
| JNull
| JBool (b : bool)
| JInt (z : Z)
| JFloat (f : pyfloat)
| JStr (s : string)
| JArr (l : list json)
| JObj (d : list (string * json)).

(** [d.get(k)] on a dict with string keys; the first binding of a key is
    the one the dict holds. *)
Fixpoint dict_get {A : Type} (k : string) (d : list (string * A)) : option A :=
  match d with
  | [] => None
  | (k', v) :: d' => if String.eqb k k' then Some v else dict_get k d'
  end.

Definition dict_keys {A : Type} (d : list (string * A)) : list string :=
  map fst d.

(** [bool(v)]: the truth value Python gives an object. *)
Definition pyfloat_truthy (f : pyfloat) : bool :=
  match f with
  | FNan => true
  | FInf _ => true
  | FFinite q => negb (Qeq_bool q 0)
  end.

Definition truthy (v : pyval) : bool :=
  match v with
  | PNone => false
  | PBool b => b
  | PInt z => negb (z =? 0)
  | PFloat f => pyfloat_truthy f
  | PStr s => match s with EmptyString => false | String _ _ => true end
  | PList l => match l with [] => false | _ => true end
  | PDict d => match d with [] => false | _ => true end
  | PCookieSet _ _ => true
  end.

(** [str.lower()] on one ASCII character. *)
Definition lower_ascii (c : ascii) : ascii :=
  let n := nat_of_ascii c in
  if andb (Nat.leb 65 n) (Nat.leb n 90) then ascii_of_nat (n + 32) else c.

(** U+212A KELVIN SIGN and U+0130 LATIN CAPITAL LETTER I WITH DOT ABOVE in
    UTF-8, and U+0307 COMBINING DOT ABOVE. *)
Definition KELVIN_SIGN : string := String "226" (String "132" (String "170" EmptyString)).
Definition DOTTED_CAPITAL_I : string := String "196" (String "176" EmptyString).
Definition COMBINING_DOT : string := String "204" (String "135" EmptyString).

(** [str.lower()].  Python lowers a string character by character.  The
    letters A-Z go to a-z.  Two characters outside ASCII lower to text that
    has an ASCII letter in it: the Kelvin sign lowers to [k], and the
    dotted capital I to [i] followed by the combining dot; both are lowered
    here.  Every other character outside ASCII lowers to text outside
    ASCII and is kept as it is: the module only compares the result with
    ASCII literals, and such a character makes the comparison fail in
    Python and here alike. *)
Fixpoint lower (s : string) : string :=
  match s with
  | EmptyString => EmptyString
  | String a t =>
      match t with
      | String b t' =>
          if Ascii.eqb a "196" && Ascii.eqb b "176"
          then String "i" (COMBINING_DOT ++ lower t')
          else match t' with
               | String c rest =>
                   if Ascii.eqb a "226" && Ascii.eqb b "132" && Ascii.eqb c "170"
                   then String "k" (lower rest)
                   else String (lower_ascii a) (lower t)
               | EmptyString => String (lower_ascii a) (lower t)
               end
      | EmptyString => String (lower_ascii a) EmptyString
      end
  end.

(* ================================================================== *)
(** ** Exceptions *)

Inductive exn_class : Type :=
| BaseException
| KeyboardInterrupt
| Exception
| OSError              (* [IOError] is this class *)
| FileNotFoundError
| PermissionError
| TimeoutError         (* [asyncio.TimeoutError] is this class *)
| ValueError
| JSONDecodeError
| UnicodeError
| UnicodeDecodeError
| TypeError
| AttributeError
| LookupError
| KeyError
| WebDriverException
| NoSuchElementException
| TimeoutException
| ClientError          (* [aiohttp.ClientError] *)
| ClientConnectionError.

Definition IOError : exn_class := OSError.

(** The direct base class. *)
Definition base (c : exn_class) : option exn_class :=
  match c with
  | BaseException => None
  | KeyboardInterrupt => Some BaseException
  | Exception => Some BaseException
  | OSError => Some Exception
  | FileNotFoundError => Some OSError
  | PermissionError => Some OSError
  | TimeoutError => Some OSError
  | ValueError => Some Exception
  | JSONDecodeError => Some ValueError
  | UnicodeError => Some ValueError
  | UnicodeDecodeError => Some UnicodeError
  | TypeError => Some Exception
  | AttributeError => Some Exception
  | LookupError => Some Exception
  | KeyError => Some LookupError
  | WebDriverException => Some Exception
  | NoSuchElementException => Some WebDriverException
  | TimeoutException => Some WebDriverException
  | ClientError => Some Exception
  | ClientConnectionError => Some ClientError
  end.

Definition exn_class_eqb (a b : exn_class) : bool :=
  match a, b with
  | BaseException, BaseException
  | KeyboardInterrupt, KeyboardInterrupt
  | Exception, Exception
  | OSError, OSError
  | FileNotFoundError, FileNotFoundError
  | PermissionError, PermissionError
  | TimeoutError, TimeoutError
  | ValueError, ValueError
  | JSONDecodeError, JSONDecodeError
  | UnicodeError, UnicodeError
  | UnicodeDecodeError, UnicodeDecodeError
  | TypeError, TypeError
  | AttributeError, AttributeError
  | LookupError, LookupError
  | KeyError, KeyError
  | WebDriverException, WebDriverException
  | NoSuchElementException, NoSuchElementException
  | TimeoutException, TimeoutException
  | ClientError, ClientError
  | ClientConnectionError, ClientConnectionError => true
  | _, _ => false
  end.

(** [issubclass(c, target)]; the hierarchy above is four levels deep. *)
Fixpoint subclass_upto (fuel : nat) (c target : exn_class) : bool :=
  if exn_class_eqb c target then true
  else match fuel with
       | O => false
       | S fuel' => match base c with
                    | Some b => subclass_upto fuel' b target
                    | None => false
                    end
       end.

Definition issubclass : exn_class -> exn_class -> bool := subclass_upto 4.

(** A raised exception: its class and its message. *)
Record exn : Type := Exn { exn_cls : exn_class; exn_msg : string }.

(** What an [except target] clause tests. *)
Definition isinstance (e : exn) (target : exn_class) : bool :=
  issubclass (exn_cls e) target.

(** How a call ends. *)
Inductive outcome (A : Type) : Type :=
| Normal (a : A)
| Raised (e : exn).
Arguments Normal {A} a.
Arguments Raised {A} e.

(** Exception-passing sequencing for the pure part of the module. *)
Definition obind {A B : Type} (o : outcome A) (k : A -> outcome B) : outcome B :=
  match o with
  | Normal a => k a
  | Raised e => Raised e
  end.

Declare Scope outcome_scope.
Delimit Scope outcome_scope with outcome.
Notation "'let!' x ':=' o 'in' k" := (obind o (fun x => k))
  (at level 10, x name, o at level 100, k at level 200) : outcome_scope.

(* ================================================================== *)
(** ** Constants and configuration *)

Definition CONFIG_PATH : string := "./CredentialSettings.json".
Definition MAX_RETRIES : Z := 4.
Definition WAIT_TIME : Z := 3.
Definition PAGE_LOAD_TIMEOUT : Z := 30.

Module Config.
Definition JIRA_URL : string := "jira.xxx.yyy".
Definition DEFAULT_USER : string := "jira_user_name".
Definition DEFAULT_PASSWORD : string := "jira_pwd".
Definition BASE_URL : string := ("https://" ++ JIRA_URL)%string.
Definition LOGIN_PATH : string := "/login.jsp".
Definition TEMPO_API_PATH : string := "/rest/tempo-timesheets/4/worklogs/".
End Config.

(* ================================================================== *)
(** ** The data classes *)

(** [@dataclass class CookieSet]: the fields are annotated [str], which
    Python does not enforce. *)
Record CookieSet : Type := mkCookieSet { name : pyval; value : pyval }.

(** [@dataclass class CredentialSettings]. *)
Record CredentialSettings : Type := mkCredentialSettings {
  user : pyval;
  pwd : pyval;
  JSESSIONID : option CookieSet;
  AtlassianXsrfToken : option CookieSet
}.

(** [CredentialSettings()]: every field at its default. *)
Definition default_settings : CredentialSettings :=
  mkCredentialSettings (PStr Config.DEFAULT_USER) (PStr Config.DEFAULT_PASSWORD)
                       None None.

Definition set_JSESSIONID (c : CookieSet) (s : CredentialSettings) : CredentialSettings :=
  mkCredentialSettings (user s) (pwd s) (Some c) (AtlassianXsrfToken s).

Definition set_AtlassianXsrfToken (c : CookieSet) (s : CredentialSettings) : CredentialSettings :=
  mkCredentialSettings (user s) (pwd s) (JSESSIONID s) (Some c).

(** A [CookieSet] instance, and an [Optional[CookieSet]] attribute, as objects. *)
Definition cookie_object (c : CookieSet) : pyval := PCookieSet (name c) (value c).

Definition optional_object (o : option CookieSet) : pyval :=
  match o with
  | Some c => cookie_object c
  | None => PNone
  end.

(** [settings.__dict__]: the instance attributes in declaration order. *)
Definition instance_dict (s : CredentialSettings) : list (string * pyval) :=
  [ ("user", user s);
    ("pwd", pwd s);
    ("JSESSIONID", optional_object (JSESSIONID s));
    ("AtlassianXsrfToken", optional_object (AtlassianXsrfToken s)) ].

(** [CookieSetEncoder.default]: a [CookieSet] becomes a dict; anything else
    goes to [JSONEncoder.default], which raises. *)
Definition CookieSetEncoder_default (obj : pyval) : outcome pyval :=
  match obj with
  | PCookieSet n v => Normal (PDict [("name", n); ("value", v)])
  | _ => Raised (Exn TypeError "Object is not JSON serializable")
  end.

(** [json.dump(obj, f, cls=CookieSetEncoder)], up to the text: the document
    written.  The encoder serialises the JSON types itself and sends a
    [CookieSet], the one object it cannot serialise, through [default] and
    encodes what comes back. *)
Fixpoint dump (obj : pyval) : json :=
  match obj with
  | PNone => JNull
  | PBool b => JBool b
  | PInt z => JInt z
  | PFloat f => JFloat f
  | PStr s => JStr s
  | PList l => JArr (map dump l)
  | PDict d => JObj (map (fun kv => (fst kv, dump (snd kv))) d)
  | PCookieSet n v => JObj [("name", dump n); ("value", dump v)]
  end.

(** [json.load(f)] on a file holding the document [j]. *)
Fixpoint load (j : json) : pyval :=
  match j with
  | JNull => PNone
  | JBool b => PBool b
  | JInt z => PInt z
  | JFloat f => PFloat f
  | JStr s => PStr s
  | JArr l => PList (map load l)
  | JObj d => PDict (map (fun kv => (fst kv, load (snd kv))) d)
  end.

(** [data.get(key, default)] and [data.get(key)]; only a dict has [get]. *)
Definition py_get (data : pyval) (key : string) (default : pyval) : outcome pyval :=
  match data with
  | PDict d => match dict_get key d with
               | Some v => Normal v
               | None => Normal default
               end
  | _ => Raised (Exn AttributeError "object has no attribute 'get'")
  end.

Definition is_cookie_field (k : string) : bool :=
  String.eqb k "name" || String.eqb k "value".

(** [CookieSet] called with a double-starred argument: the argument must be
    a mapping whose keys are exactly the two fields of the data class. *)
Definition CookieSet_from_kwargs (kwargs : pyval) : outcome CookieSet :=
  match kwargs with
  | PDict d =>
      if forallb is_cookie_field (dict_keys d) then
        match dict_get "name" d, dict_get "value" d with
        | Some n, Some v => Normal (mkCookieSet n v)
        | _, _ => Raised (Exn TypeError "__init__() missing required positional argument")
        end
      else Raised (Exn TypeError "__init__() got an unexpected keyword argument")
  | _ => Raised (Exn TypeError "argument after ** must be a mapping")
  end.

(** [CredentialSettings.from_dict]. *)
Definition from_dict (data : pyval) : outcome CredentialSettings :=
  (let! u := py_get data "user" (PStr Config.DEFAULT_USER) in
   let! p := py_get data "pwd" (PStr Config.DEFAULT_PASSWORD) in
   let settings := mkCredentialSettings u p None None in
   let! cookie_data := py_get data "JSESSIONID" PNone in
   let! settings :=
     (if truthy cookie_data
      then let! c := CookieSet_from_kwargs cookie_data in
           Normal (set_JSESSIONID c settings)
      else Normal settings) in
   let! token_data := py_get data "AtlassianXsrfToken" PNone in
   let! settings :=
     (if truthy token_data
      then let! c := CookieSet_from_kwargs token_data in
           Normal (set_AtlassianXsrfToken c settings)
      else Normal settings) in
   Normal settings)%outcome.

(** [str.lower()] as a method call: only a [str] has it. *)
Definition py_lower (v : pyval) : outcome string :=
  match v with
  | PStr s => Normal (lower s)
  | _ => Raised (Exn AttributeError "object has no attribute 'lower'")
  end.

(** [obj[key]] with a string key: a dict is looked up, nothing else in the
    universe can be subscripted by a string.  The text of a [KeyError] is
    the key in quotes. *)
Definition subscript (obj : pyval) (key : string) : outcome pyval :=
  match obj with
  | PDict d => match dict_get key d with
               | Some v => Normal v
               | None => Raised (Exn KeyError ("'" ++ key ++ "'"))
               end
  | _ => Raised (Exn TypeError "object is not subscriptable by str")
  end.

(** [o.name] and [o.value] on an [Optional[CookieSet]] attribute. *)
Definition attr_name (o : option CookieSet) : outcome pyval :=
  match o with
  | Some c => Normal (name c)
  | None => Raised (Exn AttributeError "'NoneType' object has no attribute 'name'")
  end.

Definition attr_value (o : option CookieSet) : outcome pyval :=
  match o with
  | Some c => Normal (value c)
  | None => Raised (Exn AttributeError "'NoneType' object has no attribute 'value'")
  end.

(** Dict keys must be hashable; lists, dicts and instances of a data class
    with [eq] and without [frozen] are not. *)
Definition hashable (v : pyval) : bool :=
  match v with
  | PList _ | PDict _ | PCookieSet _ _ => false
  | _ => true
  end.

Definition numeric (v : pyval) : option Q :=
  match v with
  | PBool b => Some (if b then 1%Q else 0%Q)
  | PInt z => Some (inject_Z z)
  | PFloat (FFinite q) => Some q
  | _ => None
  end.

(** [a == b] between two hashable values, as a dict compares keys. *)
Definition py_eq (a b : pyval) : bool :=
  match a, b with
  | PNone, PNone => true
  | PStr s, PStr t => String.eqb s t
  | PFloat (FInf x), PFloat (FInf y) => Bool.eqb x y
  | _, _ => match numeric a, numeric b with
            | Some x, Some y => Qeq_bool x y
            | _, _ => false
            end
  end.

(** The dict display [{k1: v1, k2: v2}]: an equal second key keeps the first
    key object and takes the second value. *)
Definition dict_display2 (k1 v1 k2 v2 : pyval) : outcome (list (pyval * pyval)) :=
  if negb (hashable k1) || negb (hashable k2)
  then Raised (Exn TypeError "unhashable type")
  else if py_eq k1 k2 then Normal [(k1, v2)]
       else Normal [(k1, v1); (k2, v2)].

(** [range(n)]. *)
Definition range (n : Z) : list Z :=
  map Z.of_nat (seq 0 (Z.to_nat n)).

(* ================================================================== *)
(** ** The collaborators *)

Definition WebDriver : Type := string.    (* a browser session *)
Definition WebElement : Type := string.   (* an element reference *)

(** One HTTP request of the submitter. *)
Record request : Type := mkRequest {
  req_url : string;
  req_cookies : list (pyval * pyval);
  req_headers : list (string * string);
  req_json : pyval
}.

(** The credential file on disk. *)
Inductive file_state : Type :=
| Unreadable (e : exn)       (* opening or reading it raises [e] *)
| NotJson (msg : string)     (* its text is not a JSON document *)
| Holds (doc : json).        (* its text is the document [doc] *)

(** What is left of a file the moment it is opened for writing. *)
Definition truncated : file_state := NotJson "Expecting value: line 1 column 1 (char 0)".

(** The browser, the disk's willingness to be written, the clock and the
    HTTP server, as transitions of an arbitrary world [W].  Every call may
    end normally or raise.  [left_in_file] is what a dump that raised has
    left in the file: the part of the text that reached the disk. *)
Record Env (W : Type) : Type := mkEnv {
  webdriver_Chrome : list string -> W -> outcome WebDriver * W;
  driver_get : string -> W -> outcome unit * W;
  wait_until_ready : Z -> W -> outcome unit * W;
  find_element : string -> W -> outcome WebElement * W;
  is_displayed : WebElement -> W -> outcome bool * W;
  click : WebElement -> W -> outcome unit * W;
  clear : WebElement -> W -> outcome unit * W;
  send_keys : WebElement -> pyval -> W -> outcome unit * W;
  get_cookies : W -> outcome (list pyval) * W;
  quit : W -> outcome unit * W;
  time_sleep : Z -> W -> W;
  open_w : string -> W -> outcome unit * W;
  file_write : json -> W -> outcome unit * W;
  left_in_file : W -> file_state;
  session_post : request -> W -> outcome Z * W
}.
Arguments webdriver_Chrome {W} _ _ _.
Arguments driver_get {W} _ _ _.
Arguments wait_until_ready {W} _ _ _.
Arguments find_element {W} _ _ _.
Arguments is_displayed {W} _ _ _.
Arguments click {W} _ _ _.
Arguments clear {W} _ _ _.
Arguments send_keys {W} _ _ _ _.
Arguments get_cookies {W} _ _.
Arguments quit {W} _ _.
Arguments time_sleep {W} _ _ _.
Arguments open_w {W} _ _ _.
Arguments file_write {W} _ _ _.
Arguments left_in_file {W} _ _.
Arguments session_post {W} _ _ _.

Inductive log_level : Type := INFO | ERROR.

(** The calls a run makes, in order, each with how it ended. *)
Inductive event : Type :=
| EChrome (options : list string) (r : outcome WebDriver)
| EGet (url : string) (r : outcome unit)
| EWaitReady (timeout : Z) (r : outcome unit)
| EFindElement (id : string) (r : outcome WebElement)
| EIsDisplayed (el : WebElement) (r : outcome bool)
| EClick (el : WebElement) (r : outcome unit)
| EClear (el : WebElement) (r : outcome unit)
| ESendKeys (el : WebElement) (text : pyval) (r : outcome unit)
| EGetCookies (r : outcome (list pyval))
| EQuit (r : outcome unit)
| ESleep (seconds : Z)
| EOpen (path mode : string) (r : outcome unit)
| EDump (doc : json) (r : outcome unit)
| EPost (rq : request) (r : outcome Z)
| ELog (level : log_level) (msg : string).

(** The state a method runs in: the world outside, the credential file,
    the service's [credential_settings] object, and the local [driver] of
    [get_jira_cookies]. *)
Record state (W : Type) : Type := mkState {
  world : W;
  file : file_state;
  credential_settings : CredentialSettings;
  driver : option WebDriver
}.
Arguments mkState {W} _ _ _ _.
Arguments world {W} _.
Arguments file {W} _.
Arguments credential_settings {W} _.
Arguments driver {W} _.

(** State, exceptions and the trace of calls.  A raised exception keeps the
    state reached so far, as mutation in Python does. *)
Definition M (W A : Type) : Type := state W -> outcome A * state W * list event.

Definition ret {W A : Type} (a : A) : M W A :=
  fun s => (Normal a, s, []).

Definition raise {W A : Type} (e : exn) : M W A :=
  fun s => (Raised e, s, []).

Definition bind {W A B : Type} (m : M W A) (k : A -> M W B) : M W B :=
  fun s =>
    match m s with
    | (Normal a, s1, t1) => let '(r, s2, t2) := k a s1 in (r, s2, t1 ++ t2)
    | (Raised e, s1, t1) => (Raised e, s1, t1)
    end.

Declare Scope m_scope.
Delimit Scope m_scope with M.
Notation "x <- m ;; k" := (bind m (fun x => k))
  (at level 61, m at next level, right associativity) : m_scope.
Notation "m ;; k" := (bind m (fun _ => k))
  (at level 61, right associativity) : m_scope.

(** A pure computation that may raise. *)
Definition lift {W A : Type} (o : outcome A) : M W A :=
  fun s => (o, s, []).

(** [try: body  except cls as e: handler e]. *)
Definition try_except {W A : Type} (body : M W A) (cls : exn_class)
           (handler : exn -> M W A) : M W A :=
  fun s =>
    match body s with
    | (Normal a, s1, t1) => (Normal a, s1, t1)
    | (Raised e, s1, t1) =>
        if isinstance e cls
        then let '(r, s2, t2) := handler e s1 in (r, s2, t1 ++ t2)
        else (Raised e, s1, t1)
    end.

(** [try: body  finally: final]: [final] always runs; an exception of
    [final] replaces the outcome of [body]. *)
Definition try_finally {W A : Type} (body : M W A) (final : M W unit) : M W A :=
  fun s =>
    let '(r, s1, t1) := body s in
    match final s1 with
    | (Normal _, s2, t2) => (r, s2, t1 ++ t2)
    | (Raised e, s2, t2) => (Raised e, s2, t1 ++ t2)
    end.

(** [for x in l: body x]. *)
Fixpoint for_each {W A : Type} (l : list A) (body : A -> M W unit) : M W unit :=
  match l with
  | [] => ret tt
  | x :: l' => (body x ;; for_each l' body)%M
  end.

Definition set_world {W : Type} (w : W) (s : state W) : state W :=
  mkState w (file s) (credential_settings s) (driver s).

Definition set_file {W : Type} (f : file_state) (s : state W) : state W :=
  mkState (world s) f (credential_settings s) (driver s).

Definition set_credential_settings {W : Type} (c : CredentialSettings) (s : state W) : state W :=
  mkState (world s) (file s) c (driver s).

Definition set_driver {W : Type} (d : option WebDriver) (s : state W) : state W :=
  mkState (world s) (file s) (credential_settings s) d.

(** A call on a collaborator: the world moves and the call is recorded. *)
Definition call {W A : Type} (h : W -> outcome A * W) (ev : outcome A -> event) : M W A :=
  fun s => let '(r, w) := h (world s) in (r, set_world w s, [ev r]).

Definition sleep {W : Type} (env : Env W) (seconds : Z) : M W unit :=
  fun s => (Normal tt, set_world (time_sleep env seconds (world s)) s, [ESleep seconds]).

Definition log {W : Type} (level : log_level) (msg : string) : M W unit :=
  fun s => (Normal tt, s, [ELog level msg]).

Definition get_settings {W : Type} : M W CredentialSettings :=
  fun s => (Normal (credential_settings s), s, []).

Definition modify_settings {W : Type} (f : CredentialSettings -> CredentialSettings) : M W unit :=
  fun s => (Normal tt, set_credential_settings (f (credential_settings s)) s, []).

Definition get_driver {W : Type} : M W (option WebDriver) :=
  fun s => (Normal (driver s), s, []).

Definition assign_driver {W : Type} (d : option WebDriver) : M W unit :=
  fun s => (Normal tt, set_driver d s, []).

(** [with open(CONFIG_PATH, 'r') as f: json.load(f)]. *)
Definition read_json {W : Type} : M W json :=
  fun s =>
    match file s with
    | Unreadable e => (Raised e, s, [EOpen CONFIG_PATH "r" (Raised e)])
    | NotJson msg => (Raised (Exn JSONDecodeError msg), s, [EOpen CONFIG_PATH "r" (Normal tt)])
    | Holds doc => (Normal doc, s, [EOpen CONFIG_PATH "r" (Normal tt)])
    end.

(** [with open(CONFIG_PATH, 'w') as f: json.dump(obj, f, cls=CookieSetEncoder)]:
    opening truncates the file; the document is on disk once the write
    went through, and a write that raises leaves what the world says. *)
Definition write_json {W : Type} (env : Env W) (obj : pyval) : M W unit :=
  fun s =>
    match open_w env CONFIG_PATH (world s) with
    | (Raised e, w) => (Raised e, set_world w s, [EOpen CONFIG_PATH "w" (Raised e)])
    | (Normal _, w) =>
        let doc := dump obj in
        match file_write env doc w with
        | (Raised e, w') =>
            (Raised e, set_file (left_in_file env w') (set_world w' s),
             [EOpen CONFIG_PATH "w" (Normal tt); EDump doc (Raised e)])
        | (Normal _, w') =>
            (Normal tt, set_file (Holds doc) (set_world w' s),
             [EOpen CONFIG_PATH "w" (Normal tt); EDump doc (Normal tt)])
        end
    end.

(** [str(n)] for an [int]. *)
Definition str_of_int (n : Z) : string :=
  DecimalString.NilZero.string_of_int (Z.to_int n).

(* ================================================================== *)
(** ** CookieService *)

Section CookieService.

Context {W : Type}.
Variable env : Env W.

Local Open Scope m_scope.

(** [_get_web_driver]. *)
Definition _get_web_driver : M W WebDriver :=
  let options := [ "--disable-crash-reporter"; "--disable-logging";
                   "--log-level=3"; "--output=/dev/null" ] in
  call (webdriver_Chrome env options) (EChrome options).

(** The body of the loop of [_save_cookies]. *)
Definition save_cookie (cookie : pyval) : M W unit :=
  n <- lift (subscript cookie "name") ;;
  name <- lift (py_lower n) ;;
  if String.eqb name "jsessionid" then
    n <- lift (subscript cookie "name") ;;
    v <- lift (subscript cookie "value") ;;
    modify_settings (set_JSESSIONID (mkCookieSet n v))
  else if String.eqb name "atl.xsrf.token" || String.eqb name "atlassian.xsrf.token" then
    n <- lift (subscript cookie "name") ;;
    v <- lift (subscript cookie "value") ;;
    modify_settings (set_AtlassianXsrfToken (mkCookieSet n v))
  else ret tt.

(** The store update of [_save_cookies]: its [for] loop. *)
Definition update_store (cookies : list pyval) : M W unit :=
  for_each cookies save_cookie.

(** The persistence step of [_save_cookies]: its [try] statement. *)
Definition persist_settings : M W unit :=
  try_except
    (settings <- get_settings ;;
     write_json env (PDict (instance_dict settings)))
    IOError
    (fun e => log ERROR ("Failed to save cookies: " ++ exn_msg e) ;; raise e).

(** [_save_cookies]. *)
Definition _save_cookies (cookies : list pyval) : M W unit :=
  update_store cookies ;;
  persist_settings.

(** [_handle_login_form]. *)
Definition _handle_login_form : M W unit :=
  try_except
    (username_field <- call (find_element env "login-form-username")
                            (EFindElement "login-form-username") ;;
     password_field <- call (find_element env "login-form-password")
                            (EFindElement "login-form-password") ;;
     call (clear env username_field) (EClear username_field) ;;
     call (clear env password_field) (EClear password_field) ;;
     settings <- get_settings ;;
     call (send_keys env username_field (user settings))
          (ESendKeys username_field (user settings)) ;;
     settings <- get_settings ;;
     call (send_keys env password_field (pwd settings))
          (ESendKeys password_field (pwd settings)))
    WebDriverException
    (fun e => log ERROR ("Failed to fill login form: " ++ exn_msg e) ;; raise e).

(** One iteration of the loop of [_click_element_with_retry]; the result
    says whether the iteration executed [return]. *)
Definition click_attempt (element_id : string) (attempt : Z) : M W bool :=
  try_except
    (element <- call (find_element env element_id) (EFindElement element_id) ;;
     displayed <- call (is_displayed env element) (EIsDisplayed element) ;;
     if displayed then
       call (click env element) (EClick element) ;;
       ret true
     else ret false)
    WebDriverException
    (fun e =>
       if attempt =? MAX_RETRIES - 1 then
         log ERROR ("Failed to click element " ++ element_id ++ ": " ++ exn_msg e) ;;
         raise e
       else
         sleep env WAIT_TIME ;;
         ret false).

(** The loop over the remaining attempts; falling off its end returns
    [None] like any Python function that finishes. *)
Fixpoint click_loop (element_id : string) (attempts : list Z) : M W unit :=
  match attempts with
  | [] => ret tt
  | attempt :: rest =>
      returned <- click_attempt element_id attempt ;;
      if returned then ret tt else click_loop element_id rest
  end.

(** [_click_element_with_retry]. *)
Definition _click_element_with_retry (element_id : string) : M W unit :=
  click_loop element_id (range MAX_RETRIES).

(** The [try] suite of [get_jira_cookies].  [WebDriverWait(driver, ...)]
    only builds the waiter; its [until] is the call [wait_until_ready]. *)
Definition acquire_body : M W unit :=
  d <- _get_web_driver ;;
  assign_driver (Some d) ;;
  call (driver_get env (Config.BASE_URL ++ Config.LOGIN_PATH))
       (EGet (Config.BASE_URL ++ Config.LOGIN_PATH)) ;;
  call (wait_until_ready env PAGE_LOAD_TIMEOUT) (EWaitReady PAGE_LOAD_TIMEOUT) ;;
  sleep env WAIT_TIME ;;
  _click_element_with_retry "login-form-submit" ;;
  _handle_login_form ;;
  _click_element_with_retry "login-form-submit" ;;
  call (wait_until_ready env PAGE_LOAD_TIMEOUT) (EWaitReady PAGE_LOAD_TIMEOUT) ;;
  sleep env WAIT_TIME ;;
  cookies <- call (get_cookies env) EGetCookies ;;
  match cookies with
  | [] => raise (Exn ValueError "No cookies obtained")
  | _ :: _ =>
      _save_cookies cookies ;;
      log INFO "Successfully obtained and saved cookies"
  end.

(** [get_jira_cookies]. *)
Definition get_jira_cookies : M W unit :=
  assign_driver None ;;
  try_finally
    (try_except acquire_body Exception
       (fun e => log ERROR ("Error during cookie retrieval: " ++ exn_msg e) ;; raise e))
    (d <- get_driver ;;
     match d with
     | Some _ => call (quit env) EQuit
     | None => ret tt
     end).

(** The first [try] statement of [post_tempo_worklog]; [None] stands for
    the [return False] of its handler. *)
Definition load_saved_settings : M W (option CredentialSettings) :=
  try_except
    (doc <- read_json ;;
     saved_settings <- lift (from_dict (load doc)) ;;
     ret (Some saved_settings))
    IOError
    (fun e => log ERROR ("Failed to read credentials: " ++ exn_msg e) ;; ret None).

Definition request_headers : list (string * string) :=
  [ ("User-Agent", "Mozilla/5.0 (Windows NT 10.0; Win64; x64) Chrome/118.0.0.0");
    ("Origin", Config.BASE_URL);
    ("Content-Type", "application/json") ].

(** The cookie map of the request. *)
Definition request_cookies (saved_settings : CredentialSettings)
  : outcome (list (pyval * pyval)) :=
  (let! k1 := attr_name (AtlassianXsrfToken saved_settings) in
   let! v1 := attr_value (AtlassianXsrfToken saved_settings) in
   let! k2 := attr_name (JSESSIONID saved_settings) in
   let! v2 := attr_value (JSESSIONID saved_settings) in
   dict_display2 k1 v1 k2 v2)%outcome.

(** [post_tempo_worklog]. *)
Definition post_tempo_worklog (tempo_data : pyval) : M W bool :=
  loaded <- load_saved_settings ;;
  match loaded with
  | None => ret false
  | Some saved_settings =>
      let headers := request_headers in
      cookies <- lift (request_cookies saved_settings) ;;
      try_except
        (let rq := mkRequest (Config.BASE_URL ++ Config.TEMPO_API_PATH)
                             cookies headers tempo_data in
         status <- call (session_post env rq) (EPost rq) ;;
         if status =? 200 then
           log INFO "Tempo worklog posted successfully" ;;
           ret true
         else
           log ERROR ("Failed to post tempo worklog: " ++ str_of_int status) ;;
           ret false)
        ClientError
        (fun e => log ERROR ("HTTP request failed: " ++ exn_msg e) ;; ret false)
  end.

End CookieService.

(* ================================================================== *)
(** ** Vocabulary of the statements *)

(** A raw cookie as the browser hands it out: a dict with a [str] under
    ['name'] and some object under ['value']. *)
Definition cookie_name (c : pyval) : option string :=
  match c with
  | PDict d => match dict_get "name" d with
               | Some (PStr n) => Some n
               | _ => None
               end
  | _ => None
  end.

Definition cookie_value (c : pyval) : option pyval :=
  match c with
  | PDict d => dict_get "value" d
  | _ => None
  end.

Definition raw_cookie (c : pyval) : bool :=
  match cookie_name c, cookie_value c with
  | Some _, Some _ => true
  | _, _ => false
  end.

(** The cookie is named JSESSIONID, in any letter case: [str.lower()]
    takes its name to [jsessionid]. *)
Definition is_session_cookie (c : pyval) : bool :=
  match cookie_name c with
  | Some n => String.eqb (lower n) "jsessionid"
  | None => false
  end.

(** The cookie is named atl.xsrf.token or ATLASSIAN.XSRF.TOKEN, in any
    letter case: [str.lower()] takes its name to one of the two in small
    letters. *)
Definition is_xsrf_cookie (c : pyval) : bool :=
  match cookie_name c with
  | Some n => String.eqb (lower n) "atl.xsrf.token"
              || String.eqb (lower n) "atlassian.xsrf.token"
  | None => false
  end.

(** The named cookie that keeps the raw cookie's own name and value. *)
Definition captured (c : pyval) : option CookieSet :=
  match cookie_name c, cookie_value c with
  | Some n, Some v => Some (mkCookieSet (PStr n) v)
  | _, _ => None
  end.

(** The last element of a list that satisfies a test. *)
Fixpoint find_last {A : Type} (p : A -> bool) (l : list A) : option A :=
  match l with
  | [] => None
  | x :: l' => match find_last p l' with
               | Some y => Some y
               | None => if p x then Some x else None
               end
  end.

(** What one raw cookie does to the store. *)
Definition absorb (s : CredentialSettings) (c : pyval) : CredentialSettings :=
  match captured c with
  | Some k => if is_session_cookie c then set_JSESSIONID k s
              else if is_xsrf_cookie c then set_AtlassianXsrfToken k s
              else s
  | None => s
  end.

(** A store whose fields are all strings, as the data model types them. *)
Definition named_cookie (c : string * string) : CookieSet :=
  mkCookieSet (PStr (fst c)) (PStr (snd c)).

Definition typed_settings (u p : string) (j x : option (string * string))
  : CredentialSettings :=
  mkCredentialSettings (PStr u) (PStr p) (option_map named_cookie j) (option_map named_cookie x).

(** The entry of the written file for one cookie field. *)
Definition cookie_entry (o : option CookieSet) : json :=
  match o with
  | Some c => JObj [("name", dump (name c)); ("value", dump (value c))]
  | None => JNull
  end.

(** The document [persist_settings] writes for a store. *)
Definition settings_document (s : CredentialSettings) : json :=
  JObj [ ("user", dump (user s));
         ("pwd", dump (pwd s));
         ("JSESSIONID", cookie_entry (JSESSIONID s));
         ("AtlassianXsrfToken", cookie_entry (AtlassianXsrfToken s)) ].

(** The file format as the interface description words it: an object
    with the keys user and pwd and no key besides the four, in which a
    cookie key maps to a name/value object when the cookie was captured and
    is absent from the object when it was not. *)
Definition described_cookie_key (o : option CookieSet) (entry : option json) : Prop :=
  match o with
  | Some _ => exists n v, entry = Some (JObj [("name", n); ("value", v)])
  | None => entry = None
  end.

Definition described_document (s : CredentialSettings) (doc : json) : Prop :=
  exists d, doc = JObj d
    /\ (forall k, In k (dict_keys d) ->
                  In k ["user"; "pwd"; "JSESSIONID"; "AtlassianXsrfToken"])
    /\ In "user" (dict_keys d)
    /\ In "pwd" (dict_keys d)
    /\ described_cookie_key (JSESSIONID s) (dict_get "JSESSIONID" d)
    /\ described_cookie_key (AtlassianXsrfToken s) (dict_get "AtlassianXsrfToken" d).

(** A member of a document that is a JSON object. *)
Definition json_member (key : string) (doc : json) : option json :=
  match doc with
  | JObj d => dict_get key d
  | _ => None
  end.

(** The entry is an object with exactly the members [name] and [value]. *)
Definition name_value_shape (entry : option json) : bool :=
  match entry with
  | Some (JObj d) =>
      forallb is_cookie_field (dict_keys d)
      && match dict_get "name" d, dict_get "value" d with
         | Some _, Some _ => true
         | _, _ => false
         end
  | _ => false
  end.

(** What [data.get(key)] gives on a dict. *)
Definition dict_entry (key : string) (d : list (string * pyval)) : pyval :=
  match dict_get key d with
  | Some v => v
  | None => PNone
  end.

(** The cookie attribute [from_dict] builds from one entry, when it builds
    one. *)
Definition cookie_of_entry (entry : pyval) : outcome (option CookieSet) :=
  if truthy entry
  then match CookieSet_from_kwargs entry with
       | Normal c => Normal (Some c)
       | Raised e => Raised e
       end
  else Normal None.

(** The request [post_tempo_worklog] sends. *)
Definition worklog_request (cookies : list (pyval * pyval)) (tempo_data : pyval) : request :=
  mkRequest (Config.BASE_URL ++ Config.TEMPO_API_PATH) cookies request_headers tempo_data.

(** Events that only browse a page, wait, or log. *)
Definition quiet (e : event) : bool :=
  match e with
  | EGet _ _ | EWaitReady _ _ | EFindElement _ _ | EIsDisplayed _ _
  | EClick _ _ | EClear _ _ | ESendKeys _ _ _ | ESleep _ | ELog _ _ => true
  | _ => false
  end.

(** Events that touch the credential file. *)
Definition file_event (e : event) : bool :=
  match e with
  | EOpen _ _ _ | EDump _ _ => true
  | _ => false
  end.

(** Events that start or end a browser session. *)
Definition session_event (e : event) : bool :=
  match e with
  | EChrome _ _ | EQuit _ => true
  | _ => false
  end.

(** The state differs at most in the world outside. *)
Definition steady {W : Type} (s s' : state W) : Prop :=
  file s' = file s
  /\ credential_settings s' = credential_settings s
  /\ driver s' = driver s.

(** The action leaves file, store and local driver alone and makes only
    quiet calls. *)
Definition browses {W A : Type} (m : M W A) : Prop :=
  forall s, let '(_, s', t) := m s in steady s s' /\ forallb quiet t = true.

(** What holds of the part of an acquisition that follows the creation of
    the browser session, from the state [s] it starts in to its end. *)
Definition acquired {W : Type} (s : state W) (r : outcome unit) (s' : state W)
           (t : list event) : Prop :=
  driver s' = driver s
  /\ forallb (fun e => negb (session_event e)) t = true
  /\ (In (EGetCookies (Normal [])) t ->
      (exists e, r = Raised e)
      /\ file s' = file s
      /\ forallb (fun e => negb (file_event e)) t = true)
  /\ (forall doc, In (EDump doc (Normal tt)) t ->
                  file s' = Holds doc
                  /\ doc = settings_document (credential_settings s'))
  /\ (r = Normal tt -> exists doc, In (EDump doc (Normal tt)) t).

(* ================================================================== *)
(** ** Sample worlds and inputs *)

(** A world without memory in which every call ends normally, except that
    visibility, the cookie jar and the HTTP exchange end as given. *)
Definition steady_env (displayed : outcome bool)
           (cookies : outcome (list pyval)) (posted : outcome Z) : Env unit :=
  mkEnv unit
    (fun _ w => (Normal "session-1", w))
    (fun _ w => (Normal tt, w))
    (fun _ w => (Normal tt, w))
    (fun id w => (Normal ("element:" ++ id)%string, w))
    (fun _ w => (displayed, w))
    (fun _ w => (Normal tt, w))
    (fun _ w => (Normal tt, w))
    (fun _ _ w => (Normal tt, w))
    (fun w => (cookies, w))
    (fun w => (Normal tt, w))
    (fun _ w => w)
    (fun _ w => (Normal tt, w))
    (fun _ w => (Normal tt, w))
    (fun _ => truncated)
    (fun _ w => (posted, w)).

(** A world in which the page never has the element asked for. *)
Definition absent_env : Env unit :=
  mkEnv unit
    (fun _ w => (Normal "session-1", w))
    (fun _ w => (Normal tt, w))
    (fun _ w => (Normal tt, w))
    (fun id w => (Raised (Exn NoSuchElementException ("no such element: " ++ id)%string), w))
    (fun _ w => (Normal true, w))
    (fun _ w => (Normal tt, w))
    (fun _ w => (Normal tt, w))
    (fun _ _ w => (Normal tt, w))
    (fun w => (Normal [], w))
    (fun w => (Normal tt, w))
    (fun _ w => w)
    (fun _ w => (Normal tt, w))
    (fun _ w => (Normal tt, w))
    (fun _ => truncated)
    (fun _ w => (Normal 200, w)).

Definition raw (n v : string) : pyval :=
  PDict [("name", PStr n); ("value", PStr v); ("path", PStr "/"); ("secure", PBool true)].

Definition sample_cookies : list pyval :=
  [ raw "seraph.rememberme" "r1"; raw "JSESSIONID" "A1B2";
    raw "atl.xsrf.token" "tok-9"; raw "theme" "dark" ].

(** A cookie list whose last cookie is named with the Kelvin sign in the
    place of the letter k: [str.lower()] makes it [atl.xsrf.token]. *)
Definition kelvin_name : string := "atl.xsrf.to" ++ KELVIN_SIGN ++ "en".

Definition kelvin_cookies : list pyval :=
  [ raw "jsessionid" "old"; raw "atl.xsrf.token" "tok-9";
    raw "JSESSIONID" "new"; raw kelvin_name "t2" ].

Definition fresh_state (f : file_state) : state unit :=
  mkState tt f default_settings None.

Definition sample_worklog : pyval :=
  PDict [ ("worker", PStr "JIRAUSER15"); ("started", PStr "2025-01-21");
          ("timeSpentSeconds", PInt 3600); ("originTaskId", PStr "42") ].

Definition saved_file : file_state :=
  Holds (settings_document
           (typed_settings "u" "p" (Some ("JSESSIONID", "A1B2")) (Some ("atl.xsrf.token", "tok-9")))).

(** A credential file that was written when only the session cookie had
    been captured. *)
Definition file_without_token : file_state :=
  Holds (settings_document (typed_settings "u" "p" (Some ("JSESSIONID", "A1B2")) None)).

(* ================================================================== *)
(** ** The entry point *)

(** The example payload of the [__main__] block. *)
Definition example_tempo_data : pyval :=
  PDict [ ("attributes", PDict []);
          ("billableSeconds", PNone);
          ("originId", PInt (-1));
          ("worker", PStr "JIRAUSER15");
          ("comment", PNone);
          ("started", PStr "2025-01-21");
          ("timeSpentSeconds", PInt 3600);
          ("originTaskId", PStr "42");
          ("remainingEstimate", PInt 0);
          ("endDate", PNone);
          ("includeNonWorkingDays", PNone) ].

Section EntryPoint.

Context {W : Type}.
Variable env : Env W.

(** [main]: a service over fresh settings acquires the cookies and then
    posts the example worklog; the result of the post is dropped. *)
Definition main : M W unit :=
  (modify_settings (fun _ => default_settings) ;;
   get_jira_cookies env ;;
   _ <- post_tempo_worklog env example_tempo_data ;;
   ret tt)%M.

End EntryPoint.

(* ================================================================== *)
(** ** Vocabulary of the further properties *)

(** An entry [from_dict] gets past: falsy, or a dict with exactly the keys
    [name] and [value]. *)
Definition accepted_entry (v : pyval) : bool :=
  negb (truthy v)
  || match v with
     | PDict d =>
         forallb is_cookie_field (dict_keys d)
         && match dict_get "name" d, dict_get "value" d with
            | Some _, Some _ => true
            | _, _ => false
            end
     | _ => false
     end.

(** The keys [from_dict] looks at. *)
Definition known_key (k : string) : bool :=
  String.eqb k "user" || String.eqb k "pwd"
  || String.eqb k "JSESSIONID" || String.eqb k "AtlassianXsrfToken".

Definition keep_known (d : list (string * pyval)) : list (string * pyval) :=
  filter (fun kv => known_key (fst kv)) d.

(** A value that [json.load] can return. *)
Definition loaded (v : pyval) : Prop := exists j, v = load j.

Definition loaded_cookie (o : option CookieSet) : Prop :=
  match o with
  | Some c => loaded (name c) /\ loaded (value c)
  | None => True
  end.

(** A cookie the loop of [_save_cookies] gets past: its name is a [str],
    and it has a value if the name is one the loop stores. *)
Definition usable (c : pyval) : bool :=
  match cookie_name c with
  | Some _ =>
      if is_session_cookie c || is_xsrf_cookie c
      then match cookie_value c with Some _ => true | None => false end
      else true
  | None => false
  end.

(** The store only gains cookies: user and password stand and a cookie
    field that was filled stays filled. *)
Definition grows (a b : CredentialSettings) : Prop :=
  user b = user a
  /\ pwd b = pwd a
  /\ (JSESSIONID a <> None -> JSESSIONID b <> None)
  /\ (AtlassianXsrfToken a <> None -> AtlassianXsrfToken b <> None).

Definition is_find (e : event) : bool :=
  match e with EFindElement _ _ => true | _ => false end.

Definition is_sleep (e : event) : bool :=
  match e with ESleep _ => true | _ => false end.

Definition is_clicked (e : event) : bool :=
  match e with EClick _ (Normal _) => true | _ => false end.

Definition is_post (e : event) : bool :=
  match e with EPost _ _ => true | _ => false end.

(** How often events of one kind occur in a trace. *)
Definition count (p : event -> bool) (t : list event) : nat :=
  length (filter p t).

(** Every sleep in the trace lasts [WAIT_TIME] seconds. *)
Definition sleeps_wait_time (t : list event) : bool :=
  forallb (fun e => match e with ESleep n => n =? WAIT_TIME | _ => true end) t.

(** Every click in the trace comes right after [is_displayed] has answered
    [True] for the same element. *)
Fixpoint clicks_follow_check (t : list event) : bool :=
  match t with
  | a :: t' =>
      match t' with
      | EClick el _ :: _ =>
          match a with
          | EIsDisplayed el' (Normal true) => String.eqb el el'
          | _ => false
          end
      | _ => true
      end && clicks_follow_check t'
  | [] => true
  end.

Definition clicks_guarded (t : list event) : bool :=
  match t with
  | EClick _ _ :: _ => false
  | _ => clicks_follow_check t
  end.

(** The calls of one attempt of the retry loop that ends with the
    exception [e]: the lookup, the visibility check or the click raised. *)
Definition failed_attempt (element_id : string) (e : exn) (calls : list event) : Prop :=
  calls = [EFindElement element_id (Raised e)]
  \/ (exists el, calls = [EFindElement element_id (Normal el);
                          EIsDisplayed el (Raised e)])
  \/ (exists el, calls = [EFindElement element_id (Normal el);
                          EIsDisplayed el (Normal true);
                          EClick el (Raised e)]).

(** The last attempt of the list, and no other, has the index at which the
    handler raises instead of sleeping. *)
Fixpoint final_attempt_last (attempts : list Z) : bool :=
  match attempts with
  | [] => false
  | a :: rest =>
      match rest with
      | [] => a =? MAX_RETRIES - 1
      | _ :: _ => negb (a =? MAX_RETRIES - 1) && final_attempt_last rest
      end
  end.

(** What holds of a run of the retry loop over the attempts [attempts]
    that ends with [r] and made the calls [t]. *)
Definition retry_run (element_id : string) (attempts : list Z)
           (r : outcome unit) (t : list event) : Prop :=
  (exists r0 t', t = EFindElement element_id r0 :: t')
  /\ (count is_find t <= length attempts)%nat
  /\ (count is_sleep t < count is_find t)%nat
  /\ sleeps_wait_time t = true
  /\ clicks_follow_check t = true
  /\ forallb (fun e => negb (is_clicked e)) (removelast t) = true
  /\ match r with
     | Normal _ =>
         (exists t0 el, t = t0 ++ [EClick el (Normal tt)])
         \/ (exists t0 el, t = t0 ++ [EIsDisplayed el (Normal false)]
                           /\ count is_find t = length attempts)
     | Raised e =>
         exists t0 calls,
           failed_attempt element_id e calls
           /\ if isinstance e WebDriverException
              then t = t0 ++ calls
                        ++ [ELog ERROR ("Failed to click element " ++ element_id
                                        ++ ": " ++ exn_msg e)]
                   /\ count is_find t = length attempts
              else t = t0 ++ calls
     end.

(** The exception a recorded call ended with, if it raised. *)
Definition outcome_exn {A : Type} (r : outcome A) : option exn :=
  match r with
  | Normal _ => None
  | Raised e => Some e
  end.

Definition raised_by (ev : event) : option exn :=
  match ev with
  | EChrome _ r => outcome_exn r
  | EGet _ r => outcome_exn r
  | EWaitReady _ r => outcome_exn r
  | EFindElement _ r => outcome_exn r
  | EIsDisplayed _ r => outcome_exn r
  | EClick _ r => outcome_exn r
  | EClear _ r => outcome_exn r
  | ESendKeys _ _ r => outcome_exn r
  | EGetCookies r => outcome_exn r
  | EQuit r => outcome_exn r
  | ESleep _ => None
  | EOpen _ _ r => outcome_exn r
  | EDump _ r => outcome_exn r
  | EPost _ r => outcome_exn r
  | ELog _ _ => None
  end.

Definition ended_normally (ev : event) : bool :=
  match raised_by ev with
  | None => true
  | Some _ => false
  end.

Definition is_log (e : event) : bool :=
  match e with ELog _ _ => true | _ => false end.

(** Every call the action makes, from any state, is of the kind [P]. *)
Definition emits {W A : Type} (P : event -> Prop) (m : M W A) : Prop :=
  forall s, Forall P (snd (m s)).

(** The calls an acquisition may make, with the arguments the module
    fixes for them.  No HTTP request is among them, and the credential file
    is opened for writing only. *)
Definition acquisition_call (e : event) : Prop :=
  match e with
  | EChrome options _ =>
      options = [ "--disable-crash-reporter"; "--disable-logging";
                  "--log-level=3"; "--output=/dev/null" ]
  | EGet url _ => url = (Config.BASE_URL ++ Config.LOGIN_PATH)%string
  | EWaitReady timeout _ => timeout = PAGE_LOAD_TIMEOUT
  | EFindElement id _ =>
      id = "login-form-submit" \/ id = "login-form-username"
      \/ id = "login-form-password"
  | ESleep seconds => seconds = WAIT_TIME
  | EOpen path mode _ => path = CONFIG_PATH /\ mode = "w"
  | EPost _ _ => False
  | _ => True
  end.

(** What holds of the part of an acquisition that follows the creation of
    the browser session, as far as the store goes: the store only grows,
    and a normal end has read a list of usable cookies, folded it into the
    store, written the store's document and logged the success, in this
    order and after quiet calls only. *)
Definition stored {W : Type} (s : state W) (r : outcome unit) (s' : state W)
           (t : list event) : Prop :=
  grows (credential_settings s) (credential_settings s')
  /\ (r = Normal tt ->
      exists cookies before,
        t = before
              ++ [ EGetCookies (Normal cookies);
                   EOpen CONFIG_PATH "w" (Normal tt);
                   EDump (settings_document (credential_settings s')) (Normal tt);
                   ELog INFO "Successfully obtained and saved cookies" ]
        /\ forallb quiet before = true
        /\ cookies <> []
        /\ forallb usable cookies = true
        /\ credential_settings s' = fold_left absorb cookies (credential_settings s)
        /\ file s' = Holds (settings_document (credential_settings s'))).

(** A world in which no browser can be started. *)
Definition no_browser_env : Env unit :=
  mkEnv unit
    (fun _ w => (Raised (Exn WebDriverException "chromedriver not found"), w))
    (fun _ w => (Normal tt, w))
    (fun _ w => (Normal tt, w))
    (fun id w => (Normal ("element:" ++ id)%string, w))
    (fun _ w => (Normal true, w))
    (fun _ w => (Normal tt, w))
    (fun _ w => (Normal tt, w))
    (fun _ _ w => (Normal tt, w))
    (fun w => (Normal [], w))
    (fun w => (Normal tt, w))
    (fun _ w => w)
    (fun _ w => (Normal tt, w))
    (fun _ w => (Normal tt, w))
    (fun _ => truncated)
    (fun _ w => (Normal 200, w)).

(** The options [_get_web_driver] starts Chrome with. *)
Definition chrome_options : list string :=
  [ "--disable-crash-reporter"; "--disable-logging";
    "--log-level=3"; "--output=/dev/null" ].

(** The log entry of the [except Exception] clause of [get_jira_cookies]
    for the outcome of its [try] suite. *)
Definition retrieval_log (r : outcome unit) : list event :=
  match r with
  | Normal _ => []
  | Raised e =>
      if isinstance e Exception
      then [ELog ERROR ("Error during cookie retrieval: " ++ exn_msg e)]
      else []
  end.

(** A world in which everything works except quitting the browser. *)
Definition failing_quit_env : Env unit :=
  mkEnv unit
    (fun _ w => (Normal "session-1", w))
    (fun _ w => (Normal tt, w))
    (fun _ w => (Normal tt, w))
    (fun id w => (Normal ("element:" ++ id)%string, w))
    (fun _ w => (Normal true, w))
    (fun _ w => (Normal tt, w))
    (fun _ w => (Normal tt, w))
    (fun _ _ w => (Normal tt, w))
    (fun w => (Normal sample_cookies, w))
    (fun w => (Raised (Exn WebDriverException "chrome not reachable"), w))
    (fun _ w => w)
    (fun _ w => (Normal tt, w))
    (fun _ w => (Normal tt, w))
    (fun _ => truncated)
    (fun _ w => (Normal 200, w)).

(* ================================================================== *)
(** ** The store update *)

Lemma lower_names_apart (n : string) :
  String.eqb (lower n) "jsessionid" = true ->
  String.eqb (lower n) "atl.xsrf.token" || String.eqb (lower n) "atlassian.xsrf.token" = false.
Proof.
  intros H. apply String.eqb_eq in H. rewrite H. reflexivity.
Qed.

Lemma raw_cookie_inv (c : pyval) :
  raw_cookie c = true ->
  exists d n v, c = PDict d /\ dict_get "name" d = Some (PStr n)
                /\ dict_get "value" d = Some v.
Proof.
  unfold raw_cookie, cookie_name, cookie_value.
  destruct c as [| | | | |l|d|n0 v0]; try discriminate.
  destruct (dict_get "name" d) as [[| | | |n| | |]|] eqn:Hn; try discriminate.
  destruct (dict_get "value" d) as [v|] eqn:Hv; try discriminate.
  intros _. exists d, n, v. auto.
Qed.

Lemma raw_cookie_captured (c : pyval) :
  raw_cookie c = true ->
  exists n v, cookie_name c = Some n /\ cookie_value c = Some v
              /\ captured c = Some (mkCookieSet (PStr n) v).
Proof.
  intros H. destruct (raw_cookie_inv c H) as (d & n & v & -> & Hn & Hv).
  exists n, v. unfold captured, cookie_name, cookie_value. rewrite Hn, Hv. auto.
Qed.

(** On a raw cookie the loop body finishes normally, silently, and does to
    the store what [absorb] says. *)
Lemma save_cookie_raw {W : Type} (c : pyval) (s : state W) :
  raw_cookie c = true ->
  save_cookie c s
  = (Normal tt, set_credential_settings (absorb (credential_settings s) c) s, []).
Proof.
  intros H. destruct (raw_cookie_inv c H) as (d & n & v & -> & Hn & Hv).
  unfold save_cookie, absorb, captured, is_session_cookie, is_xsrf_cookie,
    cookie_name, cookie_value, bind, lift, subscript, py_lower, modify_settings, ret.
  rewrite Hn, Hv. cbn.
  destruct (String.eqb (lower n) "jsessionid") eqn:Hj.
  - rewrite ?Hn, ?Hv. reflexivity.
  - destruct (String.eqb (lower n) "atl.xsrf.token"
              || String.eqb (lower n) "atlassian.xsrf.token") eqn:Hx.
    + rewrite ?Hn, ?Hv. reflexivity.
    + destruct s; reflexivity.
Qed.

Lemma set_settings_twice {W : Type} (a b : CredentialSettings) (s : state W) :
  set_credential_settings a (set_credential_settings b s) = set_credential_settings a s.
Proof. reflexivity. Qed.

(** On raw cookies the loop is a left fold of [absorb] over the list. *)
Lemma update_store_raw {W : Type} (cookies : list pyval) :
  Forall (fun c => raw_cookie c = true) cookies ->
  forall s : state W,
    update_store cookies s
    = (Normal tt,
       set_credential_settings (fold_left absorb cookies (credential_settings s)) s, []).
Proof.
  unfold update_store.
  induction 1 as [|c l Hc Hl IH]; intros s.
  - destruct s; reflexivity.
  - cbn [for_each fold_left]. unfold bind at 1.
    rewrite (save_cookie_raw c s Hc), IH. reflexivity.
Qed.

Lemma absorb_user (s : CredentialSettings) (c : pyval) :
  user (absorb s c) = user s /\ pwd (absorb s c) = pwd s.
Proof.
  unfold absorb. destruct (captured c); auto.
  destruct (is_session_cookie c); auto.
  destruct (is_xsrf_cookie c); auto.
Qed.

Lemma fold_absorb_user (l : list pyval) :
  forall s, user (fold_left absorb l s) = user s /\ pwd (fold_left absorb l s) = pwd s.
Proof.
  induction l as [|c l IH]; intros s; cbn; auto.
  destruct (IH (absorb s c)) as [-> ->]. apply absorb_user.
Qed.

Lemma session_not_xsrf (c : pyval) :
  is_session_cookie c = true -> is_xsrf_cookie c = false.
Proof.
  unfold is_session_cookie, is_xsrf_cookie.
  destruct (cookie_name c); [apply lower_names_apart | discriminate].
Qed.

Lemma absorb_session (s : CredentialSettings) (c : pyval) :
  raw_cookie c = true ->
  JSESSIONID (absorb s c) = if is_session_cookie c then captured c else JSESSIONID s.
Proof.
  intros H. destruct (raw_cookie_captured c H) as (n & v & _ & _ & Hk).
  unfold absorb. rewrite Hk.
  destruct (is_session_cookie c); [reflexivity|].
  destruct (is_xsrf_cookie c); reflexivity.
Qed.

Lemma absorb_xsrf (s : CredentialSettings) (c : pyval) :
  raw_cookie c = true ->
  AtlassianXsrfToken (absorb s c)
  = if is_xsrf_cookie c then captured c else AtlassianXsrfToken s.
Proof.
  intros H. destruct (raw_cookie_captured c H) as (n & v & _ & _ & Hk).
  unfold absorb. rewrite Hk.
  destruct (is_session_cookie c) eqn:Hs.
  - rewrite (session_not_xsrf c Hs). reflexivity.
  - destruct (is_xsrf_cookie c); reflexivity.
Qed.

(** Each field ends up holding the last cookie of the list that matches it. *)
Lemma fold_absorb_session (l : list pyval) :
  Forall (fun c => raw_cookie c = true) l ->
  forall s, JSESSIONID (fold_left absorb l s)
            = match find_last is_session_cookie l with
              | Some c => captured c
              | None => JSESSIONID s
              end.
Proof.
  induction 1 as [|c l Hc Hl IH]; intros s; cbn; [reflexivity|].
  rewrite IH. destruct (find_last is_session_cookie l); [reflexivity|].
  rewrite (absorb_session s c Hc). destruct (is_session_cookie c); reflexivity.
Qed.

Lemma fold_absorb_xsrf (l : list pyval) :
  Forall (fun c => raw_cookie c = true) l ->
  forall s, AtlassianXsrfToken (fold_left absorb l s)
            = match find_last is_xsrf_cookie l with
              | Some c => captured c
              | None => AtlassianXsrfToken s
              end.
Proof.
  induction 1 as [|c l Hc Hl IH]; intros s; cbn; [reflexivity|].
  rewrite IH. destruct (find_last is_xsrf_cookie l); [reflexivity|].
  rewrite (absorb_xsrf s c Hc). destruct (is_xsrf_cookie c); reflexivity.
Qed.

Lemma find_last_none {A : Type} (p : A -> bool) (l : list A) :
  (forall y, In y l -> p y = false) -> find_last p l = None.
Proof.
  induction l as [|x l IH]; intros H; cbn; [reflexivity|].
  rewrite IH by (intros y Hy; apply H; right; exact Hy).
  rewrite (H x (or_introl eq_refl)). reflexivity.
Qed.

(** The element after which nothing matches is the one [find_last] finds. *)
Lemma find_last_app {A : Type} (p : A -> bool) (before after : list A) (x : A) :
  p x = true -> (forall y, In y after -> p y = false) ->
  find_last p (before ++ x :: after) = Some x.
Proof.
  intros Hx Hafter. induction before as [|b before IH]; cbn.
  - rewrite (find_last_none p after Hafter), Hx. reflexivity.
  - rewrite IH. reflexivity.
Qed.

Lemma find_last_unique {A : Type} (p : A -> bool) (l : list A) (x : A) :
  In x l -> p x = true -> (forall y, In y l -> p y = true -> y = x) ->
  find_last p l = Some x.
Proof.
  induction l as [|a l IH]; intros Hin Hx Huniq; [destruct Hin|].
  cbn. destruct (find_last p l) as [y|] eqn:Hl.
  - assert (Hy : In y l /\ p y = true).
    { clear - Hl. revert y Hl. induction l as [|b l IH]; cbn; [discriminate|].
      intros y. destruct (find_last p l) as [z|].
      - intros [= <-]. destruct (IH z eq_refl). auto.
      - destruct (p b) eqn:Hb; [|discriminate]. intros [= <-]. auto. }
    destruct Hy as [Hy1 Hy2]. f_equal. apply Huniq; [right|]; assumption.
  - destruct Hin as [->|Hin].
    + rewrite Hx. reflexivity.
    + assert (E : @None A = Some x); [|discriminate E].
      apply IH; auto. intros y Hy. apply Huniq. right. exact Hy.
Qed.

(** What [lower] does outside the letters A-Z: the Kelvin sign is a
    capital k, the dotted capital I leaves its dot behind, and other text
    outside ASCII stays outside ASCII. *)
Lemma lower_beyond_ascii :
  lower "JSessionID" = "jsessionid"
  /\ lower kelvin_name = "atl.xsrf.token"
  /\ lower ("JSESS" ++ DOTTED_CAPITAL_I ++ "ONID")%string
      = ("jsessi" ++ COMBINING_DOT ++ "onid")%string
  /\ is_xsrf_cookie (raw kelvin_name "t2") = true
  /\ is_session_cookie (raw ("JSESS" ++ DOTTED_CAPITAL_I ++ "ONID")%string "v") = false.
Proof.
  repeat split; reflexivity.
Qed.

(** C1: when the raw cookie list holds one cookie named JSESSIONID (any
    letter case) and one named atl.xsrf.token or ATLASSIAN.XSRF.TOKEN (any
    letter case), where a name is the given one in some letter case when
    [str.lower()] takes it to the given one in small letters, the store
    update ends normally with the session field
    and the xsrf field holding exactly those two cookies under their own
    names and values; user and password stay as they were and no other
    cookie of the list leaves a trace in the store. *)
Theorem store_update_captures_both_cookies :
  forall (W : Type) (cookies : list pyval) (cj cx : pyval) (s : state W),
    Forall (fun c => raw_cookie c = true) cookies ->
    In cj cookies -> is_session_cookie cj = true ->
    (forall c, In c cookies -> is_session_cookie c = true -> c = cj) ->
    In cx cookies -> is_xsrf_cookie cx = true ->
    (forall c, In c cookies -> is_xsrf_cookie c = true -> c = cx) ->
    exists nj vj nx vx,
      cookie_name cj = Some nj /\ cookie_value cj = Some vj /\
      cookie_name cx = Some nx /\ cookie_value cx = Some vx /\
      update_store cookies s
      = (Normal tt,
         set_credential_settings
           (mkCredentialSettings
              (user (credential_settings s)) (pwd (credential_settings s))
              (Some (mkCookieSet (PStr nj) vj))
              (Some (mkCookieSet (PStr nx) vx))) s,
         []).
Proof.
  intros W cookies cj cx s Hraw Hj1 Hj2 Hj3 Hx1 Hx2 Hx3.
  assert (Rj : raw_cookie cj = true).
  { rewrite Forall_forall in Hraw. apply Hraw, Hj1. }
  assert (Rx : raw_cookie cx = true).
  { rewrite Forall_forall in Hraw. apply Hraw, Hx1. }
  destruct (raw_cookie_captured cj Rj) as (nj & vj & Nj & Vj & Kj).
  destruct (raw_cookie_captured cx Rx) as (nx & vx & Nx & Vx & Kx).
  exists nj, vj, nx, vx. repeat split; try assumption.
  rewrite (update_store_raw cookies Hraw s). f_equal. f_equal.
  pose proof (fold_absorb_session cookies Hraw (credential_settings s)) as Fj.
  pose proof (fold_absorb_xsrf cookies Hraw (credential_settings s)) as Fx.
  rewrite (find_last_unique _ _ _ Hj1 Hj2 Hj3), Kj in Fj.
  rewrite (find_last_unique _ _ _ Hx1 Hx2 Hx3), Kx in Fx.
  destruct (fold_absorb_user cookies (credential_settings s)) as [Fu Fp].
  destruct (fold_left absorb cookies (credential_settings s)) as [u p j x].
  cbn in *. subst. reflexivity.
Qed.

Lemma store_update_captures_both_cookies_witness :
  update_store sample_cookies (fresh_state truncated)
  = (Normal tt,
     set_credential_settings
       (mkCredentialSettings
          (PStr Config.DEFAULT_USER) (PStr Config.DEFAULT_PASSWORD)
          (Some (mkCookieSet (PStr "JSESSIONID") (PStr "A1B2")))
          (Some (mkCookieSet (PStr "atl.xsrf.token") (PStr "tok-9"))))
       (fresh_state truncated),
     []).
Proof.
  destruct (store_update_captures_both_cookies unit sample_cookies
              (raw "JSESSIONID" "A1B2") (raw "atl.xsrf.token" "tok-9")
              (fresh_state truncated))
    as (nj & vj & nx & vx & Nj & Vj & Nx & Vx & Run).
  - repeat constructor.
  - simpl. auto.
  - reflexivity.
  - intros c [<-|[<-|[<-|[<-|[]]]]] H; try reflexivity; cbv in H; discriminate H.
  - simpl. auto.
  - reflexivity.
  - intros c [<-|[<-|[<-|[<-|[]]]]] H; try reflexivity; cbv in H; discriminate H.
  - cbv in Nj, Vj, Nx, Vx.
    injection Nj as <-. injection Vj as <-. injection Nx as <-. injection Vx as <-.
    exact Run.
Defined.

(** C10: when several cookies of the raw list match the session name, or
    several match the xsrf names, each field of the store ends up holding
    the last matching cookie in list order; earlier matches are
    overwritten. *)
Theorem last_matching_cookie_wins :
  forall (W : Type) (cookies : list pyval) (s : state W),
    Forall (fun c => raw_cookie c = true) cookies ->
    exists final,
      update_store cookies s = (Normal tt, set_credential_settings final s, [])
      /\ (forall before c after,
             cookies = before ++ c :: after ->
             is_session_cookie c = true ->
             (forall c', In c' after -> is_session_cookie c' = false) ->
             JSESSIONID final = captured c)
      /\ (forall before c after,
             cookies = before ++ c :: after ->
             is_xsrf_cookie c = true ->
             (forall c', In c' after -> is_xsrf_cookie c' = false) ->
             AtlassianXsrfToken final = captured c).
Proof.
  intros W cookies s Hraw.
  exists (fold_left absorb cookies (credential_settings s)).
  split; [apply update_store_raw, Hraw|]. split.
  - intros before c after E Hc Hafter.
    rewrite (fold_absorb_session cookies Hraw), E, (find_last_app _ _ _ _ Hc Hafter).
    reflexivity.
  - intros before c after E Hc Hafter.
    rewrite (fold_absorb_xsrf cookies Hraw), E, (find_last_app _ _ _ _ Hc Hafter).
    reflexivity.
Qed.

Lemma last_matching_cookie_wins_witness :
  exists final,
    update_store kelvin_cookies (fresh_state truncated)
    = (Normal tt, set_credential_settings final (fresh_state truncated), [])
    /\ JSESSIONID final = Some (mkCookieSet (PStr "JSESSIONID") (PStr "new"))
    /\ AtlassianXsrfToken final = Some (mkCookieSet (PStr kelvin_name) (PStr "t2")).
Proof.
  destruct (last_matching_cookie_wins unit kelvin_cookies (fresh_state truncated))
    as (final & Run & Hj & Hx).
  - repeat constructor.
  - exists final. split; [exact Run|]. split.
    + apply (Hj [raw "jsessionid" "old"; raw "atl.xsrf.token" "tok-9"]
                (raw "JSESSIONID" "new") [raw kelvin_name "t2"]).
      * reflexivity.
      * reflexivity.
      * intros c' [<-|[]]. reflexivity.
    + apply (Hx [raw "jsessionid" "old"; raw "atl.xsrf.token" "tok-9";
                 raw "JSESSIONID" "new"]
                (raw kelvin_name "t2") []).
      * reflexivity.
      * reflexivity.
      * intros c' [].
Defined.

(* ================================================================== *)
(** ** Submission *)

(** Closes a goal that assumes an event in a trace where it cannot be. *)
Ltac absurd_membership :=
  intros; cbn [app] in *;
  repeat match goal with
         | H : In _ (_ :: _) |- _ => destruct H as [H|H]
         | H : In _ [] |- _ => destruct H
         | H : _ = _ |- _ => discriminate H
         end.

Lemma CookieSet_from_kwargs_raises (kwargs : pyval) (e : exn) :
  CookieSet_from_kwargs kwargs = Raised e -> exn_cls e = TypeError.
Proof.
  unfold CookieSet_from_kwargs. intros H.
  repeat match type of H with
         | context [match ?x with _ => _ end] => destruct x
         end;
    try discriminate H; injection H as <-; reflexivity.
Qed.

(** [from_dict] entry by entry. *)
Lemma from_dict_dict (d : list (string * pyval)) :
  from_dict (PDict d)
  = match cookie_of_entry (dict_entry "JSESSIONID" d) with
    | Raised e => Raised e
    | Normal j =>
        match cookie_of_entry (dict_entry "AtlassianXsrfToken" d) with
        | Raised e => Raised e
        | Normal x =>
            Normal (mkCredentialSettings
                      (match dict_get "user" d with
                       | Some v => v | None => PStr Config.DEFAULT_USER end)
                      (match dict_get "pwd" d with
                       | Some v => v | None => PStr Config.DEFAULT_PASSWORD end)
                      j x)
        end
    end.
Proof.
  unfold from_dict, py_get, cookie_of_entry, dict_entry, obind.
  destruct (dict_get "user" d), (dict_get "pwd" d),
    (dict_get "JSESSIONID" d) as [j|], (dict_get "AtlassianXsrfToken" d) as [x|];
    cbn;
    repeat match goal with
           | |- context [truthy ?v] => destruct (truthy v)
           | |- context [CookieSet_from_kwargs ?v] => destruct (CookieSet_from_kwargs v)
           end; reflexivity.
Qed.

(** [from_dict] raises nothing an [except IOError] clause would take. *)
Lemma from_dict_raises (data : pyval) (e : exn) :
  from_dict data = Raised e ->
  exn_cls e = AttributeError \/ exn_cls e = TypeError.
Proof.
  destruct data as [| | | | | |d|]; try (intros [= <-]; left; reflexivity).
  rewrite from_dict_dict. unfold cookie_of_entry.
  repeat match goal with
         | |- context [truthy ?v] => destruct (truthy v)
         | |- context [CookieSet_from_kwargs ?v] =>
             let E := fresh "E" in
             destruct (CookieSet_from_kwargs v) eqn:E;
             [|apply CookieSet_from_kwargs_raises in E]
         end;
    try discriminate; intros [= <-]; right; assumption.
Qed.

Lemma from_dict_not_IOError (data : pyval) (e : exn) :
  from_dict data = Raised e -> isinstance e IOError = false.
Proof.
  intros H. destruct e as [c m].
  destruct (from_dict_raises _ _ H) as [E|E]; cbn in E; subst c; reflexivity.
Qed.

(** Submission without the IO: what [post_tempo_worklog] does by case on
    the credential file. *)
Lemma post_unreadable {W : Type} (env : Env W) (tempo_data : pyval) (s : state W) (e : exn) :
  file s = Unreadable e ->
  post_tempo_worklog env tempo_data s
  = if isinstance e IOError
    then (Normal false, s,
          [EOpen CONFIG_PATH "r" (Raised e);
           ELog ERROR ("Failed to read credentials: " ++ exn_msg e)])
    else (Raised e, s, [EOpen CONFIG_PATH "r" (Raised e)]).
Proof.
  intros Hf.
  unfold post_tempo_worklog, load_saved_settings, bind, try_except, read_json.
  rewrite Hf. destruct (isinstance e IOError); reflexivity.
Qed.

Lemma post_not_json {W : Type} (env : Env W) (tempo_data : pyval) (s : state W) (msg : string) :
  file s = NotJson msg ->
  post_tempo_worklog env tempo_data s
  = (Raised (Exn JSONDecodeError msg), s, [EOpen CONFIG_PATH "r" (Normal tt)]).
Proof.
  intros Hf.
  unfold post_tempo_worklog, load_saved_settings, bind, try_except, read_json.
  rewrite Hf. reflexivity.
Qed.

Lemma post_bad_document {W : Type} (env : Env W) (tempo_data : pyval) (s : state W)
      (doc : json) (e : exn) :
  file s = Holds doc -> from_dict (load doc) = Raised e ->
  post_tempo_worklog env tempo_data s
  = (Raised e, s, [EOpen CONFIG_PATH "r" (Normal tt)]).
Proof.
  intros Hf Hd.
  unfold post_tempo_worklog, load_saved_settings, bind, try_except, read_json, lift.
  rewrite Hf, Hd, (from_dict_not_IOError _ _ Hd). reflexivity.
Qed.

Lemma post_missing_cookie {W : Type} (env : Env W) (tempo_data : pyval) (s : state W)
      (doc : json) (saved : CredentialSettings) (e : exn) :
  file s = Holds doc -> from_dict (load doc) = Normal saved ->
  request_cookies saved = Raised e ->
  post_tempo_worklog env tempo_data s
  = (Raised e, s, [EOpen CONFIG_PATH "r" (Normal tt)]).
Proof.
  intros Hf Hd Hc.
  unfold post_tempo_worklog, load_saved_settings, bind, try_except, read_json, lift, ret.
  rewrite Hf, Hd. cbn. rewrite Hc. reflexivity.
Qed.

(** With both cookies at hand exactly one POST goes out, and its end
    decides the result. *)
Lemma post_sent {W : Type} (env : Env W) (tempo_data : pyval) (s : state W)
      (doc : json) (saved : CredentialSettings) (cookies : list (pyval * pyval)) :
  file s = Holds doc -> from_dict (load doc) = Normal saved ->
  request_cookies saved = Normal cookies ->
  post_tempo_worklog env tempo_data s
  = match session_post env (worklog_request cookies tempo_data) (world s) with
    | (Normal status, w) =>
        (Normal (status =? 200), set_world w s,
         [EOpen CONFIG_PATH "r" (Normal tt);
          EPost (worklog_request cookies tempo_data) (Normal status);
          if status =? 200
          then ELog INFO "Tempo worklog posted successfully"
          else ELog ERROR ("Failed to post tempo worklog: " ++ str_of_int status)])
    | (Raised e, w) =>
        if isinstance e ClientError
        then (Normal false, set_world w s,
              [EOpen CONFIG_PATH "r" (Normal tt);
               EPost (worklog_request cookies tempo_data) (Raised e);
               ELog ERROR ("HTTP request failed: " ++ exn_msg e)])
        else (Raised e, set_world w s,
              [EOpen CONFIG_PATH "r" (Normal tt);
               EPost (worklog_request cookies tempo_data) (Raised e)])
    end.
Proof.
  intros Hf Hd Hc.
  unfold post_tempo_worklog, load_saved_settings, bind, try_except, read_json,
    lift, ret, call, log.
  rewrite Hf, Hd. cbv beta iota zeta. rewrite Hc. cbv beta iota zeta.
  change (mkRequest (Config.BASE_URL ++ Config.TEMPO_API_PATH) cookies
            request_headers tempo_data)
    with (worklog_request cookies tempo_data).
  destruct (session_post env (worklog_request cookies tempo_data) (world s))
    as [[status|e] w]; cbv beta iota zeta.
  - destruct (status =? 200); reflexivity.
  - destruct (isinstance e ClientError); reflexivity.
Qed.

Lemma request_cookies_raises (saved : CredentialSettings) (e : exn) :
  request_cookies saved = Raised e ->
  exn_cls e = AttributeError \/ exn_cls e = TypeError.
Proof.
  unfold request_cookies, attr_name, attr_value, dict_display2, obind.
  destruct (AtlassianXsrfToken saved) as [x|]; [|intros [= <-]; auto].
  destruct (JSESSIONID saved) as [j|]; [|intros [= <-]; auto].
  destruct (negb (hashable (name x)) || negb (hashable (name j)));
    [intros [= <-]; auto|].
  destruct (py_eq (name x) (name j)); discriminate.
Qed.

(** Without both cookies the cookie map cannot be built. *)
Lemma request_cookies_missing (saved : CredentialSettings) :
  JSESSIONID saved = None \/ AtlassianXsrfToken saved = None ->
  exists e, request_cookies saved = Raised e /\ exn_cls e = AttributeError.
Proof.
  unfold request_cookies, attr_name, attr_value, obind.
  destruct (AtlassianXsrfToken saved) as [x|].
  - intros [Hj|Hx]; [|discriminate Hx]. rewrite Hj. eexists; split; reflexivity.
  - intros _. eexists; split; reflexivity.
Qed.

(** C2, as the code has it: a submission whose credential file cannot
    be read returns false when the error is an [IOError] and raises the
    error otherwise.  With a credential file that holds both cookies the
    submission sends exactly one POST and its end decides: status 200
    returns true, any other status returns false, an
    [aiohttp.ClientError] returns false, and any other exception of the
    request is raised to the caller. *)
Theorem submit_result_is_boolean :
  forall (W : Type) (env : Env W) (tempo_data : pyval) (s : state W),
    (forall e, file s = Unreadable e ->
               fst (fst (post_tempo_worklog env tempo_data s))
               = if isinstance e IOError then Normal false else Raised e)
    /\ (forall doc saved cookies,
           file s = Holds doc ->
           from_dict (load doc) = Normal saved ->
           request_cookies saved = Normal cookies ->
           let rq := worklog_request cookies tempo_data in
           let '(r, _, t) := post_tempo_worklog env tempo_data s in
           count is_post t = 1%nat
           /\ In (EPost rq (fst (session_post env rq (world s)))) t
           /\ r = match fst (session_post env rq (world s)) with
                  | Normal status => Normal (status =? 200)
                  | Raised e =>
                      if isinstance e ClientError then Normal false else Raised e
                  end).
Proof.
  intros W env tempo_data s. split.
  - intros e Hf. rewrite (post_unreadable env tempo_data s e Hf).
    destruct (isinstance e IOError); reflexivity.
  - intros doc saved cookies Hf Hd Hc rq.
    rewrite (post_sent env tempo_data s doc saved cookies Hf Hd Hc). fold rq.
    destruct (session_post env rq (world s)) as [[status|e] w]; cbn [fst].
    + split; [destruct (status =? 200); reflexivity|].
      split; [right; left; reflexivity | reflexivity].
    + destruct (isinstance e ClientError);
        (split; [reflexivity|]); (split; [right; left; reflexivity | reflexivity]).
Qed.

Lemma submit_result_is_boolean_witness :
  fst (fst (post_tempo_worklog (steady_env (Normal true) (Normal []) (Normal 200))
              sample_worklog (fresh_state saved_file)))
  = Normal true
  /\ fst (fst (post_tempo_worklog (steady_env (Normal true) (Normal []) (Normal 500))
                 sample_worklog (fresh_state saved_file)))
     = Normal false
  /\ fst (fst (post_tempo_worklog
                 (steady_env (Normal true) (Normal [])
                    (Raised (Exn ClientConnectionError "Cannot connect to host")))
                 sample_worklog (fresh_state saved_file)))
     = Normal false
  /\ fst (fst (post_tempo_worklog (steady_env (Normal true) (Normal []) (Normal 200))
                 sample_worklog
                 (fresh_state (Unreadable (Exn FileNotFoundError "No such file or directory")))))
     = Normal false.
Proof.
  assert (Hsent : forall posted : outcome Z,
             let env := steady_env (Normal true) (Normal []) posted in
             fst (fst (post_tempo_worklog env sample_worklog (fresh_state saved_file)))
             = match posted with
               | Normal status => Normal (status =? 200)
               | Raised e => if isinstance e ClientError then Normal false else Raised e
               end).
  { intros posted env.
    destruct (submit_result_is_boolean unit env sample_worklog (fresh_state saved_file))
      as [_ H].
    specialize (H _ _ _ eq_refl eq_refl eq_refl). cbv zeta in H.
    destruct (post_tempo_worklog env sample_worklog (fresh_state saved_file))
      as [[r s'] t].
    destruct H as (_ & _ & H). exact H. }
  split; [exact (Hsent (Normal 200))|].
  split; [exact (Hsent (Normal 500))|].
  split; [exact (Hsent (Raised (Exn ClientConnectionError "Cannot connect to host")))|].
  destruct (submit_result_is_boolean unit
              (steady_env (Normal true) (Normal []) (Normal 200)) sample_worklog
              (fresh_state (Unreadable (Exn FileNotFoundError "No such file or directory"))))
    as [H _].
  exact (H _ eq_refl).
Defined.

(** C2 as worded fails: a read that breaks with an error that is no
    [IOError] (a decode error), and a request that breaks with an error
    that is no [aiohttp.ClientError] (a timeout), both leave the call as
    exceptions. *)
Lemma submit_lets_other_errors_escape :
  fst (fst (post_tempo_worklog
              (steady_env (Normal true) (Normal []) (Raised (Exn TimeoutError "")))
              sample_worklog (fresh_state saved_file)))
  = Raised (Exn TimeoutError "")
  /\ fst (fst (post_tempo_worklog
                 (steady_env (Normal true) (Normal []) (Normal 200))
                 sample_worklog
                 (fresh_state
                    (Unreadable (Exn UnicodeDecodeError
                                     "'utf-8' codec can't decode byte 0xff")))))
     = Raised (Exn UnicodeDecodeError "'utf-8' codec can't decode byte 0xff").
Proof.
  split; vm_compute; reflexivity.
Qed.

Lemma dict_get_loaded (key : string) (d : list (string * json)) :
  dict_get key (map (fun kv => (fst kv, load (snd kv))) d)
  = option_map load (dict_get key d).
Proof.
  induction d as [|[k v] d IH]; cbn; [reflexivity|].
  destruct (String.eqb key k); [reflexivity | exact IH].
Qed.

Lemma dict_keys_loaded (d : list (string * json)) :
  dict_keys (map (fun kv => (fst kv, load (snd kv))) d) = dict_keys d.
Proof.
  unfold dict_keys. rewrite map_map. reflexivity.
Qed.

Lemma load_dict (j : json) (d' : list (string * pyval)) :
  load j = PDict d' ->
  exists d, j = JObj d /\ d' = map (fun kv => (fst kv, load (snd kv))) d.
Proof.
  destruct j; cbn; try discriminate. intros [= <-]. eauto.
Qed.

(** [from_dict] builds a cookie from an entry only if the entry is a dict
    with exactly the keys [name] and [value]. *)
Lemma cookie_of_entry_some (entry : pyval) (c : CookieSet) :
  cookie_of_entry entry = Normal (Some c) ->
  exists d, entry = PDict d
            /\ forallb is_cookie_field (dict_keys d) = true
            /\ dict_get "name" d = Some (name c)
            /\ dict_get "value" d = Some (value c).
Proof.
  unfold cookie_of_entry, CookieSet_from_kwargs.
  destruct (truthy entry); [|discriminate].
  destruct entry as [| | | | | |d|]; try discriminate.
  destruct (forallb is_cookie_field (dict_keys d)) eqn:Hk; [|discriminate].
  destruct (dict_get "name" d) as [n|] eqn:Hn; [|discriminate].
  destruct (dict_get "value" d) as [v|] eqn:Hv; [|discriminate].
  intros [= <-]. exists d. auto.
Qed.

Lemma loaded_cookie_shape (key : string) (d : list (string * json)) (c : CookieSet) :
  cookie_of_entry (dict_entry key (map (fun kv => (fst kv, load (snd kv))) d))
  = Normal (Some c) ->
  name_value_shape (dict_get key d) = true.
Proof.
  intros H. apply cookie_of_entry_some in H. destruct H as (d' & E & Hk & Hn & Hv).
  unfold dict_entry in E. rewrite dict_get_loaded in E.
  unfold name_value_shape.
  destruct (dict_get key d) as [j|]; cbn in E; [|discriminate E].
  apply load_dict in E. destruct E as (dj & -> & ->).
  rewrite dict_keys_loaded in Hk. rewrite dict_get_loaded in Hn, Hv.
  rewrite Hk. destruct (dict_get "name" dj); [|discriminate Hn].
  destruct (dict_get "value" dj); [reflexivity | discriminate Hv].
Qed.

(** A document whose cookie entry lacks the name/value shape either makes
    [from_dict] raise or leaves the store without that cookie. *)
Lemma from_dict_shapes (doc : json) (saved : CredentialSettings) :
  from_dict (load doc) = Normal saved ->
  (name_value_shape (json_member "JSESSIONID" doc) = false -> JSESSIONID saved = None)
  /\ (name_value_shape (json_member "AtlassianXsrfToken" doc) = false ->
      AtlassianXsrfToken saved = None).
Proof.
  destruct doc as [| | | | | |d]; try discriminate.
  cbn [load json_member]. rewrite from_dict_dict.
  destruct (cookie_of_entry (dict_entry "JSESSIONID" _)) as [j|] eqn:Ej; [|discriminate].
  destruct (cookie_of_entry (dict_entry "AtlassianXsrfToken" _)) as [x|] eqn:Ex;
    [|discriminate].
  intros [= <-]. cbn. split; intros Hshape.
  - destruct j as [c|]; [|reflexivity].
    rewrite (loaded_cookie_shape _ _ _ Ej) in Hshape. discriminate Hshape.
  - destruct x as [c|]; [|reflexivity].
    rewrite (loaded_cookie_shape _ _ _ Ex) in Hshape. discriminate Hshape.
Qed.

(** A file that deserialises into a store without one of the cookies makes
    the submission raise [AttributeError]; no [False] comes back. *)
Lemma post_without_cookie {W : Type} (env : Env W) (tempo_data : pyval) (s : state W)
      (doc : json) (saved : CredentialSettings) :
  file s = Holds doc -> from_dict (load doc) = Normal saved ->
  JSESSIONID saved = None \/ AtlassianXsrfToken saved = None ->
  exists e, exn_cls e = AttributeError
            /\ post_tempo_worklog env tempo_data s
               = (Raised e, s, [EOpen CONFIG_PATH "r" (Normal tt)]).
Proof.
  intros Hf Hd Hnone.
  destruct (request_cookies_missing saved Hnone) as (e & Hc & He).
  exists e. split; [exact He|].
  apply (post_missing_cookie env tempo_data s doc saved e Hf Hd Hc).
Qed.

(** C9: of the ways the credential file can fail a submission only an I/O
    error turns into a false result.  A file whose text is not JSON makes
    the call raise the decode error, and a file whose session or xsrf
    entry is not an object with exactly the members name and value makes
    it raise as well. *)
Theorem submit_raises_on_bad_file :
  forall (W : Type) (env : Env W) (tempo_data : pyval) (s : state W),
    let '(r, _, _) := post_tempo_worklog env tempo_data s in
    (forall e, file s = Unreadable e ->
               r = if isinstance e IOError then Normal false else Raised e)
    /\ (forall msg, file s = NotJson msg -> r = Raised (Exn JSONDecodeError msg))
    /\ (forall doc, file s = Holds doc ->
                    name_value_shape (json_member "JSESSIONID" doc) = false
                    \/ name_value_shape (json_member "AtlassianXsrfToken" doc) = false ->
                    exists e, r = Raised e).
Proof.
  intros W env tempo_data s.
  destruct (file s) as [e0|msg|doc] eqn:Hf.
  - rewrite (post_unreadable env tempo_data s e0 Hf).
    destruct (isinstance e0 IOError) eqn:Hio;
      (split; [|split]; try discriminate);
      intros e [= <-]; rewrite Hio; reflexivity.
  - rewrite (post_not_json env tempo_data s msg Hf).
    split; [|split]; try discriminate. intros m [= <-]. reflexivity.
  - destruct (from_dict (load doc)) as [saved|e1] eqn:Hd.
    + destruct (from_dict_shapes doc saved Hd) as [Hj Hx].
      destruct (post_tempo_worklog env tempo_data s) as [[r s'] t] eqn:Hrun.
      split; [|split]; try discriminate.
      intros doc' [= <-] Hshape.
      assert (Hnone : JSESSIONID saved = None \/ AtlassianXsrfToken saved = None)
        by (destruct Hshape; [left|right]; auto).
      destruct (post_without_cookie env tempo_data s doc saved Hf Hd Hnone)
        as (e & _ & Hpost).
      rewrite Hpost in Hrun. injection Hrun as <- _ _. eauto.
    + rewrite (post_bad_document env tempo_data s doc e1 Hf Hd).
      split; [|split]; try discriminate. eauto.
Qed.

Lemma submit_raises_on_bad_file_witness :
  exists e,
    fst (fst (post_tempo_worklog (steady_env (Normal true) (Normal []) (Normal 200))
                sample_worklog
                (fresh_state (Holds (JObj [("user", JStr "u"); ("pwd", JStr "p");
                                           ("JSESSIONID", JObj [("name", JStr "JSESSIONID")]);
                                           ("AtlassianXsrfToken", JStr "tok-9")])))))
    = Raised e.
Proof.
  generalize (submit_raises_on_bad_file unit
                (steady_env (Normal true) (Normal []) (Normal 200))
                sample_worklog
                (fresh_state (Holds (JObj [("user", JStr "u"); ("pwd", JStr "p");
                                           ("JSESSIONID", JObj [("name", JStr "JSESSIONID")]);
                                           ("AtlassianXsrfToken", JStr "tok-9")])))).
  vm_compute. intros (_ & _ & H).
  refine (H _ eq_refl _). left. reflexivity.
Defined.

(** C3: at a credential file that deserialises well but holds no xsrf
    cookie the submission does not come back with [False]: building the
    cookie map reads [.name] of [None] and the [AttributeError] leaves the
    call. *)
Theorem submit_without_token_raises :
  post_tempo_worklog (steady_env (Normal true) (Normal []) (Normal 200))
    sample_worklog (fresh_state file_without_token)
  = (Raised (Exn AttributeError "'NoneType' object has no attribute 'name'"),
     fresh_state file_without_token,
     [EOpen CONFIG_PATH "r" (Normal tt)]).
Proof. vm_compute. reflexivity. Qed.

(* ================================================================== *)
(** ** The round trip through the credential file *)

Lemma settings_document_dump (s : CredentialSettings) :
  dump (PDict (instance_dict s)) = settings_document s.
Proof.
  destruct s as [u p [j|] [x|]]; reflexivity.
Qed.

Lemma from_dict_of_document (u p : string) (j x : option (string * string)) :
  from_dict (load (settings_document (typed_settings u p j x)))
  = Normal (typed_settings u p j x).
Proof.
  destruct j as [[nj vj]|], x as [[nx vx]|]; reflexivity.
Qed.

(** The persistence step ends normally only with the store's document on
    disk. *)
Lemma persist_settings_normal {W : Type} (env : Env W) (s s1 : state W) (t : list event) :
  persist_settings env s = (Normal tt, s1, t) ->
  file s1 = Holds (settings_document (credential_settings s))
  /\ credential_settings s1 = credential_settings s
  /\ driver s1 = driver s.
Proof.
  unfold persist_settings, try_except, bind, get_settings, write_json, log, raise.
  cbv beta iota zeta. rewrite settings_document_dump.
  destruct (open_w env CONFIG_PATH (world s)) as [[[]|e] w].
  - destruct (file_write env _ w) as [[[]|e] w'].
    + intros [= <- _]. cbn. auto.
    + destruct (isinstance e IOError); discriminate.
  - destruct (isinstance e IOError); discriminate.
Qed.

(** C5: a store with any user, any password and each cookie either
    present with any name and value or absent, once serialised to the
    credential file, deserialises from that file to the same user,
    password and cookies: whoever reads the file the write left, with
    whatever settings in memory, gets the store that was written. *)
Theorem credential_round_trip :
  forall (W : Type) (env : Env W) (u p : string) (j x : option (string * string))
         (s s1 s2 : state W) (t : list event),
    credential_settings s = typed_settings u p j x ->
    persist_settings env s = (Normal tt, s1, t) ->
    file s2 = file s1 ->
    load_saved_settings s2
    = (Normal (Some (typed_settings u p j x)), s2, [EOpen CONFIG_PATH "r" (Normal tt)]).
Proof.
  intros W env u p j x s s1 s2 t Hcs Hrun Hfile.
  destruct (persist_settings_normal env s s1 t Hrun) as (Hf & _ & _).
  rewrite Hcs in Hf. rewrite <- Hfile in Hf.
  unfold load_saved_settings, try_except, bind, read_json, lift, ret.
  rewrite Hf. cbv beta iota zeta. rewrite from_dict_of_document. reflexivity.
Qed.

Lemma credential_round_trip_witness :
  load_saved_settings
    (fresh_state
       (file (snd (fst (persist_settings
                          (steady_env (Normal true) (Normal []) (Normal 200))
                          (mkState tt truncated
                             (typed_settings "u" "p" (Some ("jsessionid", "A1B2")) None)
                             None))))))
  = (Normal (Some (typed_settings "u" "p" (Some ("jsessionid", "A1B2")) None)),
     fresh_state
       (Holds (settings_document
                 (typed_settings "u" "p" (Some ("jsessionid", "A1B2")) None))),
     [EOpen CONFIG_PATH "r" (Normal tt)]).
Proof.
  exact (credential_round_trip unit
           (steady_env (Normal true) (Normal []) (Normal 200))
           "u" "p" (Some ("jsessionid", "A1B2")) None
           (mkState tt truncated
              (typed_settings "u" "p" (Some ("jsessionid", "A1B2")) None) None)
           _
           (fresh_state
              (Holds (settings_document
                        (typed_settings "u" "p" (Some ("jsessionid", "A1B2")) None))))
           _ eq_refl eq_refl eq_refl).
Defined.

(* ================================================================== *)
(** ** Acquisition *)

Section Acquisition.

Context {W : Type}.
Variable env : Env W.

Lemma steady_refl (s : state W) : steady s s.
Proof. repeat split. Qed.

Lemma steady_trans (s1 s2 s3 : state W) :
  steady s1 s2 -> steady s2 s3 -> steady s1 s3.
Proof.
  intros (F1 & C1 & D1) (F2 & C2 & D2).
  repeat split; etransitivity; eassumption.
Qed.

Lemma steady_set_world (w : W) (s : state W) : steady s (set_world w s).
Proof. repeat split. Qed.

Lemma browses_ret {A : Type} (a : A) : browses (W:=W) (ret a).
Proof. intros s. split; [apply steady_refl | reflexivity]. Qed.

Lemma browses_raise {A : Type} (e : exn) : browses (W:=W) (A:=A) (raise e).
Proof. intros s. split; [apply steady_refl | reflexivity]. Qed.

Lemma browses_log (level : log_level) (msg : string) : browses (W:=W) (log level msg).
Proof. intros s. split; [apply steady_refl | reflexivity]. Qed.

Lemma browses_get_settings : browses (W:=W) get_settings.
Proof. intros s. split; [apply steady_refl | reflexivity]. Qed.

Lemma browses_sleep (seconds : Z) : browses (sleep env seconds).
Proof. intros s. split; [apply steady_set_world | reflexivity]. Qed.

Lemma browses_call {A : Type} (h : W -> outcome A * W) (ev : outcome A -> event) :
  (forall r, quiet (ev r) = true) -> browses (call h ev).
Proof.
  intros Hq s. unfold call. destruct (h (world s)) as [r w].
  split; [apply steady_set_world | cbn; rewrite Hq; reflexivity].
Qed.

Lemma browses_bind {A B : Type} (m : M W A) (k : A -> M W B) :
  browses m -> (forall a, browses (k a)) -> browses (bind m k).
Proof.
  intros Hm Hk s. unfold bind. specialize (Hm s).
  destruct (m s) as [[[a|e] s1] t1]; [|exact Hm].
  destruct Hm as [S1 Q1]. specialize (Hk a s1).
  destruct (k a s1) as [[r s2] t2]. destruct Hk as [S2 Q2].
  split; [eapply steady_trans; eassumption|].
  rewrite forallb_app, Q1, Q2. reflexivity.
Qed.

Lemma browses_try_except {A : Type} (m : M W A) (cls : exn_class) (h : exn -> M W A) :
  browses m -> (forall e, browses (h e)) -> browses (try_except m cls h).
Proof.
  intros Hm Hh s. unfold try_except. specialize (Hm s).
  destruct (m s) as [[[a|e] s1] t1]; [exact Hm|].
  destruct (isinstance e cls); [|exact Hm].
  destruct Hm as [S1 Q1]. specialize (Hh e s1).
  destruct (h e s1) as [[r s2] t2]. destruct Hh as [S2 Q2].
  split; [eapply steady_trans; eassumption|].
  rewrite forallb_app, Q1, Q2. reflexivity.
Qed.

Ltac browse :=
  repeat first
    [ apply browses_ret | apply browses_raise | apply browses_log
    | apply browses_get_settings | apply browses_sleep
    | apply browses_call; intros; reflexivity
    | apply browses_bind; [|intros]
    | apply browses_try_except; [|intros]
    | match goal with
      | |- browses (if ?b then _ else _) => destruct b
      end ].

Lemma browses_click_attempt (element_id : string) (attempt : Z) :
  browses (click_attempt env element_id attempt).
Proof. unfold click_attempt. browse. Qed.

Lemma browses_click_loop (element_id : string) (attempts : list Z) :
  browses (click_loop env element_id attempts).
Proof.
  induction attempts as [|attempt rest IH]; cbn [click_loop].
  - apply browses_ret.
  - apply browses_bind; [apply browses_click_attempt|].
    intros [|]; [apply browses_ret | exact IH].
Qed.

Lemma browses_click_element_with_retry (element_id : string) :
  browses (_click_element_with_retry env element_id).
Proof. apply browses_click_loop. Qed.

Lemma browses_handle_login_form : browses (_handle_login_form env).
Proof. unfold _handle_login_form. browse. Qed.

Lemma quiet_in (t : list event) (e : event) :
  forallb quiet t = true -> In e t -> quiet e = true.
Proof. intros H. rewrite forallb_forall in H. apply H. Qed.

Lemma quiet_no_session (t : list event) :
  forallb quiet t = true -> forallb (fun e => negb (session_event e)) t = true.
Proof.
  rewrite !forallb_forall. intros H e He. specialize (H e He).
  destruct e; try discriminate H; reflexivity.
Qed.

Lemma quiet_no_file (t : list event) :
  forallb quiet t = true -> forallb (fun e => negb (file_event e)) t = true.
Proof.
  rewrite !forallb_forall. intros H e He. specialize (H e He).
  destruct e; try discriminate H; reflexivity.
Qed.

(** Browsing ahead of a part of the acquisition does not disturb what
    holds of it. *)
Lemma acquired_after_browsing {A : Type} (m : M W A) (k : A -> M W unit) :
  browses m ->
  (forall a s, let '(r, s', t) := k a s in acquired s r s' t) ->
  forall s, let '(r, s', t) := bind m k s in acquired s r s' t.
Proof.
  intros Hm Hk s. unfold bind. specialize (Hm s).
  destruct (m s) as [[[a|e] s1] t1]; destruct Hm as [(F1 & C1 & D1) Q1].
  - specialize (Hk a s1). destruct (k a s1) as [[r s2] t2].
    destruct Hk as (D2 & N2 & G2 & P2 & V2).
    split; [congruence|]. split; [|split; [|split]].
    + rewrite forallb_app, (quiet_no_session t1 Q1), N2. reflexivity.
    + intros Hin. apply in_app_or in Hin. destruct Hin as [Hin|Hin].
      * apply (quiet_in _ _ Q1) in Hin. discriminate Hin.
      * destruct (G2 Hin) as (Hr & Hf & Hn).
        split; [exact Hr|]. split; [congruence|].
        rewrite forallb_app, (quiet_no_file t1 Q1), Hn. reflexivity.
    + intros doc Hin. apply in_app_or in Hin. destruct Hin as [Hin|Hin].
      * apply (quiet_in _ _ Q1) in Hin. discriminate Hin.
      * apply (P2 doc Hin).
    + intros Hr. destruct (V2 Hr) as [doc Hin].
      exists doc. apply in_or_app. right. exact Hin.
  - split; [exact D1|]. split; [apply quiet_no_session, Q1|]. split; [|split].
    + intros Hin. apply (quiet_in _ _ Q1) in Hin. discriminate Hin.
    + intros doc Hin. apply (quiet_in _ _ Q1) in Hin. discriminate Hin.
    + discriminate.
Qed.

(** The loop of [_save_cookies] makes no call whatever the cookies are;
    all it can change is the store. *)
Lemma save_cookie_silent (c : pyval) (s : state W) :
  exists r cs, save_cookie c s = (r, set_credential_settings cs s, []).
Proof.
  destruct s as [w f cs d].
  unfold save_cookie, bind, lift, modify_settings, ret, set_credential_settings.
  cbn [world file credential_settings driver].
  destruct (subscript c "name") as [n|e]; [|eexists _, cs; reflexivity].
  destruct (py_lower n) as [l|e]; [|eexists _, cs; reflexivity].
  destruct (String.eqb l "jsessionid").
  - destruct (subscript c "value") as [v|e]; eexists _, _; reflexivity.
  - destruct (String.eqb l "atl.xsrf.token" || String.eqb l "atlassian.xsrf.token").
    + destruct (subscript c "value") as [v|e]; eexists _, _; reflexivity.
    + eexists _, cs; reflexivity.
Qed.

Lemma update_store_silent (cookies : list pyval) :
  forall s : state W,
    exists r cs, update_store cookies s = (r, set_credential_settings cs s, []).
Proof.
  unfold update_store.
  induction cookies as [|c l IH]; intros s; cbn [for_each].
  - exists (Normal tt), (credential_settings s). destruct s; reflexivity.
  - unfold bind at 1. destruct (save_cookie_silent c s) as (r & cs & ->).
    destruct r as [[]|e]; [|eauto].
    destruct (IH (set_credential_settings cs s)) as (r' & cs' & ->).
    rewrite set_settings_twice. eauto.
Qed.

(** The persistence step touches the file and the log only, and a dump
    that went through is the document of the store, now on disk. *)
Lemma persist_settings_trace (s : state W) :
  let '(r, s', t) := persist_settings env s in
  driver s' = driver s
  /\ credential_settings s' = credential_settings s
  /\ forallb (fun e => file_event e || quiet e) t = true
  /\ (forall doc, In (EDump doc (Normal tt)) t ->
                  file s' = Holds doc
                  /\ doc = settings_document (credential_settings s))
  /\ (r = Normal tt -> exists doc, In (EDump doc (Normal tt)) t).
Proof.
  unfold persist_settings, try_except, bind, get_settings, write_json, log, raise.
  cbv beta iota zeta. rewrite settings_document_dump.
  destruct (open_w env CONFIG_PATH (world s)) as [[[]|e] w].
  - destruct (file_write env _ w) as [[[]|e] w'].
    + split; [|split; [|split; [|split]]]; try reflexivity.
      * intros doc [H|[H|[]]]; [discriminate H|].
        injection H as <-. split; reflexivity.
      * intros _. eexists. right. left. reflexivity.
    + destruct (isinstance e IOError);
        (split; [|split; [|split; [|split]]]); try reflexivity;
        solve [absurd_membership].
  - destruct (isinstance e IOError);
      (split; [|split; [|split; [|split]]]); try reflexivity;
      solve [absurd_membership].
Qed.

Lemma save_cookies_trace (cookies : list pyval) (s : state W) :
  let '(r, s', t) := _save_cookies env cookies s in
  driver s' = driver s
  /\ forallb (fun e => file_event e || quiet e) t = true
  /\ (forall doc, In (EDump doc (Normal tt)) t ->
                  file s' = Holds doc
                  /\ doc = settings_document (credential_settings s'))
  /\ (r = Normal tt -> exists doc, In (EDump doc (Normal tt)) t).
Proof.
  unfold _save_cookies, bind.
  destruct (update_store_silent cookies s) as (r & cs & ->).
  destruct r as [[]|e].
  - pose proof (persist_settings_trace (set_credential_settings cs s)) as H.
    destruct (persist_settings env (set_credential_settings cs s)) as [[r s'] t].
    destruct H as (D & C & Q & P & V). cbn [app].
    split; [exact D|]. split; [exact Q|]. split; [|exact V].
    intros doc Hin. rewrite C. apply (P doc Hin).
  - split; [|split; [|split]]; try reflexivity; solve [absurd_membership].
Qed.

Lemma no_session_of_file_or_quiet (t : list event) :
  forallb (fun e => file_event e || quiet e) t = true ->
  forallb (fun e => negb (session_event e)) t = true
  /\ forall r, ~ In (EGetCookies r) t.
Proof.
  rewrite !forallb_forall. intros H. split.
  - intros e He. specialize (H e He). destruct e; try discriminate H; reflexivity.
  - intros r He. specialize (H _ He). discriminate H.
Qed.

(** Reading the cookie jar and what follows it. *)
Lemma acquired_fetch (s : state W) :
  let '(r, s', t) :=
    (cookies <- call (get_cookies env) EGetCookies ;;
     match cookies with
     | [] => raise (Exn ValueError "No cookies obtained")
     | _ :: _ =>
         _save_cookies env cookies ;;
         log INFO "Successfully obtained and saved cookies"
     end)%M s in
  acquired s r s' t.
Proof.
  unfold bind at 1, call.
  destruct (get_cookies env (world s)) as [[[|c l]|e] w].
  - cbn. split; [|split; [|split; [|split]]]; try reflexivity;
      try solve [absurd_membership].
    intros _. split; [eauto|]. split; reflexivity.
  - pose proof (save_cookies_trace (c :: l) (set_world w s)) as H.
    unfold bind, log.
    destruct (_save_cookies env (c :: l) (set_world w s)) as [[r s'] t].
    destruct H as (D & Q & P & V).
    destruct (no_session_of_file_or_quiet t Q) as [N G].
    destruct r as [[]|e]; cbn [app].
    + split; [exact D|]. split; [|split; [|split]].
      * cbn. rewrite forallb_app, N. reflexivity.
      * intros [H|H]; [discriminate H|].
        apply in_app_or in H. destruct H as [H|H]; [destruct (G _ H)|].
        absurd_membership.
      * intros doc [H|H]; [discriminate H|].
        apply in_app_or in H. destruct H as [H|H]; [apply (P doc H)|].
        absurd_membership.
      * intros _. destruct (V eq_refl) as [doc Hin].
        exists doc. right. apply in_or_app. left. exact Hin.
    + split; [exact D|]. split; [|split; [|split]].
      * cbn. exact N.
      * intros [H|H]; [discriminate H | destruct (G _ H)].
      * intros doc [H|H]; [discriminate H | apply (P doc H)].
      * discriminate.
  - cbn. split; [|split; [|split; [|split]]]; try reflexivity;
      solve [absurd_membership].
Qed.

(** The [try] suite: the session is created first, and the local [driver]
    holds it from then on. *)
Lemma acquire_body_spec (s : state W) :
  let '(r, s', t) := acquire_body env s in
  exists options c t',
    t = EChrome options c :: t'
    /\ driver s' = match c with
                   | Normal d => Some d
                   | Raised _ => driver s
                   end
    /\ match c with
       | Normal _ => True
       | Raised e => r = Raised e /\ t' = []
       end
    /\ forallb (fun e => negb (session_event e)) t' = true
    /\ (In (EGetCookies (Normal [])) t' ->
        (exists e, r = Raised e)
        /\ file s' = file s
        /\ forallb (fun e => negb (file_event e)) t' = true)
    /\ (forall doc, In (EDump doc (Normal tt)) t' ->
                    file s' = Holds doc
                    /\ doc = settings_document (credential_settings s'))
    /\ (r = Normal tt -> exists doc, In (EDump doc (Normal tt)) t').
Proof.
  unfold acquire_body, _get_web_driver. unfold bind at 1, call.
  destruct (webdriver_Chrome env _ (world s)) as [[d|e] w].
  - unfold bind at 1, assign_driver.
    match goal with
    | |- context [bind ?m ?k ?s1] =>
        assert (H : let '(r, s', t) := bind m k s1 in acquired s1 r s' t)
    end.
    { repeat (apply acquired_after_browsing;
              [first [ apply browses_call; intros; reflexivity
                     | apply browses_sleep
                     | apply browses_click_element_with_retry
                     | apply browses_handle_login_form ]
              | intros ? ?; cbv beta ]).
      apply acquired_fetch. }
    match goal with
    | |- context [bind ?m ?k ?s1] => destruct (bind m k s1) as [[r s'] t]
    end.
    destruct H as (D & N & G & P & V).
    eexists _, (Normal d), t.
    split; [reflexivity|]. split; [exact D|]. split; [exact I|].
    split; [exact N|]. split; [exact G|]. split; [exact P | exact V].
  - eexists _, (Raised e), [].
    split; [reflexivity|]. split; [reflexivity|]. split; [split; reflexivity|].
    split; [reflexivity|]. split; [|split]; solve [absurd_membership].
Qed.

(** The [except Exception] clause logs and re-raises: the outcome and the
    state of the suite stand, and the trace grows by log entries at most. *)
Lemma try_except_reraise {A : Type} (body : M W A) (cls : exn_class)
      (msg : exn -> string) (s : state W) :
  let '(rb, sb, tb) := body s in
  exists logged,
    forallb quiet logged = true
    /\ try_except body cls (fun e => log ERROR (msg e) ;; raise e)%M s
       = (rb, sb, tb ++ logged).
Proof.
  unfold try_except, bind, log, raise.
  destruct (body s) as [[[a|e] sb] tb].
  - exists []. rewrite app_nil_r. auto.
  - destruct (isinstance e cls).
    + exists [ELog ERROR (msg e)]. auto.
    + exists []. rewrite app_nil_r. auto.
Qed.

(** The [finally] clause quits the browser exactly when [driver] holds a
    session. *)
Lemma finally_quit (sb : state W) :
  let '(rf, sf, tf) :=
    (d <- get_driver ;;
     match d with
     | Some _ => call (quit env) EQuit
     | None => ret tt
     end)%M sb in
  steady sb sf
  /\ match driver sb with
     | Some _ => exists q, tf = [EQuit q]
     | None => tf = [] /\ rf = Normal tt
     end.
Proof.
  unfold bind, get_driver, call, ret.
  destruct (driver sb) as [d|].
  - destruct (quit env (world sb)) as [r w].
    split; [apply steady_set_world | exists r; reflexivity].
  - split; [apply steady_refl | auto].
Qed.

(** The whole of [get_jira_cookies]: the creation of the session, the rest
    of the suite, the log of the handler, and the quit of the [finally]
    clause. *)
Lemma get_jira_cookies_spec (s : state W) :
  let '(r, s', t) := get_jira_cookies env s in
  exists options c body logged quitted,
    t = EChrome options c :: body ++ logged ++ quitted
    /\ forallb (fun e => negb (session_event e)) body = true
    /\ forallb quiet logged = true
    /\ match c with
       | Normal _ => exists q, quitted = [EQuit q]
       | Raised _ => body = [] /\ quitted = []
       end
    /\ (In (EGetCookies (Normal [])) body ->
        (exists e, r = Raised e)
        /\ file s' = file s
        /\ forallb (fun e => negb (file_event e)) body = true)
    /\ (forall doc, In (EDump doc (Normal tt)) body ->
                    file s' = Holds doc
                    /\ doc = settings_document (credential_settings s'))
    /\ (r = Normal tt -> exists doc, In (EDump doc (Normal tt)) body).
Proof.
  unfold get_jira_cookies. unfold bind at 1, assign_driver, try_finally.
  pose proof (acquire_body_spec (set_driver None s)) as Hb.
  pose proof (try_except_reraise (acquire_body env) Exception
                (fun e => "Error during cookie retrieval: " ++ exn_msg e)%string
                (set_driver None s)) as Ht.
  destruct (acquire_body env (set_driver None s)) as [[rb sb] tb].
  destruct Ht as (logged & Ql & ->).
  destruct Hb as (options & c & body & -> & D & R & N & G & P & V).
  pose proof (finally_quit sb) as Hf.
  match goal with
  | |- context [bind ?m ?k sb] => destruct (bind m k sb) as [[rf sf] tf]
  end.
  destruct Hf as [(F & C & _) Hq]. rewrite D in Hq.
  assert (Hshape : match c with
                   | Normal _ => exists q, tf = [EQuit q]
                   | Raised _ => body = [] /\ tf = []
                   end).
  { destruct c as [d|e]; [exact Hq|]. destruct R as [_ ->]. cbn in Hq. tauto. }
  destruct rf as [[]|ef]; cbn [app];
    exists options, c, body, logged, tf;
    (split; [rewrite <- app_assoc; reflexivity|]);
    (split; [exact N|]); (split; [exact Ql|]); (split; [exact Hshape|]);
    (split;
     [ intros Hin; destruct (G Hin) as (Hx & Hfile & Hn);
       change (file (set_driver None s)) with (file s) in Hfile;
       split; [first [exact Hx | eauto]|]; split; [congruence | exact Hn]|]);
    (split;
     [ intros doc Hin; destruct (P doc Hin) as [Hfile Hdoc];
       split; congruence
     | first [exact V | discriminate] ]).
Qed.

End Acquisition.

(** C4: when the browser hands back no cookie at all, the acquisition
    ends by raising, the credential file is what it was, and the run has
    neither opened nor written it. *)
Theorem no_cookies_no_write :
  forall (W : Type) (env : Env W) (s : state W),
    let '(r, s', t) := get_jira_cookies env s in
    In (EGetCookies (Normal [])) t ->
    (exists e, r = Raised e)
    /\ file s' = file s
    /\ forallb (fun e => negb (file_event e)) t = true.
Proof.
  intros W env s. pose proof (get_jira_cookies_spec env s) as H.
  destruct (get_jira_cookies env s) as [[r s'] t].
  destruct H as (options & c & body & logged & quitted & -> & N & Q & S & G & _).
  intros [Hin|Hin]; [discriminate Hin|].
  assert (Hq : forallb (fun e => negb (file_event e)) quitted = true
               /\ ~ In (EGetCookies (Normal [])) quitted).
  { destruct c as [d|e].
    - destruct S as [q ->]. split; [reflexivity|]. intros [H|[]]. discriminate H.
    - destruct S as [_ ->]. split; [reflexivity|]. intros []. }
  destruct Hq as [Fq Nq].
  apply in_app_or in Hin. destruct Hin as [Hin|Hin].
  - destruct (G Hin) as (Hr & Hf & Hn).
    split; [exact Hr|]. split; [exact Hf|].
    cbn. rewrite !forallb_app, Hn, (quiet_no_file logged Q), Fq. reflexivity.
  - apply in_app_or in Hin. destruct Hin as [Hin|Hin].
    + apply (quiet_in _ _ Q) in Hin. discriminate Hin.
    + destruct (Nq Hin).
Qed.

Lemma no_cookies_no_write_witness :
  let '(r, s', t) :=
    get_jira_cookies (steady_env (Normal true) (Normal []) (Normal 200))
                     (fresh_state saved_file) in
  (exists e, r = Raised e)
  /\ file s' = saved_file
  /\ forallb (fun e => negb (file_event e)) t = true.
Proof.
  generalize (no_cookies_no_write unit
                (steady_env (Normal true) (Normal []) (Normal 200))
                (fresh_state saved_file)).
  vm_compute. intros H. apply H.
  repeat first [left; reflexivity | right].
Defined.

(** C7: on every exit path of the acquisition on which a browser session
    was created (normal return or a raised error alike) the run starts with
    that creation and ends with the quit of the session; nothing follows
    the quit and no other session is created or quit in between. *)
Theorem browser_session_is_quit :
  forall (W : Type) (env : Env W) (s : state W),
    let '(_, _, t) := get_jira_cookies env s in
    forall options d,
      In (EChrome options (Normal d)) t ->
      exists between q,
        t = EChrome options (Normal d) :: between ++ [EQuit q]
        /\ forallb (fun e => negb (session_event e)) between = true.
Proof.
  intros W env s. pose proof (get_jira_cookies_spec env s) as H.
  destruct (get_jira_cookies env s) as [[r s'] t].
  destruct H as (o & c & body & logged & quitted & -> & N & Q & S & _).
  intros options d Hin.
  assert (Hc : EChrome o c = EChrome options (Normal d)).
  { destruct Hin as [Hin|Hin]; [exact Hin|]. exfalso.
    apply in_app_or in Hin. destruct Hin as [Hin|Hin].
    - rewrite forallb_forall in N. specialize (N _ Hin). discriminate N.
    - apply in_app_or in Hin. destruct Hin as [Hin|Hin].
      + apply (quiet_in _ _ Q) in Hin. discriminate Hin.
      + destruct c as [d'|e].
        * destruct S as [q ->]. destruct Hin as [H|[]]. discriminate H.
        * destruct S as [_ ->]. destruct Hin. }
  injection Hc as -> ->. destruct S as [q ->].
  exists (body ++ logged), q. split.
  - rewrite <- app_assoc. reflexivity.
  - rewrite forallb_app, N, (quiet_no_session logged Q). reflexivity.
Qed.

Lemma browser_session_is_quit_witness :
  let '(r, _, t) :=
    get_jira_cookies (steady_env (Normal true) (Normal []) (Normal 200))
                     (fresh_state saved_file) in
  r = Raised (Exn ValueError "No cookies obtained")
  /\ exists between q,
       t = EChrome [ "--disable-crash-reporter"; "--disable-logging";
                     "--log-level=3"; "--output=/dev/null" ] (Normal "session-1")
           :: between ++ [EQuit q]
       /\ forallb (fun e => negb (session_event e)) between = true.
Proof.
  generalize (browser_session_is_quit unit
                (steady_env (Normal true) (Normal []) (Normal 200))
                (fresh_state saved_file)).
  vm_compute. intros H. split; [reflexivity|].
  apply H. left. reflexivity.
Defined.

(** C8, as the code has it: the credential file an acquisition writes is
    the JSON object with the keys user, pwd, JSESSIONID and
    AtlassianXsrfToken, in which a cookie key maps to an object with the
    members name and value when the service's store holds that cookie at
    the time of writing (captured in this run, or held from before) and to
    null when it holds none.  Every document a run dumps is that object and is
    the content of the file when the run ends, and a run that returns
    normally has dumped it. *)
Theorem persisted_file_format :
  forall (W : Type) (env : Env W) (s : state W),
    let '(r, s', t) := get_jira_cookies env s in
    (forall doc, In (EDump doc (Normal tt)) t ->
                 file s' = Holds doc
                 /\ doc = JObj [ ("user", dump (user (credential_settings s')));
                                 ("pwd", dump (pwd (credential_settings s')));
                                 ("JSESSIONID",
                                  cookie_entry (JSESSIONID (credential_settings s')));
                                 ("AtlassianXsrfToken",
                                  cookie_entry (AtlassianXsrfToken (credential_settings s'))) ])
    /\ (r = Normal tt ->
        file s' = Holds (settings_document (credential_settings s'))).
Proof.
  intros W env s. pose proof (get_jira_cookies_spec env s) as H.
  destruct (get_jira_cookies env s) as [[r s'] t].
  destruct H as (o & c & body & logged & quitted & -> & N & Q & S & _ & P & V).
  assert (Hbody : forall doc,
             In (EDump doc (Normal tt)) (EChrome o c :: body ++ logged ++ quitted) ->
             In (EDump doc (Normal tt)) body).
  { intros doc [Hin|Hin]; [discriminate Hin|].
    apply in_app_or in Hin. destruct Hin as [Hin|Hin]; [exact Hin|]. exfalso.
    apply in_app_or in Hin. destruct Hin as [Hin|Hin].
    - apply (quiet_in _ _ Q) in Hin. discriminate Hin.
    - destruct c as [d|e].
      + destruct S as [q ->]. destruct Hin as [H|[]]. discriminate H.
      + destruct S as [_ ->]. destruct Hin. }
  split.
  - intros doc Hin. apply (P doc (Hbody doc Hin)).
  - intros Hr. destruct (V Hr) as [doc Hin].
    destruct (P doc Hin) as [Hf ->]. exact Hf.
Qed.

Lemma persisted_file_format_witness :
  let '(_, s', _) :=
    get_jira_cookies (steady_env (Normal true) (Normal sample_cookies) (Normal 200))
                     (fresh_state truncated) in
  file s'
  = Holds (JObj [ ("user", JStr "jira_user_name");
                  ("pwd", JStr "jira_pwd");
                  ("JSESSIONID", JObj [("name", JStr "JSESSIONID"); ("value", JStr "A1B2")]);
                  ("AtlassianXsrfToken",
                   JObj [("name", JStr "atl.xsrf.token"); ("value", JStr "tok-9")]) ]).
Proof.
  generalize (persisted_file_format unit
                (steady_env (Normal true) (Normal sample_cookies) (Normal 200))
                (fresh_state truncated)).
  vm_compute. intros [_ H]. exact (H eq_refl).
Defined.

(** A cookie the store held before the run is written like a captured
    one: with a store that holds a session cookie and a browser that hands
    out none, the file gets the held cookie as an object. *)
Lemma held_cookie_is_written :
  let '(r, s', _) :=
    get_jira_cookies (steady_env (Normal true) (Normal [raw "theme" "dark"]) (Normal 200))
                     (mkState tt truncated
                        (typed_settings "u" "p" (Some ("JSESSIONID", "stale")) None) None) in
  r = Normal tt
  /\ file s'
     = Holds (JObj [ ("user", JStr "u");
                     ("pwd", JStr "p");
                     ("JSESSIONID",
                      JObj [("name", JStr "JSESSIONID"); ("value", JStr "stale")]);
                     ("AtlassianXsrfToken", JNull) ]).
Proof.
  vm_compute. split; reflexivity.
Qed.

(** The description is met by an object that leaves the key of an
    uncaptured cookie out. *)
Lemma described_document_leaves_key_out :
  described_document (typed_settings "u" "p" None (Some ("atl.xsrf.token", "tok-9")))
    (JObj [ ("user", JStr "u"); ("pwd", JStr "p");
            ("AtlassianXsrfToken",
             JObj [("name", JStr "atl.xsrf.token"); ("value", JStr "tok-9")]) ]).
Proof.
  eexists. split; [reflexivity|]. split.
  - intros k [<-|[<-|[<-|[]]]]; cbn; auto.
  - split; [left; reflexivity|]. split; [right; left; reflexivity|].
    split; [reflexivity|]. cbn. eexists _, _. reflexivity.
Qed.

(** C8 as worded fails: an acquisition that captured neither cookie
    succeeds and writes a file in which the key JSESSIONID is present and
    maps to null, where the wording has the key absent. *)
Lemma uncaptured_cookie_key_is_null :
  let '(r, s', _) :=
    get_jira_cookies (steady_env (Normal true) (Normal [raw "theme" "dark"]) (Normal 200))
                     (fresh_state truncated) in
  r = Normal tt
  /\ JSESSIONID (credential_settings s') = None
  /\ exists doc,
       file s' = Holds doc
       /\ json_member "JSESSIONID" doc = Some JNull
       /\ ~ described_document (credential_settings s') doc.
Proof.
  vm_compute. split; [reflexivity|]. split; [reflexivity|].
  eexists. split; [reflexivity|]. split; [reflexivity|].
  intros (d & E & _ & _ & _ & Hj & _). injection E as <-. discriminate Hj.
Qed.

(** The hidden element in any world: when the element is found and
    reported not displayed at every attempt, the loop makes its attempts
    back to back (no sleep, no click, no log) and returns normally. *)
Lemma click_loop_hidden {W : Type} (env : Env W) (element_id : string) :
  (forall w, exists el w1 w2,
      find_element env element_id w = (Normal el, w1)
      /\ is_displayed env el w1 = (Normal false, w2)) ->
  forall attempts (s : state W),
    let '(r, s', t) := click_loop env element_id attempts s in
    r = Normal tt
    /\ steady s s'
    /\ length t = (2 * length attempts)%nat
    /\ forallb (fun e => match e with
                         | EFindElement _ (Normal _) | EIsDisplayed _ (Normal false) => true
                         | _ => false
                         end) t = true.
Proof.
  intros Hidden. induction attempts as [|attempt rest IH]; intros s.
  - cbn. repeat split.
  - cbn [click_loop]. unfold bind at 1, click_attempt, try_except, bind, call, ret.
    destruct (Hidden (world s)) as (el & w1 & w2 & -> & Hd).
    cbn [world set_world]. rewrite Hd. cbn [app].
    specialize (IH (set_world w2 (set_world w1 s))).
    destruct (click_loop env element_id rest (set_world w2 (set_world w1 s)))
      as [[r s'] t].
    destruct IH as (-> & St & Len & All).
    split; [reflexivity|]. split; [exact St|]. split.
    + cbn [length]. rewrite Len. lia.
    + cbn. exact All.
Qed.

(** One attempt on an element whose lookup raises a [WebDriverException]:
    the last attempt logs and raises, an earlier one sleeps and goes on. *)
Lemma click_attempt_raising {W : Type} (env : Env W) (element_id : string)
      (attempt : Z) (s : state W) (e : exn) (w : W) :
  find_element env element_id (world s) = (Raised e, w) ->
  isinstance e WebDriverException = true ->
  click_attempt env element_id attempt s
  = if attempt =? MAX_RETRIES - 1
    then (Raised e, set_world w s,
          [EFindElement element_id (Raised e);
           ELog ERROR ("Failed to click element " ++ element_id ++ ": " ++ exn_msg e)])
    else (Normal false, set_world (time_sleep env WAIT_TIME w) (set_world w s),
          [EFindElement element_id (Raised e); ESleep WAIT_TIME]).
Proof.
  intros Hfind Hcls.
  unfold click_attempt, try_except, bind, call, sleep, log, raise, ret.
  rewrite Hfind, Hcls. destruct (attempt =? MAX_RETRIES - 1); reflexivity.
Qed.

(** The element that is never there, in any world: four lookups, a sleep
    of [WAIT_TIME] seconds after each of the first three, and the error of
    the fourth logged and raised. *)
Lemma click_retry_exhausted {W : Type} (env : Env W) (element_id : string) :
  (forall w, exists e w',
      find_element env element_id w = (Raised e, w')
      /\ isinstance e WebDriverException = true) ->
  forall s : state W,
    let '(r, _, t) := _click_element_with_retry env element_id s in
    exists e1 e2 e3 e4,
      r = Raised e4
      /\ t = [ EFindElement element_id (Raised e1); ESleep WAIT_TIME;
               EFindElement element_id (Raised e2); ESleep WAIT_TIME;
               EFindElement element_id (Raised e3); ESleep WAIT_TIME;
               EFindElement element_id (Raised e4);
               ELog ERROR ("Failed to click element " ++ element_id ++ ": "
                           ++ exn_msg e4) ].
Proof.
  intros Absent s.
  unfold _click_element_with_retry.
  change (range MAX_RETRIES) with [0; 1; 2; 3]. cbn [click_loop].
  destruct (Absent (world s)) as (e1 & w1 & F1 & C1).
  unfold bind at 1. rewrite (click_attempt_raising env element_id 0 s e1 w1 F1 C1).
  cbn [Z.eqb Z.sub MAX_RETRIES Z.add Z.opp Z.pos_sub Pos.pred_double Pos.eqb].
  set (s1 := set_world (time_sleep env WAIT_TIME w1) (set_world w1 s)).
  destruct (Absent (world s1)) as (e2 & w2 & F2 & C2).
  unfold bind at 1. rewrite (click_attempt_raising env element_id 1 s1 e2 w2 F2 C2).
  cbn [Z.eqb Z.sub MAX_RETRIES Z.add Z.opp Z.pos_sub Pos.pred_double Pos.eqb].
  set (s2 := set_world (time_sleep env WAIT_TIME w2) (set_world w2 s1)).
  destruct (Absent (world s2)) as (e3 & w3 & F3 & C3).
  unfold bind at 1. rewrite (click_attempt_raising env element_id 2 s2 e3 w3 F3 C3).
  cbn [Z.eqb Z.sub MAX_RETRIES Z.add Z.opp Z.pos_sub Pos.pred_double Pos.eqb].
  set (s3 := set_world (time_sleep env WAIT_TIME w3) (set_world w3 s2)).
  destruct (Absent (world s3)) as (e4 & w4 & F4 & C4).
  unfold bind at 1. rewrite (click_attempt_raising env element_id 3 s3 e4 w4 F4 C4).
  cbn [Z.eqb Z.sub MAX_RETRIES Z.add Z.opp Z.pos_sub Pos.pred_double Pos.eqb].
  exists e1, e2, e3, e4. split; reflexivity.
Qed.

(** C6 at the failing input: an element that is found but not displayed.
    The four attempts follow each other without any sleep, nothing is
    clicked, and the call returns normally: no error reaches the caller. *)
Theorem click_retry_hidden_element :
  _click_element_with_retry (steady_env (Normal false) (Normal []) (Normal 200))
    "login-form-submit" (fresh_state truncated)
  = (Normal tt, fresh_state truncated,
     [ EFindElement "login-form-submit" (Normal "element:login-form-submit");
       EIsDisplayed "element:login-form-submit" (Normal false);
       EFindElement "login-form-submit" (Normal "element:login-form-submit");
       EIsDisplayed "element:login-form-submit" (Normal false);
       EFindElement "login-form-submit" (Normal "element:login-form-submit");
       EIsDisplayed "element:login-form-submit" (Normal false);
       EFindElement "login-form-submit" (Normal "element:login-form-submit");
       EIsDisplayed "element:login-form-submit" (Normal false) ]).
Proof. vm_compute. reflexivity. Qed.

(** The path the retry loop does cover: an element that cannot be found
    is looked up four times with a sleep of three seconds between the
    attempts, and the last failure is logged and raised. *)
Lemma click_retry_absent_element :
  _click_element_with_retry absent_env "login-form-submit" (fresh_state truncated)
  = (Raised (Exn NoSuchElementException "no such element: login-form-submit"),
     fresh_state truncated,
     [ EFindElement "login-form-submit"
         (Raised (Exn NoSuchElementException "no such element: login-form-submit"));
       ESleep 3;
       EFindElement "login-form-submit"
         (Raised (Exn NoSuchElementException "no such element: login-form-submit"));
       ESleep 3;
       EFindElement "login-form-submit"
         (Raised (Exn NoSuchElementException "no such element: login-form-submit"));
       ESleep 3;
       EFindElement "login-form-submit"
         (Raised (Exn NoSuchElementException "no such element: login-form-submit"));
       ELog ERROR "Failed to click element login-form-submit: no such element: login-form-submit" ]).
Proof. vm_compute. reflexivity. Qed.

(* ================================================================== *)
(** ** Deserialisation *)

Lemma cookie_of_entry_cases (v : pyval) :
  if accepted_entry v
  then exists o, cookie_of_entry v = Normal o
                 /\ (o = None <-> truthy v = false)
                 /\ (forall c, o = Some c -> CookieSet_from_kwargs v = Normal c)
  else exists e, cookie_of_entry v = Raised e /\ exn_cls e = TypeError.
Proof.
  unfold accepted_entry, cookie_of_entry.
  destruct (truthy v) eqn:Ht; cbn [negb orb].
  - destruct (CookieSet_from_kwargs v) as [c|e] eqn:Hk.
    + assert (Hacc : match v with
                     | PDict d =>
                         forallb is_cookie_field (dict_keys d)
                         && match dict_get "name" d, dict_get "value" d with
                            | Some _, Some _ => true
                            | _, _ => false
                            end
                     | _ => false
                     end = true).
      { unfold CookieSet_from_kwargs in Hk.
        destruct v as [| | | | | |d|]; try discriminate Hk.
        destruct (forallb is_cookie_field (dict_keys d)); [|discriminate Hk].
        destruct (dict_get "name" d); [|discriminate Hk].
        destruct (dict_get "value" d); [reflexivity | discriminate Hk]. }
      rewrite Hacc. exists (Some c). split; [reflexivity|]. split.
      * split; discriminate.
      * intros c' [= <-]. reflexivity.
    + assert (Hacc : match v with
                     | PDict d =>
                         forallb is_cookie_field (dict_keys d)
                         && match dict_get "name" d, dict_get "value" d with
                            | Some _, Some _ => true
                            | _, _ => false
                            end
                     | _ => false
                     end = false).
      { unfold CookieSet_from_kwargs in Hk.
        destruct v as [| | | | | |d|]; try reflexivity.
        destruct (forallb is_cookie_field (dict_keys d)); [|reflexivity].
        destruct (dict_get "name" d); [|reflexivity].
        destruct (dict_get "value" d); [discriminate Hk | reflexivity]. }
      rewrite Hacc. exists e. split; [reflexivity|].
      apply (CookieSet_from_kwargs_raises v e Hk).
  - exists None. split; [reflexivity|]. split; [tauto | discriminate].
Qed.

(** X1: [from_dict] on anything but a dict raises [AttributeError]; on a
    dict it succeeds exactly when each cookie entry is falsy (missing,
    null, empty) or a dict with exactly the keys name and value, and
    raises [TypeError] otherwise.  On success user and pwd are the entries
    or, when the key is missing, the configured defaults, and a cookie is
    left at [None] exactly when its entry is falsy. *)
Theorem from_dict_outcomes :
  forall data : pyval,
    match data with
    | PDict d =>
        if accepted_entry (dict_entry "JSESSIONID" d)
           && accepted_entry (dict_entry "AtlassianXsrfToken" d)
        then exists s,
            from_dict data = Normal s
            /\ user s = match dict_get "user" d with
                        | Some v => v
                        | None => PStr Config.DEFAULT_USER
                        end
            /\ pwd s = match dict_get "pwd" d with
                       | Some v => v
                       | None => PStr Config.DEFAULT_PASSWORD
                       end
            /\ (JSESSIONID s = None <-> truthy (dict_entry "JSESSIONID" d) = false)
            /\ (AtlassianXsrfToken s = None <->
                truthy (dict_entry "AtlassianXsrfToken" d) = false)
        else exists e, from_dict data = Raised e /\ exn_cls e = TypeError
    | _ => exists e, from_dict data = Raised e /\ exn_cls e = AttributeError
    end.
Proof.
  intros data.
  destruct data as [| | | | | |d|]; try (eexists; split; reflexivity).
  rewrite from_dict_dict.
  pose proof (cookie_of_entry_cases (dict_entry "JSESSIONID" d)) as Hj.
  pose proof (cookie_of_entry_cases (dict_entry "AtlassianXsrfToken" d)) as Hx.
  destruct (accepted_entry (dict_entry "JSESSIONID" d)); cbn [andb].
  - destruct Hj as (j & -> & Hjn & _).
    destruct (accepted_entry (dict_entry "AtlassianXsrfToken" d)).
    + destruct Hx as (x & -> & Hxn & _).
      eexists. split; [reflexivity|]. cbn. auto.
    + destruct Hx as (e & -> & He). eauto.
  - destruct Hj as (e & -> & He). eauto.
Qed.

Lemma dict_get_keep_known (k : string) (d : list (string * pyval)) :
  known_key k = true -> dict_get k (keep_known d) = dict_get k d.
Proof.
  intros Hk. unfold keep_known.
  induction d as [|[k' v] d IH]; cbn; [reflexivity|].
  destruct (known_key k') eqn:Hk'; cbn.
  - destruct (String.eqb k k'); [reflexivity | exact IH].
  - destruct (String.eqb k k') eqn:E; [|exact IH].
    apply String.eqb_eq in E. subst k'. rewrite Hk in Hk'. discriminate Hk'.
Qed.

(** X2: [from_dict] reads the four keys it knows and nothing else: the
    dict stripped of every other key deserialises to the same store, or
    raises the same error. *)
Theorem from_dict_ignores_unknown_keys :
  forall d : list (string * pyval),
    from_dict (PDict (keep_known d)) = from_dict (PDict d).
Proof.
  intros d. rewrite !from_dict_dict. unfold dict_entry.
  rewrite !dict_get_keep_known by reflexivity. reflexivity.
Qed.

(** X3: the dict that [CookieSetEncoder.default] makes of a [CookieSet] is
    truthy and, passed back to the constructor as keyword arguments, gives
    the same [CookieSet]; on every other object [default] raises
    [TypeError]. *)
Theorem encoder_default_inverts_constructor :
  (forall c : CookieSet,
      exists d, CookieSetEncoder_default (cookie_object c) = Normal d
                /\ truthy d = true
                /\ CookieSet_from_kwargs d = Normal c)
  /\ (forall obj : pyval,
         (forall n v, obj <> PCookieSet n v) ->
         exists e, CookieSetEncoder_default obj = Raised e /\ exn_cls e = TypeError).
Proof.
  split.
  - intros [n v]. eexists. split; [reflexivity|]. split; reflexivity.
  - intros obj Hobj.
    destruct obj as [| | | | | | |n v]; try (eexists; split; reflexivity).
    destruct (Hobj n v eq_refl).
Qed.

Lemma encoder_default_inverts_constructor_witness :
  exists e, CookieSetEncoder_default (PStr "JSESSIONID") = Raised e
            /\ exn_cls e = TypeError.
Proof.
  destruct encoder_default_inverts_constructor as [_ H].
  apply (H (PStr "JSESSIONID")). intros n v. discriminate.
Defined.

(** Dumping what was loaded gives the document back. *)
Fixpoint dump_load (j : json) : dump (load j) = j.
Proof.
  destruct j as [| | | | |l|d]; cbn [load dump]; try reflexivity.
  - f_equal. induction l as [|a l IH]; cbn [map]; [reflexivity|].
    f_equal; [apply dump_load | exact IH].
  - f_equal. induction d as [|[k v] d IH]; cbn [map fst snd]; [reflexivity|].
    f_equal; [f_equal; apply dump_load | exact IH].
Qed.

Lemma load_dump_loaded (v : pyval) : loaded v -> load (dump v) = v.
Proof. intros [j ->]. rewrite dump_load. reflexivity. Qed.

Lemma loaded_entry (key : string) (d : list (string * json)) (default : json) :
  loaded (match dict_get key (map (fun kv => (fst kv, load (snd kv))) d) with
          | Some v => v
          | None => load default
          end).
Proof.
  rewrite dict_get_loaded. destruct (dict_get key d) as [j|]; cbn; eexists; reflexivity.
Qed.

Lemma loaded_cookie_of_entry (key : string) (d : list (string * json))
      (o : option CookieSet) :
  cookie_of_entry (dict_entry key (map (fun kv => (fst kv, load (snd kv))) d)) = Normal o ->
  loaded_cookie o.
Proof.
  destruct o as [c|]; [|intros _; exact I].
  intros H. apply cookie_of_entry_some in H. destruct H as (d' & E & _ & Hn & Hv).
  unfold dict_entry in E. rewrite dict_get_loaded in E.
  destruct (dict_get key d) as [j|]; cbn in E; [|discriminate E].
  apply load_dict in E. destruct E as (dj & -> & ->).
  rewrite dict_get_loaded in Hn, Hv.
  destruct (dict_get "name" dj) as [jn|]; [|discriminate Hn].
  destruct (dict_get "value" dj) as [jv|]; [|discriminate Hv].
  cbn in Hn, Hv. injection Hn as Hn. injection Hv as Hv.
  split; eexists; symmetry; eassumption.
Qed.

(** Every field of a store that came out of a file is a loaded value. *)
Lemma from_dict_loaded (doc : json) (saved : CredentialSettings) :
  from_dict (load doc) = Normal saved ->
  loaded (user saved) /\ loaded (pwd saved)
  /\ loaded_cookie (JSESSIONID saved) /\ loaded_cookie (AtlassianXsrfToken saved).
Proof.
  destruct doc as [| | | | | |d]; try discriminate.
  cbn [load]. rewrite from_dict_dict.
  destruct (cookie_of_entry (dict_entry "JSESSIONID" _)) as [j|] eqn:Ej; [|discriminate].
  destruct (cookie_of_entry (dict_entry "AtlassianXsrfToken" _)) as [x|] eqn:Ex;
    [|discriminate].
  intros [= <-]. cbn [user pwd JSESSIONID AtlassianXsrfToken].
  split; [apply (loaded_entry "user" d (JStr Config.DEFAULT_USER))|].
  split; [apply (loaded_entry "pwd" d (JStr Config.DEFAULT_PASSWORD))|].
  split; [apply (loaded_cookie_of_entry _ _ _ Ej) | apply (loaded_cookie_of_entry _ _ _ Ex)].
Qed.

(** The round trip for a store of loaded values. *)
Lemma from_dict_of_loaded_document (s : CredentialSettings) :
  loaded (user s) -> loaded (pwd s) ->
  loaded_cookie (JSESSIONID s) -> loaded_cookie (AtlassianXsrfToken s) ->
  from_dict (load (settings_document s)) = Normal s.
Proof.
  destruct s as [u p j x]. cbn [user pwd JSESSIONID AtlassianXsrfToken].
  intros Hu Hp Hj Hx.
  unfold settings_document. cbn [load map fst snd user pwd JSESSIONID AtlassianXsrfToken].
  rewrite from_dict_dict. unfold dict_entry. cbn [dict_get String.eqb Ascii.eqb Bool.eqb].
  rewrite (load_dump_loaded u Hu), (load_dump_loaded p Hp).
  destruct j as [[jn jv]|], x as [[xn xv]|];
    cbn [cookie_entry load map fst snd name value];
    repeat match goal with
           | H : loaded_cookie (Some _) |- _ => destruct H as [?Hn ?Hv]; cbn in Hn, Hv
           end;
    rewrite ?(load_dump_loaded jn), ?(load_dump_loaded jv),
      ?(load_dump_loaded xn), ?(load_dump_loaded xv) by assumption;
    reflexivity.
Qed.

(** X4: a store that was read from a credential file comes back unchanged
    when it is serialised and read again, whatever JSON values its fields
    hold. *)
Theorem reload_is_stable :
  forall (doc : json) (saved : CredentialSettings),
    from_dict (load doc) = Normal saved ->
    from_dict (load (settings_document saved)) = Normal saved.
Proof.
  intros doc saved H.
  destruct (from_dict_loaded doc saved H) as (Hu & Hp & Hj & Hx).
  apply from_dict_of_loaded_document; assumption.
Qed.

Lemma reload_is_stable_witness :
  from_dict
    (load (settings_document
             (mkCredentialSettings (PInt 7) (PStr Config.DEFAULT_PASSWORD)
                (Some (mkCookieSet (PStr "jsessionid") (PList [PInt 1; PNone]))) None)))
  = Normal (mkCredentialSettings (PInt 7) (PStr Config.DEFAULT_PASSWORD)
              (Some (mkCookieSet (PStr "jsessionid") (PList [PInt 1; PNone]))) None).
Proof.
  apply (reload_is_stable
           (JObj [ ("user", JInt 7);
                   ("JSESSIONID", JObj [ ("value", JArr [JInt 1; JNull]);
                                         ("name", JStr "jsessionid") ]);
                   ("AtlassianXsrfToken", JObj []);
                   ("comment", JStr "ignored") ])).
  reflexivity.
Defined.

(* ================================================================== *)
(** ** More on the store update and its persistence *)

Lemma grows_refl (a : CredentialSettings) : grows a a.
Proof. repeat split; auto. Qed.

Lemma grows_trans (a b c : CredentialSettings) : grows a b -> grows b c -> grows a c.
Proof.
  intros (U1 & P1 & J1 & X1) (U2 & P2 & J2 & X2).
  repeat split; try congruence; auto.
Qed.

(** Whatever a cookie is, the loop body makes no call and the store only
    grows. *)
Lemma save_cookie_grows {W : Type} (c : pyval) (s : state W) :
  exists r cs, save_cookie c s = (r, set_credential_settings cs s, [])
               /\ grows (credential_settings s) cs.
Proof.
  destruct s as [w f cs d].
  unfold save_cookie, bind, lift, modify_settings, ret, set_credential_settings.
  cbn [world file credential_settings driver].
  destruct (subscript c "name") as [n|e];
    [|eexists _, cs; split; [reflexivity | apply grows_refl]].
  destruct (py_lower n) as [l|e];
    [|eexists _, cs; split; [reflexivity | apply grows_refl]].
  destruct (String.eqb l "jsessionid").
  - destruct (subscript c "value") as [v|e].
    + eexists _, _. split; [reflexivity|]. repeat split; cbn; auto; discriminate.
    + eexists _, cs. split; [reflexivity | apply grows_refl].
  - destruct (String.eqb l "atl.xsrf.token" || String.eqb l "atlassian.xsrf.token").
    + destruct (subscript c "value") as [v|e].
      * eexists _, _. split; [reflexivity|]. repeat split; cbn; auto; discriminate.
      * eexists _, cs. split; [reflexivity | apply grows_refl].
    + eexists _, cs. split; [reflexivity | apply grows_refl].
Qed.

Lemma update_store_grows {W : Type} (cookies : list pyval) :
  forall s : state W,
    exists r cs,
      update_store cookies s = (r, set_credential_settings cs s, [])
      /\ grows (credential_settings s) cs.
Proof.
  unfold update_store.
  induction cookies as [|c l IH]; intros s; cbn [for_each].
  - exists (Normal tt), (credential_settings s).
    split; [destruct s; reflexivity | apply grows_refl].
  - unfold bind at 1. destruct (save_cookie_grows c s) as (r & cs & -> & G).
    destruct r as [[]|e]; [|eauto].
    destruct (IH (set_credential_settings cs s)) as (r' & cs' & -> & G').
    rewrite set_settings_twice. exists r', cs'. split; [reflexivity|].
    eapply grows_trans; eassumption.
Qed.

(** X5: for every list of cookies, well formed or not, and however the
    loop ends, the store update makes no call on any collaborator, leaves
    world, file and driver as they were, keeps user and password, and
    never empties a cookie field that was filled. *)
Theorem store_update_only_grows :
  forall (W : Type) (cookies : list pyval) (s : state W),
    exists r cs,
      update_store cookies s = (r, set_credential_settings cs s, [])
      /\ grows (credential_settings s) cs.
Proof.
  intros W cookies s. apply update_store_grows.
Qed.

Lemma usable_inv (c : pyval) :
  usable c = true ->
  exists d n, c = PDict d /\ dict_get "name" d = Some (PStr n)
              /\ (is_session_cookie c || is_xsrf_cookie c = true ->
                  exists v, dict_get "value" d = Some v).
Proof.
  unfold usable, is_session_cookie, is_xsrf_cookie, cookie_name, cookie_value.
  destruct c as [| | | | | |d|]; try discriminate.
  destruct (dict_get "name" d) as [[| | | |n| | |]|] eqn:Hn; try discriminate.
  intros H. exists d, n. split; [reflexivity|]. split; [exact Hn|].
  intros Hm. rewrite Hm in H.
  destruct (dict_get "value" d) as [v|]; [eauto | discriminate H].
Qed.

(** On a usable cookie the loop body does what [absorb] says. *)
Lemma save_cookie_usable {W : Type} (c : pyval) (s : state W) :
  usable c = true ->
  save_cookie c s
  = (Normal tt, set_credential_settings (absorb (credential_settings s) c) s, []).
Proof.
  intros H. destruct (usable_inv c H) as (d & n & -> & Hn & Hv).
  unfold is_session_cookie, is_xsrf_cookie, cookie_name in Hv. rewrite Hn in Hv.
  unfold save_cookie, absorb, captured, is_session_cookie, is_xsrf_cookie,
    cookie_name, cookie_value, bind, lift, subscript, py_lower, modify_settings, ret.
  rewrite Hn. cbv beta iota zeta.
  destruct (String.eqb (lower n) "jsessionid") eqn:Hj.
  - destruct (Hv eq_refl) as [v Hval]. rewrite ?Hn, ?Hval. reflexivity.
  - destruct (String.eqb (lower n) "atl.xsrf.token"
              || String.eqb (lower n) "atlassian.xsrf.token") eqn:Hx.
    + destruct (Hv eq_refl) as [v Hval]. rewrite ?Hn, ?Hval. reflexivity.
    + destruct (dict_get "value" d); destruct s; reflexivity.
Qed.

(** On an unusable cookie it raises and leaves the store alone. *)
Lemma save_cookie_unusable {W : Type} (c : pyval) (s : state W) :
  usable c = false ->
  exists e, save_cookie c s = (Raised e, s, [])
            /\ (exn_cls e = KeyError \/ exn_cls e = TypeError
                \/ exn_cls e = AttributeError).
Proof.
  unfold usable, is_session_cookie, is_xsrf_cookie, cookie_name, cookie_value.
  unfold save_cookie, bind, lift, subscript, py_lower, modify_settings, ret.
  destruct c as [| | | | | |d|]; try (intros _; eexists; split; [reflexivity | auto]).
  destruct (dict_get "name" d) as [[| | | |n| | |]|] eqn:Hn;
    try (intros _; eexists; split; [reflexivity | cbn; auto]).
  cbv beta iota zeta.
  destruct (String.eqb (lower n) "jsessionid") eqn:Hj; cbn [orb].
  - destruct (dict_get "value" d); [discriminate|].
    intros _. eexists; split; [reflexivity | cbn; auto].
  - destruct (String.eqb (lower n) "atl.xsrf.token"
              || String.eqb (lower n) "atlassian.xsrf.token") eqn:Hx.
    + destruct (dict_get "value" d); [discriminate|].
      intros _. eexists; split; [reflexivity | cbn; auto].
    + discriminate.
Qed.

Lemma update_store_stops {W : Type} (before after : list pyval) (bad : pyval) :
  Forall (fun c => usable c = true) before ->
  usable bad = false ->
  forall s : state W,
    exists e,
      update_store (before ++ bad :: after) s
      = (Raised e,
         set_credential_settings (fold_left absorb before (credential_settings s)) s,
         [])
      /\ (exn_cls e = KeyError \/ exn_cls e = TypeError \/ exn_cls e = AttributeError).
Proof.
  intros Hbefore Hbad. unfold update_store.
  induction Hbefore as [|c l Hc Hl IH]; intros s.
  - cbn [app for_each fold_left]. unfold bind at 1.
    destruct (save_cookie_unusable bad s Hbad) as (e & -> & He).
    exists e. split; [destruct s; reflexivity | exact He].
  - cbn [app for_each fold_left]. unfold bind at 1.
    rewrite (save_cookie_usable c s Hc).
    destruct (IH (set_credential_settings (absorb (credential_settings s) c) s))
      as (e & -> & He).
    exists e. split; [reflexivity | exact He].
Qed.

(** X6: the save stops at the first cookie it cannot use (one that is no
    dict, has no string name, or has a storable name and no value): it
    raises [KeyError], [TypeError] or [AttributeError], the file is
    neither opened nor written, the cookies before the bad one are already
    in the store, and the cookies after it are never looked at. *)
Theorem save_cookies_stops_at_bad_cookie :
  forall (W : Type) (env : Env W) (before after : list pyval) (bad : pyval)
         (s : state W),
    Forall (fun c => usable c = true) before ->
    usable bad = false ->
    exists e,
      _save_cookies env (before ++ bad :: after) s
      = (Raised e,
         set_credential_settings (fold_left absorb before (credential_settings s)) s,
         [])
      /\ (exn_cls e = KeyError \/ exn_cls e = TypeError \/ exn_cls e = AttributeError).
Proof.
  intros W env before after bad s Hbefore Hbad.
  destruct (update_store_stops before after bad Hbefore Hbad s) as (e & Hrun & He).
  exists e. split; [|exact He].
  unfold _save_cookies, bind. rewrite Hrun. reflexivity.
Qed.

Lemma save_cookies_stops_at_bad_cookie_witness :
  exists e,
    _save_cookies (steady_env (Normal true) (Normal []) (Normal 200))
      ([raw "JSESSIONID" "A1B2"; PDict [("name", PStr "theme")]]
       ++ PDict [("name", PStr kelvin_name)] :: [raw "jsessionid" "late"])
      (fresh_state saved_file)
    = (Raised e,
       set_credential_settings
         (mkCredentialSettings (PStr Config.DEFAULT_USER) (PStr Config.DEFAULT_PASSWORD)
            (Some (mkCookieSet (PStr "JSESSIONID") (PStr "A1B2"))) None)
         (fresh_state saved_file),
       [])
    /\ (exn_cls e = KeyError \/ exn_cls e = TypeError \/ exn_cls e = AttributeError).
Proof.
  apply (save_cookies_stops_at_bad_cookie unit
           (steady_env (Normal true) (Normal []) (Normal 200))
           [raw "JSESSIONID" "A1B2"; PDict [("name", PStr "theme")]]
           [raw "jsessionid" "late"]
           (PDict [("name", PStr kelvin_name)])
           (fresh_state saved_file)).
  - repeat constructor.
  - reflexivity.
Defined.

Lemma update_store_usable {W : Type} (cookies : list pyval) :
  Forall (fun c => usable c = true) cookies ->
  forall s : state W,
    update_store cookies s
    = (Normal tt,
       set_credential_settings (fold_left absorb cookies (credential_settings s)) s, []).
Proof.
  unfold update_store.
  induction 1 as [|c l Hc Hl IH]; intros s.
  - destruct s; reflexivity.
  - cbn [for_each fold_left]. unfold bind at 1.
    rewrite (save_cookie_usable c s Hc), IH. reflexivity.
Qed.

(** A list with an unusable cookie splits at the first one. *)
Lemma first_unusable (l : list pyval) :
  forallb usable l = false ->
  exists before bad after,
    l = before ++ bad :: after
    /\ Forall (fun c => usable c = true) before
    /\ usable bad = false.
Proof.
  induction l as [|c l IH]; cbn; [discriminate|].
  destruct (usable c) eqn:Hc; cbn.
  - intros H. destruct (IH H) as (before & bad & after & -> & Hb & Hbad).
    exists (c :: before), bad, after. split; [reflexivity|]. split; [|exact Hbad].
    constructor; assumption.
  - intros _. exists [], c, l. split; [reflexivity|]. split; [constructor | exact Hc].
Qed.

(** X7: the store update ends normally exactly when every cookie of the
    list is usable: a dict with a string name that, if the name is one the
    loop stores, also has a value.  A cookie with an unrelated name needs
    no value. *)
Theorem store_update_succeeds_iff :
  forall (W : Type) (cookies : list pyval) (s : state W),
    fst (fst (update_store cookies s)) = Normal tt
    <-> forallb usable cookies = true.
Proof.
  intros W cookies s. split.
  - intros Hrun. destruct (forallb usable cookies) eqn:Hall; [reflexivity|].
    destruct (first_unusable cookies Hall) as (before & bad & after & -> & Hb & Hbad).
    destruct (update_store_stops before after bad Hb Hbad s) as (e & He & _).
    rewrite He in Hrun. discriminate Hrun.
  - intros Hall. rewrite forallb_forall in Hall.
    rewrite update_store_usable; [reflexivity|].
    apply Forall_forall. exact Hall.
Qed.

(** X8: the persistence step either writes the document of the store
    (one open for writing, one dump, nothing else) or fails at the open or
    at the dump; a failure is raised on to the caller, with one error log
    entry before it when it is an [IOError] and none otherwise.  A failed
    open leaves the file as it was, and the store is never touched. *)
Theorem persist_settings_outcomes :
  forall (W : Type) (env : Env W) (s : state W),
    let '(r, s', t) := persist_settings env s in
    let doc := settings_document (credential_settings s) in
    credential_settings s' = credential_settings s
    /\ ((r = Normal tt
         /\ t = [EOpen CONFIG_PATH "w" (Normal tt); EDump doc (Normal tt)]
         /\ file s' = Holds doc)
        \/ exists e calls,
            r = Raised e
            /\ t = calls ++ (if isinstance e IOError
                             then [ELog ERROR ("Failed to save cookies: " ++ exn_msg e)]
                             else [])
            /\ ((calls = [EOpen CONFIG_PATH "w" (Raised e)] /\ file s' = file s)
                \/ calls = [EOpen CONFIG_PATH "w" (Normal tt); EDump doc (Raised e)])).
Proof.
  intros W env s.
  unfold persist_settings, try_except, bind, get_settings, write_json, log, raise.
  cbv beta iota zeta. rewrite settings_document_dump.
  destruct (open_w env CONFIG_PATH (world s)) as [[[]|e] w].
  - destruct (file_write env _ w) as [[[]|e] w'].
    + split; [reflexivity|]. left. repeat split.
    + destruct (isinstance e IOError) eqn:Hio; (split; [reflexivity|]); right;
        exists e, [EOpen CONFIG_PATH "w" (Normal tt);
                   EDump (settings_document (credential_settings s)) (Raised e)];
        rewrite Hio; (split; [reflexivity|]); (split; [reflexivity|]);
        right; reflexivity.
  - destruct (isinstance e IOError) eqn:Hio; (split; [reflexivity|]); right;
      exists e, [EOpen CONFIG_PATH "w" (Raised e)];
      rewrite Hio; (split; [reflexivity|]); (split; [reflexivity|]);
      left; split; reflexivity.
Qed.

(* ================================================================== *)
(** ** The retry loop in any world *)

Lemma count_app (p : event -> bool) (t1 t2 : list event) :
  count p (t1 ++ t2) = (count p t1 + count p t2)%nat.
Proof. unfold count. rewrite filter_app, length_app. reflexivity. Qed.

Lemma sleeps_wait_time_app (t1 t2 : list event) :
  sleeps_wait_time (t1 ++ t2) = sleeps_wait_time t1 && sleeps_wait_time t2.
Proof. apply forallb_app. Qed.

Lemma clicks_follow_check_app (t1 t2 : list event) :
  match t2 with EClick _ _ :: _ => False | _ => True end ->
  clicks_follow_check (t1 ++ t2) = clicks_follow_check t1 && clicks_follow_check t2.
Proof.
  intros H2. induction t1 as [|a t1 IH]; [reflexivity|].
  cbn [app clicks_follow_check]. rewrite IH.
  destruct t1 as [|b t1]; cbn [app].
  - destruct t2 as [|[] t2]; try reflexivity. destruct H2.
  - rewrite andb_assoc. reflexivity.
Qed.

Lemma clicks_guarded_app (t1 t2 : list event) :
  t1 <> [] ->
  match t2 with EClick _ _ :: _ => False | _ => True end ->
  clicks_guarded t1 = true -> clicks_follow_check t2 = true ->
  clicks_guarded (t1 ++ t2) = true.
Proof.
  intros Hne H2 G1 G2. destruct t1 as [|a t1]; [destruct (Hne eq_refl)|].
  unfold clicks_guarded in *. cbn [app].
  destruct a; try discriminate G1;
    change (?x :: t1 ++ t2) with ((x :: t1) ++ t2);
    rewrite (clicks_follow_check_app _ t2 H2), G1, G2; reflexivity.
Qed.

Section RetryLoop.

Context {W : Type}.
Variable env : Env W.
Variable element_id : string.

(** The five ways one attempt can go. *)
Lemma click_attempt_shapes (attempt : Z) (s : state W) :
  let '(r, _, t) := click_attempt env element_id attempt s in
  (exists el, r = Normal true
              /\ t = [EFindElement element_id (Normal el);
                      EIsDisplayed el (Normal true); EClick el (Normal tt)])
  \/ (exists el, r = Normal false
                 /\ t = [EFindElement element_id (Normal el);
                         EIsDisplayed el (Normal false)])
  \/ (exists e calls,
         failed_attempt element_id e calls
         /\ ((isinstance e WebDriverException = true
              /\ attempt <> MAX_RETRIES - 1
              /\ r = Normal false /\ t = calls ++ [ESleep WAIT_TIME])
             \/ (isinstance e WebDriverException = true
                 /\ attempt = MAX_RETRIES - 1
                 /\ r = Raised e
                 /\ t = calls ++ [ELog ERROR ("Failed to click element " ++ element_id
                                              ++ ": " ++ exn_msg e)])
             \/ (isinstance e WebDriverException = false
                 /\ r = Raised e /\ t = calls))).
Proof.
  unfold click_attempt, try_except, bind, call, sleep, log, raise, ret.
  destruct (find_element env element_id (world s)) as [[el|e] w1];
    cbn [world set_world];
    [destruct (is_displayed env el w1) as [[[|]|e] w2];
     cbn [world set_world];
     [destruct (click env el w2) as [[[]|e] w3]; cbn [world set_world]| |]|];
    try (left; exists el; split; reflexivity);
    try (right; left; exists el; split; reflexivity);
    (destruct (isinstance e WebDriverException) eqn:Hcls;
     [destruct (attempt =? MAX_RETRIES - 1) eqn:Hlast;
      [apply Z.eqb_eq in Hlast | apply Z.eqb_neq in Hlast]|]);
    cbv beta iota zeta; cbn [app];
    right; right;
    match goal with
    | |- exists e' calls', _ /\ (_ \/ (_ /\ _ /\ Raised _ = _ /\ ?t = _) \/ _) =>
        first
          [ exists e, (removelast t); split;
            [ first [ left; reflexivity
                    | right; left; exists el; reflexivity
                    | right; right; exists el; reflexivity ]
            | right; left; repeat split; assumption ]
          | exists e, t; split;
            [ first [ left; reflexivity
                    | right; left; exists el; reflexivity
                    | right; right; exists el; reflexivity ]
            | right; right; repeat split; assumption ] ]
    | |- exists e' calls', _ /\ ((_ /\ _ /\ Normal _ = _ /\ ?t = _) \/ _) =>
        exists e, (removelast t); split;
        [ first [ left; reflexivity
                | right; left; exists el; reflexivity
                | right; right; exists el; reflexivity ]
        | left; repeat split; assumption ]
    end.
Qed.

Ltac retry_conjuncts :=
  split; [|split; [|split; [|split; [|split; [|split]]]]].

Ltac retry_easy :=
  try reflexivity;
  try (eexists _, _; reflexivity);
  try (unfold count; cbn; lia);
  try (cbn; rewrite ?String.eqb_refl; reflexivity).

(** What one attempt that lets the loop go on adds in front of the rest. *)
Lemma retry_run_continue (a : Z) (b : Z) (rest : list Z) (seg t2 : list event)
      (r2 : outcome unit) :
  (exists r1 t1, seg = EFindElement element_id r1 :: t1) ->
  count is_find seg = 1%nat ->
  (count is_sleep seg <= 1)%nat ->
  sleeps_wait_time seg = true ->
  clicks_follow_check seg = true ->
  forallb (fun e => negb (is_clicked e)) seg = true ->
  retry_run element_id (b :: rest) r2 t2 ->
  retry_run element_id (a :: b :: rest) r2 (seg ++ t2).
Proof.
  intros (r1 & t1 & Hhead1) F1 S1 W1 G1 C1
         ((r0 & t' & Hhead) & Hfinds & Hsleeps & Hwait & Hguard & Hclick & Hout).
  assert (Hne : t2 <> []) by (rewrite Hhead; discriminate).
  assert (Hnoclick : match t2 with EClick _ _ :: _ => False | _ => True end)
    by (rewrite Hhead; exact I).
  retry_conjuncts.
  - rewrite Hhead1. eexists _, _. reflexivity.
  - rewrite count_app, F1. cbn [length] in *. lia.
  - rewrite !count_app, F1. lia.
  - rewrite sleeps_wait_time_app, W1, Hwait. reflexivity.
  - rewrite (clicks_follow_check_app _ _ Hnoclick), G1, Hguard. reflexivity.
  - rewrite (removelast_app _ Hne), forallb_app, C1, Hclick. reflexivity.
  - destruct r2 as [[]|e2].
    + destruct Hout as [(t0 & el' & ->) | (t0 & el' & -> & Hall)].
      * left. exists (seg ++ t0), el'. rewrite <- app_assoc. reflexivity.
      * right. exists (seg ++ t0), el'. rewrite <- app_assoc.
        split; [reflexivity|]. rewrite count_app, F1, Hall. reflexivity.
    + destruct Hout as (t0 & calls & Hcalls & Hout). exists (seg ++ t0), calls.
      split; [exact Hcalls|].
      destruct (isinstance e2 WebDriverException).
      * destruct Hout as [-> Hall]. rewrite <- app_assoc. split; [reflexivity|].
        rewrite count_app, F1, Hall. reflexivity.
      * rewrite Hout, <- app_assoc. reflexivity.
Qed.

(** The loop, one attempt after the other. *)
Lemma click_loop_run (attempts : list Z) :
  final_attempt_last attempts = true ->
  forall s : state W,
    let '(r, _, t) := click_loop env element_id attempts s in
    retry_run element_id attempts r t.
Proof.
  induction attempts as [|a rest IH]; [discriminate|].
  intros Hlast s. cbn [click_loop]. unfold bind.
  pose proof (click_attempt_shapes a s) as Hshape.
  destruct (click_attempt env element_id a s) as [[r1 s1] t1].
  cbn [final_attempt_last] in Hlast.
  destruct Hshape as [(el & -> & ->) | [(el & -> & ->) | (e & calls & Hcalls & Hcase)]].
  - (* clicked *)
    unfold ret. cbn [app]. retry_conjuncts; retry_easy.
    left. exists [EFindElement element_id (Normal el); EIsDisplayed el (Normal true)], el.
    reflexivity.
  - (* not displayed *)
    destruct rest as [|b rest'].
    + cbn [click_loop]. unfold ret. cbn [app]. retry_conjuncts; retry_easy.
      right. exists [EFindElement element_id (Normal el)], el. split; reflexivity.
    + apply andb_prop in Hlast. destruct Hlast as [_ Hrest].
      specialize (IH Hrest s1).
      destruct (click_loop env element_id (b :: rest') s1) as [[r2 s2] t2].
      apply retry_run_continue; retry_easy. exact IH.
  - (* an exception *)
    destruct Hcase as [(Hwde & Hnot & -> & ->) | [(Hwde & His & -> & ->) | (Hwde & -> & ->)]].
    + (* slept: another attempt follows *)
      apply Z.eqb_neq in Hnot. rewrite Hnot in Hlast.
      destruct rest as [|b rest']; [discriminate Hlast|].
      cbn [negb andb] in Hlast. specialize (IH Hlast s1).
      destruct (click_loop env element_id (b :: rest') s1) as [[r2 s2] t2].
      apply retry_run_continue; [| | | | | |exact IH];
        destruct Hcalls as [-> | [(el & ->) | (el & ->)]]; retry_easy.
    + (* the last attempt raised *)
      destruct rest as [|b rest'].
      * destruct Hcalls as [-> | [(el & ->) | (el & ->)]]; cbn [app];
          retry_conjuncts; retry_easy.
        -- exists [], [EFindElement element_id (Raised e)].
           split; [left; reflexivity|]. rewrite Hwde. split; reflexivity.
        -- exists [], [EFindElement element_id (Normal el); EIsDisplayed el (Raised e)].
           split; [right; left; exists el; reflexivity|].
           rewrite Hwde. split; reflexivity.
        -- exists [], [EFindElement element_id (Normal el); EIsDisplayed el (Normal true);
                       EClick el (Raised e)].
           split; [right; right; exists el; reflexivity|].
           rewrite Hwde. split; reflexivity.
      * apply Z.eqb_eq in His. rewrite His in Hlast. discriminate Hlast.
    + (* not an error of the browser: raised at once *)
      destruct Hcalls as [-> | [(el & ->) | (el & ->)]];
        retry_conjuncts; retry_easy.
      * exists [], [EFindElement element_id (Raised e)].
        split; [left; reflexivity|]. rewrite Hwde. reflexivity.
      * exists [], [EFindElement element_id (Normal el); EIsDisplayed el (Raised e)].
        split; [right; left; exists el; reflexivity|]. rewrite Hwde. reflexivity.
      * exists [], [EFindElement element_id (Normal el); EIsDisplayed el (Normal true);
                    EClick el (Raised e)].
        split; [right; right; exists el; reflexivity|]. rewrite Hwde. reflexivity.
Qed.

End RetryLoop.

Lemma final_attempt_last_range : final_attempt_last (range MAX_RETRIES) = true.
Proof. reflexivity. Qed.

(** X9: in any world the retry makes at least one and at most four
    lookups of the element, fewer sleeps than lookups (so at most three),
    each of them [WAIT_TIME] seconds long, and touches neither the
    credential file nor the store. *)
Theorem click_retry_bounds :
  forall (W : Type) (env : Env W) (element_id : string) (s : state W),
    let '(_, s', t) := _click_element_with_retry env element_id s in
    steady s s'
    /\ (1 <= count is_find t <= 4)%nat
    /\ (count is_sleep t < count is_find t)%nat
    /\ sleeps_wait_time t = true.
Proof.
  intros W env element_id s.
  pose proof (click_loop_run env element_id (range MAX_RETRIES)
                final_attempt_last_range s) as Hrun.
  pose proof (browses_click_element_with_retry env element_id s) as Hb.
  unfold _click_element_with_retry in *.
  destruct (click_loop env element_id (range MAX_RETRIES) s) as [[r s'] t].
  destruct Hb as [Hsteady _].
  destruct Hrun as ((r0 & t' & Hhead) & Hfinds & Hsleeps & Hwait & _).
  split; [exact Hsteady|]. split; [|split; assumption].
  split; [|exact Hfinds]. rewrite Hhead. unfold count. cbn. lia.
Qed.

(** X10: in any world every click the retry makes comes directly after
    [is_displayed] has answered [True] for that element, and a click that
    went through is the last call of the retry. *)
Theorem click_retry_clicks_are_guarded :
  forall (W : Type) (env : Env W) (element_id : string) (s : state W),
    let '(_, _, t) := _click_element_with_retry env element_id s in
    clicks_guarded t = true
    /\ forallb (fun e => negb (is_clicked e)) (removelast t) = true.
Proof.
  intros W env element_id s.
  pose proof (click_loop_run env element_id (range MAX_RETRIES)
                final_attempt_last_range s) as Hrun.
  unfold _click_element_with_retry.
  destruct (click_loop env element_id (range MAX_RETRIES) s) as [[r s'] t].
  destruct Hrun as ((r0 & t' & Hhead) & _ & _ & _ & Hguard & Hclick & _).
  split; [|exact Hclick].
  rewrite Hhead in *. exact Hguard.
Qed.

(** X11: how the retry ends, in any world.  It returns normally either
    right after a click that went through or after the fourth lookup found
    the element not displayed.  It raises [e] either after four attempts,
    when [e] is a [WebDriverException] of the last attempt, logged before
    it is raised, or at once and without a log entry, when [e] is no
    [WebDriverException]. *)
Theorem click_retry_outcomes :
  forall (W : Type) (env : Env W) (element_id : string) (s : state W),
    let '(r, _, t) := _click_element_with_retry env element_id s in
    match r with
    | Normal _ =>
        (exists t0 el, t = t0 ++ [EClick el (Normal tt)])
        \/ (exists t0 el, t = t0 ++ [EIsDisplayed el (Normal false)]
                          /\ count is_find t = 4%nat)
    | Raised e =>
        exists t0 calls,
          failed_attempt element_id e calls
          /\ if isinstance e WebDriverException
             then t = t0 ++ calls
                       ++ [ELog ERROR ("Failed to click element " ++ element_id
                                       ++ ": " ++ exn_msg e)]
                  /\ count is_find t = 4%nat
             else t = t0 ++ calls
    end.
Proof.
  intros W env element_id s.
  pose proof (click_loop_run env element_id (range MAX_RETRIES)
                final_attempt_last_range s) as Hrun.
  unfold _click_element_with_retry.
  destruct (click_loop env element_id (range MAX_RETRIES) s) as [[r s'] t].
  destruct Hrun as (_ & _ & _ & _ & _ & _ & Hout). exact Hout.
Qed.

(* ================================================================== *)
(** ** The login form *)

(** X12: filling the login form, in any world.  When it returns, it has
    looked up the username and the password field, cleared both, and typed
    the stored user into the first and the stored password into the
    second, in this order and with no other call.  When it raises, the
    calls before the failing one all ended normally, the failing call is
    the last one, and one error log entry follows it exactly when the
    exception is a [WebDriverException].  File and store are never
    touched. *)
Theorem login_form_calls :
  forall (W : Type) (env : Env W) (s : state W),
    let '(r, s', t) := _handle_login_form env s in
    steady s s'
    /\ match r with
       | Normal _ =>
           exists u p,
             t = [ EFindElement "login-form-username" (Normal u);
                   EFindElement "login-form-password" (Normal p);
                   EClear u (Normal tt);
                   EClear p (Normal tt);
                   ESendKeys u (user (credential_settings s)) (Normal tt);
                   ESendKeys p (pwd (credential_settings s)) (Normal tt) ]
       | Raised e =>
           exists done failed,
             t = done ++ [failed]
                   ++ (if isinstance e WebDriverException
                       then [ELog ERROR ("Failed to fill login form: " ++ exn_msg e)]
                       else [])
             /\ raised_by failed = Some e
             /\ forallb ended_normally done = true
             /\ (length done <= 5)%nat
       end.
Proof.
  intros W env s.
  pose proof (browses_handle_login_form env s) as Hb.
  destruct (_handle_login_form env s) as [[r s'] t] eqn:Hrun.
  destruct Hb as [Hsteady _]. split; [exact Hsteady|].
  revert Hrun.
  unfold _handle_login_form, try_except, bind, call, get_settings, log, raise.
  repeat match goal with
         | |- context [match ?c with pair _ _ => _ end] =>
             match type of c with
             | prod (outcome _) W =>
                 destruct c as [[?|?e] ?w]; cbn [world set_world credential_settings]
             end
         end;
    cbv beta iota zeta; cbn [app];
    try match goal with
        | |- context [isinstance ?e WebDriverException] =>
            destruct (isinstance e WebDriverException) eqn:Hcls
        end;
    cbv beta iota zeta; cbn [app];
    intros [= <- <- <-];
    repeat match goal with
           | u : unit |- _ => destruct u
           end;
    rewrite ?Hcls.
  all: try (eexists _, _; reflexivity).
  all: match goal with
       | |- exists done failed, ?t = _ /\ _ =>
           first
             [ exists (removelast (removelast t)), (last (removelast t) (ESleep 0));
               cbn; repeat split; solve [reflexivity | lia]
             | exists (removelast t), (last t (ESleep 0));
               cbn; repeat split; solve [reflexivity | lia] ]
       end.
Qed.

(* ================================================================== *)
(** ** What an acquisition calls *)

Section Emits.

Context {W : Type}.
Variable P : event -> Prop.

Lemma emits_ret {A : Type} (a : A) : emits (W:=W) P (ret a).
Proof. intros s. constructor. Qed.

Lemma emits_raise {A : Type} (e : exn) : emits (W:=W) (A:=A) P (raise e).
Proof. intros s. constructor. Qed.

Lemma emits_lift {A : Type} (o : outcome A) : emits (W:=W) P (lift o).
Proof. intros s. constructor. Qed.

Lemma emits_get_settings : emits (W:=W) P get_settings.
Proof. intros s. constructor. Qed.

Lemma emits_modify_settings (f : CredentialSettings -> CredentialSettings) :
  emits (W:=W) P (modify_settings f).
Proof. intros s. constructor. Qed.

Lemma emits_get_driver : emits (W:=W) P get_driver.
Proof. intros s. constructor. Qed.

Lemma emits_assign_driver (d : option WebDriver) : emits (W:=W) P (assign_driver d).
Proof. intros s. constructor. Qed.

Lemma emits_log (level : log_level) (msg : string) :
  P (ELog level msg) -> emits (W:=W) P (log level msg).
Proof. intros H s. repeat constructor. exact H. Qed.

Lemma emits_sleep (env : Env W) (seconds : Z) :
  P (ESleep seconds) -> emits P (sleep env seconds).
Proof. intros H s. repeat constructor. exact H. Qed.

Lemma emits_call {A : Type} (h : W -> outcome A * W) (ev : outcome A -> event) :
  (forall r, P (ev r)) -> emits P (call h ev).
Proof.
  intros H s. unfold call. destruct (h (world s)) as [r w].
  repeat constructor. apply H.
Qed.

Lemma emits_bind {A B : Type} (m : M W A) (k : A -> M W B) :
  emits P m -> (forall a, emits P (k a)) -> emits P (bind m k).
Proof.
  intros Hm Hk s. unfold bind. specialize (Hm s).
  destruct (m s) as [[[a|e] s1] t1]; cbn [snd] in *; [|exact Hm].
  specialize (Hk a s1). destruct (k a s1) as [[r s2] t2]. cbn [snd] in *.
  apply Forall_app. split; assumption.
Qed.

Lemma emits_try_except {A : Type} (m : M W A) (cls : exn_class) (h : exn -> M W A) :
  emits P m -> (forall e, emits P (h e)) -> emits P (try_except m cls h).
Proof.
  intros Hm Hh s. unfold try_except. specialize (Hm s).
  destruct (m s) as [[[a|e] s1] t1]; cbn [snd] in *; [exact Hm|].
  destruct (isinstance e cls); [|exact Hm].
  specialize (Hh e s1). destruct (h e s1) as [[r s2] t2]. cbn [snd] in *.
  apply Forall_app. split; assumption.
Qed.

Lemma emits_try_finally {A : Type} (m : M W A) (final : M W unit) :
  emits P m -> emits P final -> emits P (try_finally m final).
Proof.
  intros Hm Hf s. unfold try_finally. specialize (Hm s).
  destruct (m s) as [[r s1] t1]. cbn [snd] in *.
  specialize (Hf s1). destruct (final s1) as [[[u|e] s2] t2]; cbn [snd] in *;
    apply Forall_app; split; assumption.
Qed.

Lemma emits_for_each {A : Type} (l : list A) (body : A -> M W unit) :
  (forall a, emits P (body a)) -> emits P (for_each l body).
Proof.
  intros Hb. induction l as [|a l IH]; cbn [for_each].
  - apply emits_ret.
  - apply emits_bind; [apply Hb | intros _; exact IH].
Qed.

Lemma emits_write_json (env : Env W) (obj : pyval) :
  (forall r, P (EOpen CONFIG_PATH "w" r)) -> (forall doc r, P (EDump doc r)) ->
  emits P (write_json env obj).
Proof.
  intros Ho Hd s. unfold write_json.
  destruct (open_w env CONFIG_PATH (world s)) as [[[]|e] w].
  - destruct (file_write env (dump obj) w) as [[[]|e] w']; cbn [snd];
      repeat constructor; auto.
  - cbn [snd]. repeat constructor. apply Ho.
Qed.

End Emits.

Ltac emit :=
  repeat first
    [ apply emits_ret | apply emits_raise | apply emits_lift
    | apply emits_get_settings | apply emits_modify_settings
    | apply emits_get_driver | apply emits_assign_driver
    | apply emits_log; exact I
    | apply emits_sleep; reflexivity
    | apply emits_call; intros; cbn; solve [auto]
    | apply emits_write_json; intros; cbn; solve [auto]
    | apply emits_for_each; intros
    | apply emits_bind; [|intros]
    | apply emits_try_except; [|intros]
    | apply emits_try_finally
    | match goal with
      | |- emits _ (if ?b then _ else _) => destruct b
      | |- emits _ (match ?x with [] => _ | _ :: _ => _ end) => destruct x
      | |- emits _ (match ?x with Some _ => _ | None => _ end) => destruct x
      end ].

Lemma emits_click_loop {W : Type} (env : Env W) (attempts : list Z) :
  emits acquisition_call (click_loop env "login-form-submit" attempts).
Proof.
  induction attempts as [|a rest IH]; cbn [click_loop].
  - apply emits_ret.
  - apply emits_bind; [unfold click_attempt; emit|].
    intros [|]; [apply emits_ret | exact IH].
Qed.

Lemma get_jira_cookies_emits {W : Type} (env : Env W) :
  emits acquisition_call (get_jira_cookies env).
Proof.
  unfold get_jira_cookies, acquire_body, _get_web_driver,
    _click_element_with_retry, _handle_login_form, _save_cookies,
    update_store, save_cookie, persist_settings.
  emit; apply emits_click_loop.
Qed.

(** X13: every call an acquisition makes, in any world and however it
    ends, is one of: starting Chrome with the four fixed options, loading
    the login URL, waiting for the page with the 30 second timeout,
    looking up one of the three form elements, reading their visibility,
    clicking, clearing, typing, sleeping [WAIT_TIME] seconds, reading the
    cookies, opening the credential file for writing, dumping to it,
    logging, and quitting.  An acquisition sends no HTTP request and
    never opens the credential file for reading. *)
Theorem acquisition_calls :
  forall (W : Type) (env : Env W) (s : state W),
    Forall acquisition_call (snd (get_jira_cookies env s)).
Proof.
  intros W env s. apply get_jira_cookies_emits.
Qed.

(* ================================================================== *)
(** ** More on submission *)

(** X14: a submission, in any world and however it ends, leaves the
    credential file, the service's own settings and the driver as they
    were; its first call opens the credential file for reading and what
    follows is at most one HTTP POST and log entries.  Its result and its
    calls depend on the file and the world only, not on the settings the
    service holds in memory. *)
Theorem submission_is_read_only :
  forall (W : Type) (env : Env W) (tempo_data : pyval) (s : state W),
    let '(r, s', t) := post_tempo_worklog env tempo_data s in
    steady s s'
    /\ (exists o rest,
           t = EOpen CONFIG_PATH "r" o :: rest
           /\ forallb (fun e => is_post e || is_log e) rest = true
           /\ (count is_post rest <= 1)%nat)
    /\ (forall s2 : state W,
           world s2 = world s -> file s2 = file s ->
           let '(r2, _, t2) := post_tempo_worklog env tempo_data s2 in
           r2 = r /\ t2 = t).
Proof.
  intros W env tempo_data s.
  destruct (file s) as [e0|msg|doc] eqn:Hf.
  - rewrite (post_unreadable env tempo_data s e0 Hf).
    destruct (isinstance e0 IOError) eqn:Hio;
      (split; [apply steady_refl|]);
      (split; [eexists _, _; repeat split; unfold count; cbn; lia|]);
      intros s2 Hw Hf2;
      rewrite (post_unreadable env tempo_data s2 e0 Hf2), Hio; split; reflexivity.
  - rewrite (post_not_json env tempo_data s msg Hf).
    split; [apply steady_refl|].
    split; [eexists _, _; repeat split; unfold count; cbn; lia|].
    intros s2 Hw Hf2.
    rewrite (post_not_json env tempo_data s2 msg Hf2). split; reflexivity.
  - destruct (from_dict (load doc)) as [saved|e1] eqn:Hd.
    + destruct (request_cookies saved) as [cookies|e2] eqn:Hc.
      * rewrite (post_sent env tempo_data s doc saved cookies Hf Hd Hc).
        destruct (session_post env (worklog_request cookies tempo_data) (world s))
          as [[status|e3] w] eqn:Hpost.
        -- split; [apply steady_set_world|]. split.
           ++ eexists _, _. split; [reflexivity|].
              destruct (status =? 200); (split; [reflexivity | unfold count; cbn; lia]).
           ++ intros s2 Hw Hf2.
              rewrite (post_sent env tempo_data s2 doc saved cookies Hf2 Hd Hc), Hw, Hpost.
              split; reflexivity.
        -- destruct (isinstance e3 ClientError) eqn:Hce;
             (split; [apply steady_set_world|]);
             (split; [eexists _, _; repeat split; unfold count; cbn; lia|]);
             intros s2 Hw Hf2;
             rewrite (post_sent env tempo_data s2 doc saved cookies Hf2 Hd Hc),
               Hw, Hpost, Hce; split; reflexivity.
      * rewrite (post_missing_cookie env tempo_data s doc saved e2 Hf Hd Hc).
        split; [apply steady_refl|].
        split; [eexists _, _; repeat split; unfold count; cbn; lia|].
        intros s2 Hw Hf2.
        rewrite (post_missing_cookie env tempo_data s2 doc saved e2 Hf2 Hd Hc).
        split; reflexivity.
    + rewrite (post_bad_document env tempo_data s doc e1 Hf Hd).
      split; [apply steady_refl|].
      split; [eexists _, _; repeat split; unfold count; cbn; lia|].
      intros s2 Hw Hf2.
      rewrite (post_bad_document env tempo_data s2 doc e1 Hf2 Hd). split; reflexivity.
Qed.

Lemma submission_is_read_only_witness :
  let '(r2, _, t2) :=
    post_tempo_worklog (steady_env (Normal true) (Normal []) (Normal 200))
      sample_worklog
      (mkState tt saved_file (typed_settings "other" "secret" None None)
               (Some "session-9")) in
  r2 = Normal true
  /\ t2 = snd (post_tempo_worklog (steady_env (Normal true) (Normal []) (Normal 200))
                 sample_worklog (fresh_state saved_file)).
Proof.
  generalize (submission_is_read_only unit
                (steady_env (Normal true) (Normal []) (Normal 200))
                sample_worklog (fresh_state saved_file)).
  vm_compute. intros (_ & _ & H).
  apply (H (mkState tt saved_file (typed_settings "other" "secret" None None)
                    (Some "session-9")));
    reflexivity.
Defined.



Lemma request_cookies_typed (u p nj vj nx vx : string) :
  request_cookies (typed_settings u p (Some (nj, vj)) (Some (nx, vx)))
  = Normal (if String.eqb nx nj
            then [(PStr nx, PStr vj)]
            else [(PStr nx, PStr vx); (PStr nj, PStr vj)]).
Proof.
  unfold request_cookies, typed_settings, dict_display2. cbn.
  destruct (String.eqb nx nj); reflexivity.
Qed.

(** X16: with a credential file that holds both cookies under string
    names, a submission makes exactly one POST, and its cookies are the
    xsrf cookie and the session cookie under exactly the names and values
    stored, xsrf first.  If the two stored names are the same string a
    single cookie goes out, under that name and with the session value. *)
Theorem stored_cookies_are_sent :
  forall (W : Type) (env : Env W) (tempo_data : pyval) (s : state W)
         (u p nj vj nx vx : string),
    file s = Holds (settings_document
                      (typed_settings u p (Some (nj, vj)) (Some (nx, vx)))) ->
    let rq := worklog_request
                (if String.eqb nx nj
                 then [(PStr nx, PStr vj)]
                 else [(PStr nx, PStr vx); (PStr nj, PStr vj)])
                tempo_data in
    let '(_, _, t) := post_tempo_worklog env tempo_data s in
    In (EPost rq (fst (session_post env rq (world s)))) t
    /\ count is_post t = 1%nat.
Proof.
  intros W env tempo_data s u p nj vj nx vx Hf rq.
  rewrite (post_sent env tempo_data s _ _ _ Hf
             (from_dict_of_document u p (Some (nj, vj)) (Some (nx, vx)))
             (request_cookies_typed u p nj vj nx vx)).
  fold rq. destruct (session_post env rq (world s)) as [[status|e] w]; cbn [fst].
  - split; [right; left; reflexivity|].
    destruct (status =? 200); reflexivity.
  - destruct (isinstance e ClientError); (split; [right; left; reflexivity | reflexivity]).
Qed.

Lemma stored_cookies_are_sent_witness :
  In (EPost (worklog_request [(PStr "atl.xsrf.token", PStr "tok-9");
                              (PStr "JSESSIONID", PStr "A1B2")] sample_worklog)
            (Normal 500))
     (snd (post_tempo_worklog (steady_env (Normal true) (Normal []) (Normal 500))
             sample_worklog (fresh_state saved_file))).
Proof.
  generalize (stored_cookies_are_sent unit
                (steady_env (Normal true) (Normal []) (Normal 500))
                sample_worklog (fresh_state saved_file)
                "u" "p" "JSESSIONID" "A1B2" "atl.xsrf.token" "tok-9" eq_refl).
  vm_compute. intros [H _]. exact H.
Defined.

(* ================================================================== *)
(** ** What an acquisition stores *)

Section AcquisitionStore.

Context {W : Type}.
Variable env : Env W.

(** Browsing ahead of a part of the acquisition does not disturb what
    holds of its store. *)
Lemma stored_after_browsing {A : Type} (m : M W A) (k : A -> M W unit) :
  browses m ->
  (forall a s, let '(r, s', t) := k a s in stored s r s' t) ->
  forall s, let '(r, s', t) := bind m k s in stored s r s' t.
Proof.
  intros Hm Hk s. unfold bind. specialize (Hm s).
  destruct (m s) as [[[a|e] s1] t1]; destruct Hm as [(F1 & C1 & D1) Q1].
  - specialize (Hk a s1). destruct (k a s1) as [[r s2] t2].
    destruct Hk as [G Hok]. rewrite C1 in G, Hok.
    split; [exact G|]. intros Hr.
    destruct (Hok Hr) as (cookies & before & -> & Qb & Hne & Hus & Hcs & Hfile).
    exists cookies, (t1 ++ before). split; [apply app_assoc|].
    rewrite forallb_app, Q1, Qb. auto.
  - split; [rewrite C1; apply grows_refl | discriminate].
Qed.

(** A persistence step that ends normally has made exactly the two file
    calls. *)
Lemma persist_settings_written (s s1 : state W) (t : list event) :
  persist_settings env s = (Normal tt, s1, t) ->
  t = [ EOpen CONFIG_PATH "w" (Normal tt);
        EDump (settings_document (credential_settings s)) (Normal tt) ]
  /\ file s1 = Holds (settings_document (credential_settings s))
  /\ credential_settings s1 = credential_settings s.
Proof.
  unfold persist_settings, try_except, bind, get_settings, write_json, log, raise.
  cbv beta iota zeta. rewrite settings_document_dump.
  destruct (open_w env CONFIG_PATH (world s)) as [[[]|e] w].
  - destruct (file_write env _ w) as [[[]|e] w'].
    + intros [= <- <-]. repeat split.
    + destruct (isinstance e IOError); discriminate.
  - destruct (isinstance e IOError); discriminate.
Qed.

(** A store update that ends normally was given usable cookies only. *)
Lemma update_store_normal (cookies : list pyval) (s s1 : state W) (t : list event) :
  update_store cookies s = (Normal tt, s1, t) ->
  forallb usable cookies = true
  /\ s1 = set_credential_settings (fold_left absorb cookies (credential_settings s)) s
  /\ t = [].
Proof.
  intros Hrun. destruct (forallb usable cookies) eqn:Hall.
  - rewrite forallb_forall in Hall.
    rewrite (update_store_usable cookies (proj2 (Forall_forall _ _) Hall) s) in Hrun.
    injection Hrun as <- <-. auto.
  - destruct (first_unusable cookies Hall) as (before & bad & after & -> & Hb & Hbad).
    destruct (update_store_stops before after bad Hb Hbad s) as (e & He & _).
    rewrite He in Hrun. discriminate Hrun.
Qed.

Lemma stored_fetch (s : state W) :
  let '(r, s', t) :=
    (cookies <- call (get_cookies env) EGetCookies ;;
     match cookies with
     | [] => raise (Exn ValueError "No cookies obtained")
     | _ :: _ =>
         _save_cookies env cookies ;;
         log INFO "Successfully obtained and saved cookies"
     end)%M s in
  stored s r s' t.
Proof.
  unfold bind at 1, call.
  destruct (get_cookies env (world s)) as [[[|c l]|e] w].
  - cbn. split; [apply grows_refl | discriminate].
  - unfold bind at 1, _save_cookies. unfold bind at 1.
    destruct (update_store_grows (c :: l) (set_world w s)) as (r1 & cs1 & Hup & G).
    rewrite Hup. destruct r1 as [[]|e].
    + destruct (update_store_normal _ _ _ _ Hup) as (Hus & Hs1 & _).
      assert (Hcs : cs1 = fold_left absorb (c :: l) (credential_settings s)).
      { apply (f_equal credential_settings) in Hs1. exact Hs1. }
      pose proof (persist_settings_trace env
                    (set_credential_settings cs1 (set_world w s))) as Hp.
      destruct (persist_settings env (set_credential_settings cs1 (set_world w s)))
        as [[r2 s2] t2] eqn:Hpersist.
      destruct Hp as (_ & Hkeep & _). cbn [credential_settings set_credential_settings] in Hkeep.
      destruct r2 as [[]|e]; unfold log; cbn [app].
      * destruct (persist_settings_written _ _ _ Hpersist) as (-> & Hfile & _).
        cbn [credential_settings set_credential_settings] in Hfile.
        unfold stored. rewrite Hkeep.
        cbn [credential_settings set_credential_settings set_world app] in *.
        split; [exact G|]. intros _.
        exists (c :: l), []. cbn [app forallb].
        split; [reflexivity|]. split; [reflexivity|]. split; [discriminate|].
        split; [exact Hus|]. split; [exact Hcs|]. exact Hfile.
      * unfold stored. rewrite Hkeep. split; [exact G | discriminate].
    + cbn [credential_settings set_credential_settings].
      split; [exact G | discriminate].
  - cbn. split; [apply grows_refl | discriminate].
Qed.

(** The [try] suite and the store. *)
Lemma acquire_body_stored (s : state W) :
  let '(r, s', t) := acquire_body env s in
  grows (credential_settings s) (credential_settings s')
  /\ (r = Normal tt ->
      exists d cookies before,
        t = EChrome chrome_options (Normal d)
              :: before
              ++ [ EGetCookies (Normal cookies);
                   EOpen CONFIG_PATH "w" (Normal tt);
                   EDump (settings_document (credential_settings s')) (Normal tt);
                   ELog INFO "Successfully obtained and saved cookies" ]
        /\ forallb quiet before = true
        /\ cookies <> []
        /\ forallb usable cookies = true
        /\ credential_settings s' = fold_left absorb cookies (credential_settings s)
        /\ file s' = Holds (settings_document (credential_settings s'))).
Proof.
  unfold acquire_body, _get_web_driver. unfold bind at 1, call.
  fold chrome_options.
  destruct (webdriver_Chrome env chrome_options (world s)) as [[d|e] w].
  - unfold bind at 1, assign_driver.
    match goal with
    | |- context [bind ?m ?k ?s1] =>
        assert (H : let '(r, s', t) := bind m k s1 in stored s1 r s' t)
    end.
    { repeat (apply stored_after_browsing;
              [first [ apply browses_call; intros; reflexivity
                     | apply browses_sleep
                     | apply browses_click_element_with_retry
                     | apply browses_handle_login_form ]
              | intros ? ?; cbv beta ]).
      apply stored_fetch. }
    match goal with
    | |- context [bind ?m ?k ?s1] => destruct (bind m k s1) as [[r s'] t]
    end.
    destruct H as [G Hok]. cbn [credential_settings set_driver set_world] in G, Hok.
    split; [exact G|]. intros Hr.
    destruct (Hok Hr) as (cookies & before & -> & Hrest).
    exists d, cookies, before. split; [reflexivity | exact Hrest].
  - split; [apply grows_refl | discriminate].
Qed.

(** [get_jira_cookies] in terms of its [try] suite: the handler adds its
    log entry, and the [finally] clause quits the session if there is one
    and lets an error of the quit replace the outcome. *)
Lemma get_jira_cookies_unfold (s : state W) :
  get_jira_cookies env s
  = let '(rb, sb, tb) := acquire_body env (set_driver None s) in
    match driver sb with
    | Some _ =>
        let '(q, w) := quit env (world sb) in
        (match q with
         | Normal _ => rb
         | Raised eq => Raised eq
         end, set_world w sb, tb ++ retrieval_log rb ++ [EQuit q])
    | None => (rb, sb, tb ++ retrieval_log rb)
    end.
Proof.
  unfold get_jira_cookies. unfold bind at 1, assign_driver, try_finally, try_except.
  destruct (acquire_body env (set_driver None s)) as [[[[]|e] sb] tb];
    unfold retrieval_log.
  - unfold bind, get_driver, call, ret. destruct (driver sb) as [d|].
    + destruct (quit env (world sb)) as [[[]|eq] w]; cbn [app];
        rewrite ?app_nil_r; reflexivity.
    + cbn [app]. rewrite ?app_nil_r. reflexivity.
  - destruct (isinstance e Exception).
    + unfold bind, log, raise, get_driver, call, ret. cbn [app].
      destruct (driver sb) as [d|].
      * destruct (quit env (world sb)) as [[[]|eq] w]; cbn [app];
          rewrite <- ?app_assoc; reflexivity.
      * cbn [app]. rewrite ?app_nil_r. reflexivity.
    + unfold bind, get_driver, call, ret. destruct (driver sb) as [d|].
      * destruct (quit env (world sb)) as [[[]|eq] w]; cbn [app];
          rewrite ?app_nil_r; reflexivity.
      * cbn [app]. rewrite ?app_nil_r. reflexivity.
Qed.

End AcquisitionStore.

(** The shape of an acquisition that returns normally. *)
Lemma acquisition_normal_end :
  forall (W : Type) (env : Env W) (s s' : state W) (t : list event),
    get_jira_cookies env s = (Normal tt, s', t) ->
    exists d cookies before,
      t = EChrome chrome_options (Normal d)
            :: before
            ++ [ EGetCookies (Normal cookies);
                 EOpen CONFIG_PATH "w" (Normal tt);
                 EDump (settings_document (credential_settings s')) (Normal tt);
                 ELog INFO "Successfully obtained and saved cookies";
                 EQuit (Normal tt) ]
      /\ forallb quiet before = true
      /\ cookies <> []
      /\ forallb usable cookies = true
      /\ credential_settings s' = fold_left absorb cookies (credential_settings s)
      /\ file s' = Holds (settings_document (credential_settings s')).
Proof.
  intros W env s s' t. rewrite get_jira_cookies_unfold.
  pose proof (acquire_body_stored env (set_driver None s)) as Hst.
  pose proof (acquire_body_spec env (set_driver None s)) as Hsp.
  destruct (acquire_body env (set_driver None s)) as [[rb sb] tb].
  destruct Hst as [_ Hok].
  destruct Hsp as (options & c & t' & Htb & Hdrv & _).
  destruct (driver sb) as [d0|] eqn:Hd.
  - destruct (quit env (world sb)) as [[[]|eq] w]; [|discriminate].
    intros [= -> <- <-].
    destruct (Hok eq_refl) as (d & cookies & before & -> & Hq & Hne & Hus & Hcs & Hfile).
    exists d, cookies, before. cbn [retrieval_log app].
    split; [|auto].
    cbn [credential_settings set_world]. rewrite <- app_assoc. reflexivity.
  - intros [= -> <- <-].
    destruct (Hok eq_refl) as (d & cookies & before & Ht & _).
    rewrite Ht in Htb. injection Htb as _ <- _.
    discriminate Hdrv.
Qed.

(** X17: an acquisition that returns normally has, in this order,
    started the browser, made quiet calls only (navigation, waits, form
    handling, logs), read a non-empty list of usable cookies, opened the
    credential file and dumped the document of the store, logged the
    success and quit the browser without error.  The store is then the
    fold of the cookies read into the store it started with, and the file
    holds the store's document. *)
Theorem successful_acquisition :
  forall (W : Type) (env : Env W) (s s' : state W) (t : list event),
    get_jira_cookies env s = (Normal tt, s', t) ->
    exists d cookies before,
      t = EChrome chrome_options (Normal d)
            :: before
            ++ [ EGetCookies (Normal cookies);
                 EOpen CONFIG_PATH "w" (Normal tt);
                 EDump (settings_document (credential_settings s')) (Normal tt);
                 ELog INFO "Successfully obtained and saved cookies";
                 EQuit (Normal tt) ]
      /\ forallb quiet before = true
      /\ cookies <> []
      /\ forallb usable cookies = true
      /\ credential_settings s' = fold_left absorb cookies (credential_settings s)
      /\ file s' = Holds (settings_document (credential_settings s')).
Proof.
  exact acquisition_normal_end.
Qed.

Lemma successful_acquisition_witness :
  exists d cookies before,
    snd (get_jira_cookies (steady_env (Normal true) (Normal sample_cookies) (Normal 200))
           (fresh_state truncated))
    = EChrome chrome_options (Normal d)
        :: before
        ++ [ EGetCookies (Normal cookies);
             EOpen CONFIG_PATH "w" (Normal tt);
             EDump (settings_document
                      (typed_settings Config.DEFAULT_USER Config.DEFAULT_PASSWORD
                         (Some ("JSESSIONID", "A1B2")) (Some ("atl.xsrf.token", "tok-9"))))
                   (Normal tt);
             ELog INFO "Successfully obtained and saved cookies";
             EQuit (Normal tt) ]
    /\ forallb quiet before = true.
Proof.
  assert (Hrun : get_jira_cookies
                   (steady_env (Normal true) (Normal sample_cookies) (Normal 200))
                   (fresh_state truncated)
                 = (Normal tt,
                    mkState tt
                      (Holds (settings_document
                                (typed_settings Config.DEFAULT_USER Config.DEFAULT_PASSWORD
                                   (Some ("JSESSIONID", "A1B2"))
                                   (Some ("atl.xsrf.token", "tok-9")))))
                      (typed_settings Config.DEFAULT_USER Config.DEFAULT_PASSWORD
                         (Some ("JSESSIONID", "A1B2")) (Some ("atl.xsrf.token", "tok-9")))
                      (Some "session-1"),
                    snd (get_jira_cookies
                           (steady_env (Normal true) (Normal sample_cookies) (Normal 200))
                           (fresh_state truncated))))
    by (vm_compute; reflexivity).
  destruct (successful_acquisition unit _ _ _ _ Hrun)
    as (d & cookies & before & Ht & Hq & _).
  exists d, cookies, before. split; [exact Ht | exact Hq].
Defined.

(** X18: whatever the browser does and however the acquisition ends, the
    service's store keeps its user and password and loses no cookie it
    held before. *)
Theorem acquisition_store_only_grows :
  forall (W : Type) (env : Env W) (s : state W),
    let '(_, s', _) := get_jira_cookies env s in
    grows (credential_settings s) (credential_settings s').
Proof.
  intros W env s. rewrite get_jira_cookies_unfold.
  pose proof (acquire_body_stored env (set_driver None s)) as Hst.
  destruct (acquire_body env (set_driver None s)) as [[rb sb] tb].
  destruct Hst as [G _]. cbn [credential_settings set_driver] in G.
  destruct (driver sb); [destruct (quit env (world sb)) as [q w']|]; exact G.
Qed.

(** X19: when the browser cannot be started, the acquisition raises the
    error of the start, after one error log entry if it is an
    [Exception]; it makes no other call (no navigation, no quit, no file
    access) and leaves file and store as they were. *)
Theorem driver_creation_failure :
  forall (W : Type) (env : Env W) (s : state W) (e : exn) (w : W),
    webdriver_Chrome env chrome_options (world s) = (Raised e, w) ->
    get_jira_cookies env s
    = (Raised e,
       mkState w (file s) (credential_settings s) None,
       EChrome chrome_options (Raised e)
         :: (if isinstance e Exception
             then [ELog ERROR ("Error during cookie retrieval: " ++ exn_msg e)]
             else [])).
Proof.
  intros W env s e w Hchrome. rewrite get_jira_cookies_unfold.
  unfold acquire_body, _get_web_driver. unfold bind at 1, call.
  fold chrome_options. cbn [world set_driver]. rewrite Hchrome.
  cbn [driver set_world set_driver retrieval_log].
  destruct (isinstance e Exception); reflexivity.
Qed.

Lemma driver_creation_failure_witness :
  get_jira_cookies no_browser_env (fresh_state saved_file)
  = (Raised (Exn WebDriverException "chromedriver not found"),
     fresh_state saved_file,
     [ EChrome chrome_options (Raised (Exn WebDriverException "chromedriver not found"));
       ELog ERROR "Error during cookie retrieval: chromedriver not found" ]).
Proof.
  exact (driver_creation_failure unit no_browser_env (fresh_state saved_file)
           (Exn WebDriverException "chromedriver not found") tt eq_refl).
Defined.

(** X20: an error of [driver.quit()] in the [finally] clause is what the
    acquisition raises, whatever the [try] suite did before: even an
    acquisition that wrote the credential file ends with that error.  The
    failed quit is the last call of the run. *)
Theorem quit_error_replaces_outcome :
  forall (W : Type) (env : Env W) (s : state W),
    let '(r, _, t) := get_jira_cookies env s in
    forall eq, In (EQuit (Raised eq)) t ->
               r = Raised eq /\ exists t0, t = t0 ++ [EQuit (Raised eq)].
Proof.
  intros W env s. rewrite get_jira_cookies_unfold.
  pose proof (acquire_body_spec env (set_driver None s)) as Hsp.
  destruct (acquire_body env (set_driver None s)) as [[rb sb] tb].
  destruct Hsp as (options & c & t' & -> & _ & _ & Hns & _).
  assert (Hnq : forall q l, forallb quiet l = true ->
                            ~ In (EQuit q) (EChrome options c :: t' ++ l)).
  { intros q l Hl [H|H]; [discriminate H|].
    apply in_app_or in H. destruct H as [H|H].
    - rewrite forallb_forall in Hns. specialize (Hns _ H). discriminate Hns.
    - rewrite forallb_forall in Hl. specialize (Hl _ H). discriminate Hl. }
  assert (Hlog : forallb quiet (retrieval_log rb) = true).
  { unfold retrieval_log. destruct rb as [[]|e]; [reflexivity|].
    destruct (isinstance e Exception); reflexivity. }
  destruct (driver sb) as [d|].
  - destruct (quit env (world sb)) as [q w].
    intros eq Hin.
    rewrite app_assoc in Hin |- *.
    apply in_app_or in Hin. destruct Hin as [Hin|Hin].
    + destruct (Hnq _ _ Hlog Hin).
    + destruct Hin as [[= ->]|[]]. split; [reflexivity|].
      eexists. reflexivity.
  - intros eq Hin. destruct (Hnq _ _ Hlog Hin).
Qed.

Lemma quit_error_replaces_outcome_witness :
  let '(r, s', _) := get_jira_cookies failing_quit_env (fresh_state truncated) in
  r = Raised (Exn WebDriverException "chrome not reachable")
  /\ file s'
     = Holds (settings_document
                (typed_settings Config.DEFAULT_USER Config.DEFAULT_PASSWORD
                   (Some ("JSESSIONID", "A1B2")) (Some ("atl.xsrf.token", "tok-9")))).
Proof.
  generalize (quit_error_replaces_outcome unit failing_quit_env (fresh_state truncated)).
  vm_compute. intros H. split; [|reflexivity].
  apply H. repeat first [left; reflexivity | right].
Defined.

(* ================================================================== *)
(** ** The entry point, end to end *)

Lemma find_last_some {A : Type} (p : A -> bool) (l : list A) (x : A) :
  find_last p l = Some x -> In x l /\ p x = true.
Proof.
  revert x. induction l as [|b l IH]; cbn; [discriminate|].
  intros x. destruct (find_last p l) as [z|].
  - intros [= <-]. destruct (IH z eq_refl). auto.
  - destruct (p b) eqn:Hb; [|discriminate]. intros [= <-]. auto.
Qed.

(** A usable cookie is a raw one, or one the loop passes over. *)
Lemma usable_cases (c : pyval) :
  usable c = true ->
  raw_cookie c = true
  \/ (is_session_cookie c = false /\ is_xsrf_cookie c = false
      /\ forall s, absorb s c = s).
Proof.
  unfold usable, raw_cookie, absorb, captured.
  destruct (cookie_name c) as [n|]; [|discriminate].
  destruct (cookie_value c) as [v|]; [left; reflexivity|].
  destruct (is_session_cookie c); [discriminate|].
  destruct (is_xsrf_cookie c); [discriminate|].
  intros _. right. auto.
Qed.

Lemma fold_absorb_usable (l : list pyval) :
  forallb usable l = true ->
  forall s,
    JSESSIONID (fold_left absorb l s)
    = match find_last is_session_cookie l with
      | Some c => captured c
      | None => JSESSIONID s
      end
    /\ AtlassianXsrfToken (fold_left absorb l s)
       = match find_last is_xsrf_cookie l with
         | Some c => captured c
         | None => AtlassianXsrfToken s
         end.
Proof.
  induction l as [|a l IH]; intros H s; cbn [fold_left find_last]; [auto|].
  cbn [forallb] in H. apply andb_prop in H. destruct H as [Ha Hl].
  destruct (IH Hl (absorb s a)) as [-> ->].
  destruct (usable_cases a Ha) as [Hr|(Hs & Hx & Hid)].
  - rewrite (absorb_session s a Hr), (absorb_xsrf s a Hr).
    split.
    + destruct (find_last is_session_cookie l); [reflexivity|].
      destruct (is_session_cookie a); reflexivity.
    + destruct (find_last is_xsrf_cookie l); [reflexivity|].
      destruct (is_xsrf_cookie a); reflexivity.
  - rewrite Hid, Hs, Hx.
    split; [destruct (find_last is_session_cookie l) | destruct (find_last is_xsrf_cookie l)];
      reflexivity.
Qed.

Lemma captured_name (c : pyval) (n : string) (v : pyval) :
  captured c = Some (mkCookieSet (PStr n) v) -> cookie_name c = Some n.
Proof.
  unfold captured. destruct (cookie_name c) as [n'|]; [|discriminate].
  destruct (cookie_value c); [|discriminate]. intros [= -> _]. reflexivity.
Qed.

(** X21: the entry point, end to end.  When the acquisition of [main]
    returns normally and the last session cookie and the last xsrf cookie
    of the list the browser handed out have string values, the run goes on
    to read the credential file and to send one POST with the example
    payload whose cookies are exactly those two, xsrf first, under the
    names and values the browser gave; only log entries follow. *)
Theorem main_sends_acquired_cookies :
  forall (W : Type) (env : Env W) (s s1 : state W) (t1 : list event)
         (cookies : list pyval) (cj cx : pyval) (nj vj nx vx : string),
    get_jira_cookies env (set_credential_settings default_settings s)
    = (Normal tt, s1, t1) ->
    In (EGetCookies (Normal cookies)) t1 ->
    find_last is_session_cookie cookies = Some cj ->
    captured cj = Some (named_cookie (nj, vj)) ->
    find_last is_xsrf_cookie cookies = Some cx ->
    captured cx = Some (named_cookie (nx, vx)) ->
    let rq := worklog_request [(PStr nx, PStr vx); (PStr nj, PStr vj)]
                              example_tempo_data in
    exists t2,
      snd (main env s)
      = t1 ++ EOpen CONFIG_PATH "r" (Normal tt)
             :: EPost rq (fst (session_post env rq (world s1))) :: t2
      /\ forallb is_log t2 = true.
Proof.
  intros W env s s1 t1 cookies cj cx nj vj nx vx Hrun Hin Hj Hcj Hx Hcx rq.
  destruct (acquisition_normal_end W env _ _ _ Hrun)
    as (d & cookies' & before & Ht & Hq & _ & Hus & Hcs & Hfile).
  assert (Hsame : cookies' = cookies).
  { rewrite Ht in Hin. destruct Hin as [Hin|Hin]; [discriminate Hin|].
    apply in_app_or in Hin. destruct Hin as [Hin|Hin].
    - rewrite forallb_forall in Hq. specialize (Hq _ Hin). discriminate Hq.
    - destruct Hin as [Hin|Hin]; [injection Hin as Hin; exact Hin|].
      repeat (destruct Hin as [Hin|Hin]; [discriminate Hin|]). destruct Hin. }
  subst cookies'.
  assert (Hstore : credential_settings s1
                   = typed_settings Config.DEFAULT_USER Config.DEFAULT_PASSWORD
                       (Some (nj, vj)) (Some (nx, vx))).
  { destruct (fold_absorb_usable cookies Hus default_settings) as [Ej Ex].
    destruct (fold_absorb_user cookies default_settings) as [Eu Ep].
    cbn [credential_settings set_credential_settings] in Hcs.
    rewrite <- Hcs in Ej, Ex, Eu, Ep. rewrite Hj, Hcj in Ej. rewrite Hx, Hcx in Ex.
    destruct (credential_settings s1) as [u p j x].
    cbn [user pwd JSESSIONID AtlassianXsrfToken] in Ej, Ex, Eu, Ep.
    subst u p j x. reflexivity. }
  assert (Hnames : String.eqb nx nj = false).
  { destruct (find_last_some _ _ _ Hj) as [_ Hsj].
    destruct (find_last_some _ _ _ Hx) as [_ Hsx].
    unfold is_session_cookie in Hsj. unfold is_xsrf_cookie in Hsx.
    rewrite (captured_name cj nj _ Hcj) in Hsj.
    rewrite (captured_name cx nx _ Hcx) in Hsx.
    destruct (String.eqb nx nj) eqn:E; [|reflexivity].
    apply String.eqb_eq in E. subst nx.
    rewrite (lower_names_apart nj Hsj) in Hsx. discriminate Hsx. }
  rewrite Hstore in Hfile.
  pose proof (post_sent env example_tempo_data s1 _ _ _ Hfile
                (from_dict_of_document Config.DEFAULT_USER Config.DEFAULT_PASSWORD
                   (Some (nj, vj)) (Some (nx, vx)))
                (request_cookies_typed Config.DEFAULT_USER Config.DEFAULT_PASSWORD
                   nj vj nx vx)) as Hpost.
  rewrite Hnames in Hpost. fold rq in Hpost.
  unfold main. unfold bind at 1, modify_settings.
  cbv beta iota zeta. unfold bind at 1. rewrite Hrun.
  cbv beta iota zeta. unfold bind at 1. rewrite Hpost.
  destruct (session_post env rq (world s1)) as [[status|e] w]; cbn [fst].
  - eexists. cbn [ret snd app]. split; [reflexivity|].
    destruct (status =? 200); reflexivity.
  - destruct (isinstance e ClientError); eexists; cbn [ret snd app];
      (split; [reflexivity|]); reflexivity.
Qed.

Lemma main_sends_acquired_cookies_witness :
  exists t2,
    snd (main (steady_env (Normal true) (Normal kelvin_cookies) (Normal 200))
           (fresh_state saved_file))
    = snd (get_jira_cookies (steady_env (Normal true) (Normal kelvin_cookies) (Normal 200))
             (fresh_state saved_file))
        ++ EOpen CONFIG_PATH "r" (Normal tt)
        :: EPost (worklog_request [(PStr kelvin_name, PStr "t2");
                                   (PStr "JSESSIONID", PStr "new")]
                    example_tempo_data)
                 (Normal 200)
        :: t2
    /\ forallb is_log t2 = true.
Proof.
  assert (Hrun : get_jira_cookies
                   (steady_env (Normal true) (Normal kelvin_cookies) (Normal 200))
                   (set_credential_settings default_settings (fresh_state saved_file))
                 = (Normal tt,
                    mkState tt
                      (Holds (settings_document
                                (typed_settings Config.DEFAULT_USER Config.DEFAULT_PASSWORD
                                   (Some ("JSESSIONID", "new"))
                                   (Some (kelvin_name, "t2")))))
                      (typed_settings Config.DEFAULT_USER Config.DEFAULT_PASSWORD
                         (Some ("JSESSIONID", "new")) (Some (kelvin_name, "t2")))
                      (Some "session-1"),
                    snd (get_jira_cookies
                           (steady_env (Normal true) (Normal kelvin_cookies) (Normal 200))
                           (fresh_state saved_file))))
    by (vm_compute; reflexivity).
  assert (Hin : In (EGetCookies (Normal kelvin_cookies))
                   (snd (get_jira_cookies
                           (steady_env (Normal true) (Normal kelvin_cookies) (Normal 200))
                           (fresh_state saved_file))))
    by (vm_compute; repeat first [left; reflexivity | right]).
  exact (main_sends_acquired_cookies unit _ _ _ _ kelvin_cookies
           (raw "JSESSIONID" "new") (raw kelvin_name "t2")
           "JSESSIONID" "new" kelvin_name "t2"
           Hrun Hin eq_refl eq_refl eq_refl eq_refl).
Defined.

(** X22: the entry point sends a POST only after an acquisition that went
    through: in the calls of [main], every POST comes after a successful
    dump of the credential file, the success log entry and a quit of the
    browser that ended without error, in this order and next to each
    other.  A run whose acquisition raises sends nothing. *)
Theorem main_posts_only_after_acquisition :
  forall (W : Type) (env : Env W) (s : state W),
    let '(_, _, t) := main env s in
    forall rq o,
      In (EPost rq o) t ->
      exists t1 doc t2,
        t = t1 ++ EDump doc (Normal tt)
               :: ELog INFO "Successfully obtained and saved cookies"
               :: EQuit (Normal tt) :: t2
        /\ In (EPost rq o) t2.
Proof.
  intros W env s. unfold main. unfold bind at 1, modify_settings.
  cbv beta iota zeta. unfold bind at 1.
  pose proof (get_jira_cookies_emits env
                (set_credential_settings default_settings s)) as Hcalls.
  destruct (get_jira_cookies env (set_credential_settings default_settings s))
    as [[[[]|e] s1] t1] eqn:Hrun; cbn [snd] in Hcalls.
  - destruct (acquisition_normal_end W env _ _ _ Hrun)
      as (d & cookies & before & Ht & _).
    cbv beta iota zeta.
    destruct (bind (post_tempo_worklog env example_tempo_data) (fun _ => ret tt) s1)
      as [[r2 s2] t2].
    cbn [app]. intros rq o Hin.
    apply in_app_or in Hin. destruct Hin as [Hin|Hin].
    + rewrite Forall_forall in Hcalls. destruct (Hcalls _ Hin).
    + exists (EChrome chrome_options (Normal d)
                :: before ++ [EGetCookies (Normal cookies);
                              EOpen CONFIG_PATH "w" (Normal tt)]),
        (settings_document (credential_settings s1)), t2.
      split; [|exact Hin].
      rewrite Ht. cbn [app]. rewrite <- !app_assoc. reflexivity.
  - cbv beta iota zeta. cbn [app]. intros rq o Hin.
    rewrite Forall_forall in Hcalls. destruct (Hcalls _ Hin).
Qed.

Lemma main_posts_only_after_acquisition_witness :
  exists t1 doc t2,
    snd (main (steady_env (Normal true) (Normal sample_cookies) (Normal 500))
           (fresh_state truncated))
    = t1 ++ EDump doc (Normal tt)
           :: ELog INFO "Successfully obtained and saved cookies"
           :: EQuit (Normal tt) :: t2
    /\ In (EPost (worklog_request [(PStr "atl.xsrf.token", PStr "tok-9");
                                   (PStr "JSESSIONID", PStr "A1B2")]
                    example_tempo_data)
                 (Normal 500)) t2.
Proof.
  assert (Hin : In (EPost (worklog_request [(PStr "atl.xsrf.token", PStr "tok-9");
                                            (PStr "JSESSIONID", PStr "A1B2")]
                             example_tempo_data)
                          (Normal 500))
                   (snd (main (steady_env (Normal true) (Normal sample_cookies) (Normal 500))
                           (fresh_state truncated))))
    by (vm_compute; repeat first [left; reflexivity | right]).
  generalize (main_posts_only_after_acquisition unit
                (steady_env (Normal true) (Normal sample_cookies) (Normal 500))
                (fresh_state truncated)).
  destruct (main (steady_env (Normal true) (Normal sample_cookies) (Normal 500))
              (fresh_state truncated)) as [[r s'] t].
  intros H. exact (H _ _ Hin).
Defined.
